(** * AgriSense client: advisory workflow, payload normalizer, history store
      and disease upload pipeline

    A shallow embedding of the stateful logic of the AgriSense React client:

    - [src/pages/CropForm.jsx]: [buildPayload], [resolveLocation] and the
      preview / confirm handlers of the [CropForm] component;
    - [src/pages/Results.jsx]: [saveToHistory];
    - [src/pages/Home.jsx]: the history read of the [Home] component;
    - the [DiseaseDetection] component: [processFile], [handleDrop],
      [handleDetect], [confidencePercent] and the low-confidence notice.

    JavaScript values are embedded as an inductive type; a number is the
    exact rational value of a double, or [NaN] or one of the two
    infinities, and a product is rounded to the nearest double as IEEE 754
    binary64 multiplication does ([round64]); the sign of zero is not
    represented.
    Strings are sequences of 8-bit code units.  React state is a record and
    every handler is a function from state to state; the code that runs
    after an [await] is a separate function applied to the reply. *)

From Stdlib Require Import String Ascii List Bool ZArith QArith Qabs Qround
  Qminmax Lia DecimalString.
Import ListNotations.

Set Warnings "-register-all".

Open Scope list_scope.
Open Scope string_scope.

(* ===================================================================== *)
(** * Part I. Definitions                                                 *)
(* ===================================================================== *)

(** ** Host language: values, truthiness, property reads, conversions *)

Module JS.

(** A JavaScript number. *)
Inductive number :=
| Finite (q : Q)
| NaN
| PosInf
| NegInf.

(** A JavaScript value, as produced by [JSON.parse], by a property read
    or by a literal. *)
Inductive value :=
| VUndefined
| VNull
| VBool (b : bool)
| VNum (n : number)
| VStr (s : string)
| VArr (items : list value)
| VObj (props : list (string * value)).

(** What the host environment supplies and this development does not
    define: [Number(s)] on a string, [Number.prototype.toString] on a
    finite number, and the message of the [TypeError] raised by a property
    read on [null]. *)
Class Host := {
  Number : string -> number;
  numberToString : Q -> string;
  typeErrorMessage : string
}.

Definition Qltb (a b : Q) : bool := negb (Qle_bool b a).

(** [a < b] on numbers; every comparison with [NaN] is false. *)
Definition num_ltb (a b : number) : bool :=
  match a, b with
  | NaN, _ | _, NaN => false
  | Finite x, Finite y => Qltb x y
  | NegInf, NegInf => false
  | NegInf, _ => true
  | _, PosInf => match a with PosInf => false | _ => true end
  | _, _ => false
  end.

Definition num_gtb (a b : number) : bool := num_ltb b a.

(** [a >= b]: false when either side is [NaN]. *)
Definition num_geb (a b : number) : bool :=
  match a, b with
  | NaN, _ | _, NaN => false
  | _, _ => negb (num_ltb a b)
  end.

Definition Qsign (q : Q) : comparison := (Qnum q ?= 0)%Z.

(** *** Rounding to binary64

    Every finite double is a whole number of units of [2^-1074]: a
    significand below [2^53] times a power of two.  [round_units n d] is
    the double nearest to [n / d] (for [0 <= n], [0 < d]) counted in these
    units, ties going to the even significand, and [None] when the nearest
    value is [2^1024] or more. *)

(** The integer nearest to [n / d], ties to even. *)
Definition rne (n d : Z) : Z :=
  let f := (n / d)%Z in
  match (2 * (n mod d) ?= d)%Z with
  | Lt => f
  | Gt => (f + 1)%Z
  | Eq => if Z.even f then f else (f + 1)%Z
  end.

(** The number of units in 1. *)
Definition ulps : Z := (2 ^ 1074)%Z.

(** The spacing, as a power of two in units, of the doubles around a
    value whose whole number of units is [F]: 53 significant bits. *)
Definition spacing (F : Z) : Z := Z.max (Z.log2 F - 52) 0.

Definition round_units (n d : Z) : option Z :=
  let N := (n * ulps)%Z in
  let j := spacing (N / d) in
  let M := (rne N (d * 2 ^ j) * 2 ^ j)%Z in
  if (2 ^ 2098 <=? M)%Z then None else Some M.

(** The double nearest to the rational [x]. *)
Definition round64 (x : Q) : number :=
  let neg := (Qnum x <? 0)%Z in
  match round_units (Z.abs (Qnum x)) (Zpos (Qden x)) with
  | Some M => Finite (Qred (Qmake (if neg then (- M)%Z else M) (Z.to_pos ulps)))
  | None => if neg then NegInf else PosInf
  end.

(** The number a decimal literal of the source denotes. *)
Definition double (q : Q) : number := round64 q.

(** [a * b]. *)
Definition num_mul (a b : number) : number :=
  match a, b with
  | NaN, _ | _, NaN => NaN
  | Finite x, Finite y => round64 (x * y)
  | Finite x, PosInf | PosInf, Finite x =>
      match Qsign x with Eq => NaN | Gt => PosInf | Lt => NegInf end
  | Finite x, NegInf | NegInf, Finite x =>
      match Qsign x with Eq => NaN | Gt => NegInf | Lt => PosInf end
  | PosInf, PosInf | NegInf, NegInf => PosInf
  | PosInf, NegInf | NegInf, PosInf => NegInf
  end.

(** [Math.min(a, b)]. *)
Definition Math_min (a b : number) : number :=
  match a, b with
  | NaN, _ | _, NaN => NaN
  | _, _ => if num_ltb b a then b else a
  end.

(** Truthiness, as used by [if], [!], [||], [&&] and [?:]. *)
Definition truthy (v : value) : bool :=
  match v with
  | VUndefined | VNull => false
  | VBool b => b
  | VNum (Finite q) => negb (Qeq_bool q 0)
  | VNum NaN => false
  | VNum _ => true
  | VStr s => negb (s =? "")
  | VArr _ | VObj _ => true
  end.

(** [a || b]. *)
Definition or_ (a b : value) : value := if truthy a then a else b.

(** [a && b]. *)
Definition and_ (a b : value) : value := if truthy a then b else a.

Definition nullish (v : value) : bool :=
  match v with VUndefined | VNull => true | _ => false end.

Fixpoint lookup (k : string) (props : list (string * value)) : value :=
  match props with
  | [] => VUndefined
  | (k', v) :: rest => if k' =? k then v else lookup k rest
  end.

(** [v.k] for a [v] that is neither [null] nor [undefined]; the keys read
    in this program are own properties of parsed objects only, so every
    other receiver yields [undefined].  Call sites check [nullish] first
    where the source can raise. *)
Definition get (v : value) (k : string) : value :=
  match v with
  | VObj props => lookup k props
  | _ => VUndefined
  end.

(** [v?.k]. *)
Definition get_opt (v : value) (k : string) : value :=
  if nullish v then VUndefined else get v k.

(** [typeof v === "number"]. *)
Definition is_number (v : value) : bool :=
  match v with VNum _ => true | _ => false end.

(** [typeof v === "string"]. *)
Definition is_string (v : value) : bool :=
  match v with VStr _ => true | _ => false end.

Definition isArray (v : value) : bool :=
  match v with VArr _ => true | _ => false end.

Section WithHost.
Context {H : Host}.

Definition num_to_string (n : number) : string :=
  match n with
  | Finite q => numberToString q
  | NaN => "NaN"
  | PosInf => "Infinity"
  | NegInf => "-Infinity"
  end.

(** [String(v)], the conversion applied by [new Error(v)] and, on each
    element that is not [null] or [undefined], by [Array.prototype.join]. *)
Fixpoint ToString (v : value) : string :=
  match v with
  | VUndefined => "undefined"
  | VNull => "null"
  | VBool true => "true"
  | VBool false => "false"
  | VNum n => num_to_string n
  | VStr s => s
  | VArr items =>
      String.concat ","
        (map (fun x => if nullish x then "" else ToString x) items)
  | VObj _ => "[object Object]"
  end.

(** [items.join(sep)]. *)
Definition join (sep : string) (items : list value) : string :=
  String.concat sep
    (map (fun x => if nullish x then "" else ToString x) items).

End WithHost.

(** White space and line terminators removed by [String.prototype.trim],
    among the code units below 256. *)
Definition is_ws (a : ascii) : bool :=
  let n := nat_of_ascii a in
  (n =? 9)%nat || (n =? 10)%nat || (n =? 11)%nat || (n =? 12)%nat
  || (n =? 13)%nat || (n =? 32)%nat || (n =? 160)%nat.

Fixpoint trimStart (s : string) : string :=
  match s with
  | EmptyString => EmptyString
  | String a rest => if is_ws a then trimStart rest else s
  end.

Fixpoint trimEnd (s : string) : string :=
  match s with
  | EmptyString => EmptyString
  | String a rest =>
      let rest' := trimEnd rest in
      if is_ws a && (rest' =? "") then EmptyString else String a rest'
  end.

(** [s.trim()]. *)
Definition trim (s : string) : string := trimEnd (trimStart s).

(** [s.startsWith(p)]. *)
Definition startsWith (p s : string) : bool := String.prefix p s.

(** [s.slice(0, n)] on a string. *)
Definition str_slice0 (n : nat) (s : string) : string := String.substring 0 n s.

Definition digits_of_N (n : N) : string :=
  NilEmpty.string_of_uint (N.to_uint n).

Fixpoint zeros (k : nat) : string :=
  match k with O => "" | S k' => String "0"%char (zeros k') end.

(** The integer nearest to [y], the larger one on a tie. *)
Definition nearest (y : Q) : Z := Qfloor (y + (1 # 2)).

(** The decimal digits of [n] with a point before the last [f] of them,
    zeros added in front so that a digit precedes the point. *)
Definition fixed_digits (n : N) (f : nat) : string :=
  let m := digits_of_N n in
  let m := if (String.length m <=? f)%nat
           then zeros (S f - String.length m) ++ m else m in
  let k := String.length m in
  match f with
  | O => m
  | _ => String.substring 0 (k - f) m ++ "." ++ String.substring (k - f) f m
  end.

(** [x.toFixed(f)] on a finite number: the integer [n] with [n / 10^f]
    nearest to [|x|], the larger one on a tie, printed with [f] decimals
    and preceded by the sign when [x < 0]; from [10^21] on the host's
    [toString] is used. *)
Definition toFixed {H : Host} (x : Q) (f : nat) : string :=
  if Qle_bool (inject_Z (10 ^ 21)) (Qabs x) then numberToString x
  else
    let n := Z.to_N (nearest (Qabs x * inject_Z (10 ^ Z.of_nat f))) in
    (if Qltb x 0 then "-" else "") ++ fixed_digits n f.

End JS.

(** A host used to run the definitions on concrete inputs: [Number] reads
    unsigned decimal integers (the empty string as [0]), and anything else
    as [NaN]. *)
Module SampleHost.
Import JS.

Definition digit_of (a : ascii) : option N :=
  let n := N_of_ascii a in
  if ((48 <=? n) && (n <=? 57))%N then Some (n - 48)%N else None.

Fixpoint read_digits (acc : N) (s : string) : option N :=
  match s with
  | EmptyString => Some acc
  | String a rest =>
      match digit_of a with
      | Some d => read_digits (10 * acc + d)%N rest
      | None => None
      end
  end.

Definition Number_dec (s : string) : number :=
  match read_digits 0%N s with
  | Some n => Finite (inject_Z (Z.of_N n))
  | None => NaN
  end.

Definition host : Host := {|
  Number := Number_dec;
  numberToString := fun q => "<number>";
  typeErrorMessage := "Cannot read properties of null"
|}.
End SampleHost.

Import JS.

(** A fetch as the handlers see it: the promise rejects, or the response
    has a non-2xx status ([errData] is the parsed body, [null] when the body
    does not parse), or it is 2xx and [response.json()] rejects, or it is
    2xx with parsed body [data]. *)
Inductive reply (A : Type) :=
| NetworkError (message : string)
| HttpError (errData : value)
| HttpOkUnparsable (message : string)
| HttpOk (data : A).
Arguments NetworkError {A} message.
Arguments HttpError {A} errData.
Arguments HttpOkUnparsable {A} message.
Arguments HttpOk {A} data.

(** [m || fallback] on strings. *)
Definition or_str (m fallback : string) : string :=
  if m =? "" then fallback else m.

(** ** The raw form ([INITIAL_FORM], CropForm.jsx) *)

Module Form.
Record t := {
  location : string;
  previous_crop : string;
  land_size : string;
  irrigation_type : string;
  goal : string;
  temperature : string;
  humidity : string;
  rainfall : string;
  N : string;
  P : string;
  K : string;
  ph : string
}.

Definition INITIAL_FORM : t := {|
  location := ""; previous_crop := ""; land_size := "";
  irrigation_type := ""; goal := ""; temperature := ""; humidity := "";
  rainfall := ""; N := ""; P := ""; K := ""; ph := ""
|}.

Definition set_location (v : string) (f : t) : t := {|
  location := v; previous_crop := previous_crop f; land_size := land_size f;
  irrigation_type := irrigation_type f; goal := goal f;
  temperature := temperature f; humidity := humidity f;
  rainfall := rainfall f; N := N f; P := P f; K := K f; ph := ph f
|}.

(** [{ ...prev, [name]: value }] for the names the inputs of the form
    carry; another name adds a property no code reads. *)
Definition set (name v : string) (f : t) : t :=
  let pick (k : string) (old : string) := if k =? name then v else old in
  {| location := pick "location" (location f);
     previous_crop := pick "previous_crop" (previous_crop f);
     land_size := pick "land_size" (land_size f);
     irrigation_type := pick "irrigation_type" (irrigation_type f);
     goal := pick "goal" (goal f);
     temperature := pick "temperature" (temperature f);
     humidity := pick "humidity" (humidity f);
     rainfall := pick "rainfall" (rainfall f);
     N := pick "N" (N f);
     P := pick "P" (P f);
     K := pick "K" (K f);
     ph := pick "ph" (ph f) |}.
End Form.

(** ** The request body ([AdvisoryInputs]); [None] is [null] *)

Module ManualSoil.
Record t := { N : number; P : number; K : number; ph : number }.
End ManualSoil.

Module Payload.
Record t := {
  location : string;
  previous_crop : option string;
  land_size : option number;
  irrigation_type : option string;
  goal : option string;
  temperature : option number;
  humidity : option number;
  rainfall : option number;
  manual_soil : option ManualSoil.t
}.
End Payload.

Definition num (z : Z) : number := Finite (inject_Z z).

(** ** Payload normalizer (CropForm.jsx, lines 25-69) *)

Module Normalizer.

Definition mapTemperatureCategory (value : string) : option number :=
  if value =? "Cool" then Some (num 18)
  else if value =? "Moderate" then Some (num 25)
  else if value =? "Hot" then Some (num 32)
  else None.

Definition mapHumidityCategory (value : string) : option number :=
  if value =? "Low" then Some (num 30)
  else if value =? "Medium" then Some (num 55)
  else if value =? "High" then Some (num 80)
  else None.

Definition mapRainfallCategory (value : string) : option number :=
  if value =? "Low" then Some (num 400)
  else if value =? "Medium" then Some (num 750)
  else if value =? "High" then Some (num 1200)
  else None.

(** [s || null] on a string. *)
Definition or_null (s : string) : option string :=
  if s =? "" then None else Some s.

Definition buildPayload {H : Host} (form : Form.t) : Payload.t :=
  {| Payload.location := trim (Form.location form);
     Payload.previous_crop := or_null (Form.previous_crop form);
     Payload.land_size :=
       if negb (Form.land_size form =? "")
       then Some (Number (Form.land_size form)) else None;
     Payload.irrigation_type := or_null (Form.irrigation_type form);
     Payload.goal := or_null (Form.goal form);
     Payload.temperature := mapTemperatureCategory (Form.temperature form);
     Payload.humidity := mapHumidityCategory (Form.humidity form);
     Payload.rainfall := mapRainfallCategory (Form.rainfall form);
     Payload.manual_soil :=
       if negb (Form.N form =? "") || negb (Form.P form =? "")
          || negb (Form.K form =? "") || negb (Form.ph form =? "")
       then Some
         {| ManualSoil.N :=
              if negb (Form.N form =? "") then Number (Form.N form) else num 0;
            ManualSoil.P :=
              if negb (Form.P form =? "") then Number (Form.P form) else num 0;
            ManualSoil.K :=
              if negb (Form.K form =? "") then Number (Form.K form) else num 0;
            ManualSoil.ph :=
              if negb (Form.ph form =? "") then Number (Form.ph form) else num 7
         |}
       else None |}.

End Normalizer.

(** ** Local history store (key [agrisense_history]) *)

Module History.

(** The item under a storage key, seen through
    [JSON.parse(localStorage.getItem(key) || "[]")]: no item (or the empty
    string), text that [JSON.parse] rejects, or text that parses to [v]. *)
Inductive slot :=
| Missing
| Unparsable
| Parsed (v : value).

(** [JSON.parse(localStorage.getItem("agrisense_history") || "[]")];
    [None] when it raises. *)
Definition parse_history (s : slot) : option value :=
  match s with
  | Missing => Some (VArr [])
  | Unparsable => None
  | Parsed v => Some v
  end.

(** [localStorage.setItem(key, JSON.stringify(v))] inside a [try]:
    [written] is false when the storage refuses the write and the
    exception is swallowed.  The slot keeps the value handed to
    [JSON.stringify]; the re-parsed text differs from it only where a
    property is [undefined] (it is omitted, and reads back as [undefined])
    or a number is not finite (it is written as [null]). *)
Definition setItem (written : bool) (v : value) (old : slot) : slot :=
  if written then Parsed v else old.

Definition entry (type : string) (summary : value) (date : string) : value :=
  VObj [("type", VStr type); ("summary", summary); ("date", VStr date)].

(** [history.unshift(e); setItem(..., history.slice(0, 20))] on what
    [parse_history] returned; a value without [unshift] raises inside the
    [try] and nothing is written. *)
Definition unshift_and_store (e : value) (written : bool) (s : slot) : slot :=
  match parse_history s with
  | Some (VArr history) => setItem written (VArr (firstn 20 (e :: history))) s
  | Some _ => s
  | None => s
  end.

(** [saveToHistory(type, summary)] of Results.jsx; [date] is
    [new Date().toISOString()]. *)
Definition saveToHistory (type : string) (summary : value) (date : string)
    (written : bool) (s : slot) : slot :=
  unshift_and_store (entry type summary date) written s.

(** The [summary] of a disease entry (lines 108-112): [data] is the server
    response, [fileName] is [file?.name]. *)
Definition diseaseSummary (data : value) (fileName : string) : value :=
  VObj [("disease",
         or_ (or_ (or_ (get data "disease_name") (get data "disease"))
                  (get data "label"))
             (VStr "Unknown"));
        ("confidence", get data "confidence");
        ("fileName", VStr (or_str fileName "image"))].

(** The history block of [handleDetect] (DiseaseDetection, lines 104-116). *)
Definition saveDiseaseToHistory (data : value) (fileName : string)
    (date : string) (written : bool) (s : slot) : slot :=
  unshift_and_store (entry "disease" (diseaseSummary data fileName) date)
    written s.

(** The mount effect of [Home] (Home.jsx, lines 21-26): the next value of
    the [history] state, which starts as [[]].  [h.slice(0, 6)] exists on
    arrays and on strings; on any other parsed value the call raises and
    the state is left as it was. *)
Definition Home_read (s : slot) (history0 : value) : value :=
  match parse_history s with
  | Some (VArr h) => VArr (firstn 6 h)
  | Some (VStr str) => VStr (str_slice0 6 str)
  | Some _ => history0
  | None => history0
  end.

Definition Home_initial_history : value := VArr [].

(** The history section of [Home] (lines 116-131),
    [history.length > 0 && history.map(...)]: the items handed to [map],
    or [None] when the expression raises because [history] has no [map]. *)
Definition Home_cards (history : value) : option (list value) :=
  match history with
  | VArr items => Some items
  | VStr str => if (0 <? String.length str)%nat then None else Some []
  | VUndefined | VNull => None
  | _ => Some []
  end.

(** [clearHistory] of Home.jsx: the slot and the [history] state. *)
Definition clearHistory (s : slot) : slot * value := (Missing, VArr []).

(** The entries a slot holds. *)
Definition entries (s : slot) : list value :=
  match s with
  | Parsed (VArr h) => h
  | _ => []
  end.

(** Whether [parse_history] returns an array on this slot. *)
Definition holds_list (s : slot) : bool :=
  match s with
  | Missing => true
  | Parsed (VArr _) => true
  | _ => false
  end.

(** The producers of history entries. *)
Inductive append :=
| Crop (summary : value) (date : string) (written : bool)
| Disease (data : value) (fileName : string) (date : string) (written : bool).

Definition apply (a : append) (s : slot) : slot :=
  match a with
  | Crop summary date written => saveToHistory "crop" summary date written s
  | Disease data fileName date written =>
      saveDiseaseToHistory data fileName date written s
  end.

Definition run (ops : list append) (s : slot) : slot :=
  fold_left (fun acc a => apply a acc) ops s.

Definition written_of (a : append) : bool :=
  match a with
  | Crop _ _ w => w
  | Disease _ _ _ w => w
  end.

(** The entry an append prepends. *)
Definition entry_of (a : append) : value :=
  match a with
  | Crop summary date _ => entry "crop" summary date
  | Disease data fileName date _ =>
      entry "disease" (diseaseSummary data fileName) date
  end.

End History.

(** ** Disease upload pipeline (the [DiseaseDetection] component) *)

Module Disease.

(** The part of a DOM [File] the component reads; [size] is in bytes. *)
Record File := { name : string; size : N; type : string }.

(** The normalized result held in the [result] state. *)
Record Result := { diseaseName : value; confidence : value; treatment : value }.

(** The React state; [file] and [result] start as [null]. *)
Record state := {
  file : option File;
  previewUrl : string;
  isLoading : bool;
  error : string;
  result : option Result;
  isDragOver : bool
}.

Definition initial : state := {|
  file := None; previewUrl := ""; isLoading := false; error := "";
  result := None; isDragOver := false
|}.

Definition set_file (v : option File) (s : state) : state :=
  {| file := v; previewUrl := previewUrl s; isLoading := isLoading s; error
  := error s; result := result s; isDragOver := isDragOver s |}.

Definition set_previewUrl (v : string) (s : state) : state :=
  {| file := file s; previewUrl := v; isLoading := isLoading s; error :=
  error s; result := result s; isDragOver := isDragOver s |}.

Definition set_isLoading (v : bool) (s : state) : state :=
  {| file := file s; previewUrl := previewUrl s; isLoading := v; error :=
  error s; result := result s; isDragOver := isDragOver s |}.

Definition set_error (v : string) (s : state) : state :=
  {| file := file s; previewUrl := previewUrl s; isLoading := isLoading s;
  error := v; result := result s; isDragOver := isDragOver s |}.

Definition set_result (v : option Result) (s : state) : state :=
  {| file := file s; previewUrl := previewUrl s; isLoading := isLoading s;
  error := error s; result := v; isDragOver := isDragOver s |}.

Definition set_isDragOver (v : bool) (s : state) : state :=
  {| file := file s; previewUrl := previewUrl s; isLoading := isLoading s;
  error := error s; result := result s; isDragOver := v |}.

Definition MAX_BYTES : N := 10 * 1024 * 1024.

Definition resetAll (s : state) : state :=
  set_result None (set_error "" (set_previewUrl "" (set_file None s))).

(** [processFile(selected)]; [url] is what [URL.createObjectURL(selected)]
    returns when the call is reached. *)
Definition processFile (selected : option File) (url : string) (s : state)
    : state :=
  let s := set_result None (set_error "" s) in
  match selected with
  | None => set_previewUrl "" (set_file None s)
  | Some f =>
      if (MAX_BYTES <? size f)%N
      then set_error "File too large. Maximum size is 10MB." s
      else set_previewUrl url (set_file (Some f) s)
  end.

(** [event.target.files?.[0]] is [selected]. *)
Definition handleFileChange (selected : option File) (url : string)
    (s : state) : state :=
  processFile selected url s.

Definition handleDragOver (s : state) : state := set_isDragOver true s.

Definition handleDragLeave (s : state) : state := set_isDragOver false s.

(** [e.dataTransfer.files?.[0]] is [dropped]. *)
Definition handleDrop (dropped : option File) (url : string) (s : state)
    : state :=
  let s := set_isDragOver false s in
  match dropped with
  | Some f =>
      if startsWith "image/" (type f)
      then processFile (Some f) url s
      else set_error "Please drop an image file (JPG, PNG, WebP)." s
  | None => set_error "Please drop an image file (JPG, PNG, WebP)." s
  end.

(** The object handed to [setResult] (lines 98-102). *)
Definition normalizeResult (data : value) : Result := {|
  diseaseName :=
    or_ (or_ (or_ (get data "disease_name") (get data "disease"))
             (get data "label"))
        (VStr "Unknown disease");
  confidence :=
    if is_number (get data "confidence")
    then get data "confidence" else get data "confidence_percent";
  treatment :=
    or_ (or_ (or_ (get data "treatment_advice") (get data "treatment"))
             (get data "recommendation"))
        (get data "advice")
|}.

(** [handleDetect] up to its [await fetch]: the next state, and the file
    uploaded when a request is sent. *)
Definition handleDetect_start (s : state) : state * option File :=
  let s := set_result None (set_error "" s) in
  match file s with
  | None => (set_error "Please upload a leaf image first." s, None)
  | Some f => (set_isLoading true s, Some f)
  end.

(** The text of the [Error] thrown on a non-2xx response (lines 89-95). *)
Definition detectErrorDetail (errData : value) : string :=
  if truthy errData then
    match get errData "detail" with
    | VStr d => d
    | _ => match get errData "message" with
           | VStr m => m
           | _ => "Disease detection request failed."
           end
    end
  else "Disease detection request failed.".

(** [handleDetect] from the settlement of its [fetch] on: [f] is the file
    the handler captured, [h] the history slot, [date] the clock and
    [written] whether the history write goes through. *)
Definition handleDetect_settle {H : Host} (f : File) (r : reply value)
    (date : string) (written : bool) (s : state) (h : History.slot)
    : state * History.slot :=
  let caught (message : string) :=
    (set_isLoading false
       (set_error
          (or_str message
             "Unable to run disease detection. Ensure the backend is running.")
          s),
     h) in
  match r with
  | NetworkError message => caught message
  | HttpError errData => caught (detectErrorDetail errData)
  | HttpOkUnparsable message => caught message
  | HttpOk data =>
      if nullish data then caught typeErrorMessage
      else
        (set_isLoading false (set_result (Some (normalizeResult data)) s),
         History.saveDiseaseToHistory data (name f) date written h)
  end.

(** [confidencePercent] (lines 125-127). *)
Definition confidencePercent (s : state) : number :=
  match result s with
  | Some r =>
      match confidence r with
      | VNum c => Math_min (num_mul c (num 100)) (num 100)
      | _ => num 0
      end
  | None => num 0
  end.

(** [confidenceColor] (lines 128-132). *)
Definition confidenceColor (s : state) : string :=
  if num_geb (confidencePercent s) (num 80) then "bg-emerald-500"
  else if num_geb (confidencePercent s) (num 50) then "bg-amber-500"
  else "bg-red-400".

(** Whether the low-confidence warning is rendered (lines 241-252). *)
Definition lowConfidenceNotice (s : state) : bool :=
  match result s with
  | Some _ =>
      num_gtb (confidencePercent s) (num 0)
      && num_ltb (confidencePercent s) (num 40)
  | None => false
  end.

(** The confidence caption (line 272); [None] is ["Not available"]. *)
Definition confidenceShown (s : state) : bool :=
  num_gtb (confidencePercent s) (num 0).

End Disease.

(** ** Advisory workflow (the [CropForm] component) *)

Module CropForm.

Record Coords := { lat : Q; lng : Q }.

(** The body of a 2xx [/reverse-geocode] response, typed by its contract
    [{location?: string}]. *)
Record GeocodeBody := { location : option string }.

(** What [agrisense_last_location] holds: [{ name, coords }]. *)
Record CachedLocation := { name : string; coords : option Coords }.

(** The [step] state: ['form' | 'confirm']. *)
Inductive Step := StepForm | StepConfirm.

(** [inputs] of the result: [{ ...payload, soil_source, weather_source }]. *)
Record Inputs := {
  payload : Payload.t;
  soil_source : value;
  weather_source : value
}.

Record ResultPayload := {
  recommendedCrop : value;
  expectedYield : value;
  estimatedProfit : value;
  topCrops : value;
  inputs : Inputs;
  land_size : option number
}.

(** The [state] handed to [navigate("/results", ...)]. *)
Record Navigation := { data : ResultPayload; inputSummary : value }.

(** An operation the component is waiting on, with what the code that
    resumes after it has captured. *)
Inductive Pending :=
| AwaitFix
| AwaitGeocodeGps (c : Coords)
| AwaitGeocodeMap (c : Coords)
| AwaitPreview
| AwaitConfirm (form : Form.t) (payload : Payload.t) (previewData : value).

(** How a pending operation settles; [cached] tells whether the write of
    the location cache goes through. *)
Inductive Outcome :=
| Fix (c : Coords)
| FixFailed
| Geocoded (r : reply GeocodeBody) (cached : bool)
| Fetched (r : reply value).

Inductive Request :=
| GetReverseGeocode (c : Coords)
| PostPreview (body : Payload.t)
| PostAdvisory (body : Payload.t).

(** What the component did to the outside, newest first. *)
Inductive TraceItem :=
| Sent (r : Request)
| Settled (p : Pending) (o : Outcome).

(** The React state of the component, followed by its surroundings: the
    location cache, the operations in flight, the trace and the navigation
    performed. *)
Record state := {
  form : Form.t;
  isLoading : bool;
  error : string;
  usingGps : bool;
  gpsMessage : string;
  step : Step;
  previewData : value;
  mapCoords : option Coords;
  isListening : bool;
  lastLocation : option CachedLocation;
  pending : list Pending;
  trace : list TraceItem;
  navigation : option Navigation
}.

Definition set_form (v : Form.t) (s : state) : state :=
  {| form := v; isLoading := isLoading s; error := error s; usingGps :=
  usingGps s; gpsMessage := gpsMessage s; step := step s; previewData :=
  previewData s; mapCoords := mapCoords s; isListening := isListening s;
  lastLocation := lastLocation s; pending := pending s; trace := trace s;
  navigation := navigation s |}.

Definition set_isLoading (v : bool) (s : state) : state :=
  {| form := form s; isLoading := v; error := error s; usingGps := usingGps
  s; gpsMessage := gpsMessage s; step := step s; previewData := previewData
  s; mapCoords := mapCoords s; isListening := isListening s; lastLocation :=
  lastLocation s; pending := pending s; trace := trace s; navigation :=
  navigation s |}.

Definition set_error (v : string) (s : state) : state :=
  {| form := form s; isLoading := isLoading s; error := v; usingGps :=
  usingGps s; gpsMessage := gpsMessage s; step := step s; previewData :=
  previewData s; mapCoords := mapCoords s; isListening := isListening s;
  lastLocation := lastLocation s; pending := pending s; trace := trace s;
  navigation := navigation s |}.

Definition set_usingGps (v : bool) (s : state) : state :=
  {| form := form s; isLoading := isLoading s; error := error s; usingGps :=
  v; gpsMessage := gpsMessage s; step := step s; previewData := previewData
  s; mapCoords := mapCoords s; isListening := isListening s; lastLocation :=
  lastLocation s; pending := pending s; trace := trace s; navigation :=
  navigation s |}.

Definition set_gpsMessage (v : string) (s : state) : state :=
  {| form := form s; isLoading := isLoading s; error := error s; usingGps :=
  usingGps s; gpsMessage := v; step := step s; previewData := previewData s;
  mapCoords := mapCoords s; isListening := isListening s; lastLocation :=
  lastLocation s; pending := pending s; trace := trace s; navigation :=
  navigation s |}.

Definition set_step (v : Step) (s : state) : state :=
  {| form := form s; isLoading := isLoading s; error := error s; usingGps :=
  usingGps s; gpsMessage := gpsMessage s; step := v; previewData :=
  previewData s; mapCoords := mapCoords s; isListening := isListening s;
  lastLocation := lastLocation s; pending := pending s; trace := trace s;
  navigation := navigation s |}.

Definition set_previewData (v : value) (s : state) : state :=
  {| form := form s; isLoading := isLoading s; error := error s; usingGps :=
  usingGps s; gpsMessage := gpsMessage s; step := step s; previewData := v;
  mapCoords := mapCoords s; isListening := isListening s; lastLocation :=
  lastLocation s; pending := pending s; trace := trace s; navigation :=
  navigation s |}.

Definition set_mapCoords (v : option Coords) (s : state) : state :=
  {| form := form s; isLoading := isLoading s; error := error s; usingGps :=
  usingGps s; gpsMessage := gpsMessage s; step := step s; previewData :=
  previewData s; mapCoords := v; isListening := isListening s; lastLocation
  := lastLocation s; pending := pending s; trace := trace s; navigation :=
  navigation s |}.

Definition set_isListening (v : bool) (s : state) : state :=
  {| form := form s; isLoading := isLoading s; error := error s; usingGps :=
  usingGps s; gpsMessage := gpsMessage s; step := step s; previewData :=
  previewData s; mapCoords := mapCoords s; isListening := v; lastLocation :=
  lastLocation s; pending := pending s; trace := trace s; navigation :=
  navigation s |}.

Definition set_lastLocation (v : option CachedLocation) (s : state) : state :=
  {| form := form s; isLoading := isLoading s; error := error s; usingGps :=
  usingGps s; gpsMessage := gpsMessage s; step := step s; previewData :=
  previewData s; mapCoords := mapCoords s; isListening := isListening s;
  lastLocation := v; pending := pending s; trace := trace s; navigation :=
  navigation s |}.

Definition set_pending (v : list Pending) (s : state) : state :=
  {| form := form s; isLoading := isLoading s; error := error s; usingGps :=
  usingGps s; gpsMessage := gpsMessage s; step := step s; previewData :=
  previewData s; mapCoords := mapCoords s; isListening := isListening s;
  lastLocation := lastLocation s; pending := v; trace := trace s; navigation
  := navigation s |}.

Definition set_trace (v : list TraceItem) (s : state) : state :=
  {| form := form s; isLoading := isLoading s; error := error s; usingGps :=
  usingGps s; gpsMessage := gpsMessage s; step := step s; previewData :=
  previewData s; mapCoords := mapCoords s; isListening := isListening s;
  lastLocation := lastLocation s; pending := pending s; trace := v;
  navigation := navigation s |}.

Definition set_navigation (v : option Navigation) (s : state) : state :=
  {| form := form s; isLoading := isLoading s; error := error s; usingGps :=
  usingGps s; gpsMessage := gpsMessage s; step := step s; previewData :=
  previewData s; mapCoords := mapCoords s; isListening := isListening s;
  lastLocation := lastLocation s; pending := pending s; trace := trace s;
  navigation := v |}.

(** The state on mount: the cached name, when there is one, prefills the
    location and the cached coordinates the map. *)
Definition initial (cachedLoc : option CachedLocation) : state := {|
  form :=
    match cachedLoc with
    | Some c => if name c =? "" then Form.INITIAL_FORM
                else Form.set_location (name c) Form.INITIAL_FORM
    | None => Form.INITIAL_FORM
    end;
  isLoading := false;
  error := "";
  usingGps := false;
  gpsMessage := "";
  step := StepForm;
  previewData := VNull;
  mapCoords := match cachedLoc with Some c => coords c | None => None end;
  isListening := false;
  lastLocation := cachedLoc;
  pending := [];
  trace := [];
  navigation := None
|}.

Definition await (p : Pending) (s : state) : state :=
  set_pending ((pending s ++ [p])%list) s.

Definition send (r : Request) (s : state) : state :=
  set_trace (Sent r :: trace s) s.

(** [saveLocationCache(name, coords)]. *)
Definition saveLocationCache (n : string) (c : Coords) (cached : bool)
    (s : state) : state :=
  if cached then set_lastLocation (Some {| name := n; coords := Some c |}) s
  else s.

(** [handleVoiceInput]; [supported] tells whether the browser has a
    [SpeechRecognition]. *)
Definition handleVoiceInput (supported : bool) (s : state) : state :=
  if supported then s
  else set_error "Voice input is not supported in this browser." s.

Definition recognition_onstart (s : state) : state := set_isListening true s.

Definition recognition_onend (s : state) : state := set_isListening false s.

Definition recognition_onerror (s : state) : state :=
  set_error "Could not recognize speech. Please try again."
    (set_isListening false s).

Definition recognition_onresult (transcript : string) (s : state) : state :=
  set_gpsMessage "" (set_form (Form.set_location transcript (form s)) s).

Definition handleChange (n v : string) (s : state) : state :=
  set_gpsMessage "" (set_form (Form.set n v (form s)) s).

(** The literal the resolver falls back to. *)
Definition gpsFallback {H : Host} (latitude longitude : Q) : string :=
  "GPS: " ++ toFixed latitude 4 ++ ", " ++ toFixed longitude 4.

(** [resolveLocation(latitude, longitude)], from the settlement of its
    [fetch] on. *)
Definition resolveLocation {H : Host} (latitude longitude : Q)
    (r : reply GeocodeBody) : string :=
  match r with
  | HttpOk d =>
      match location d with
      | Some l => or_str l (gpsFallback latitude longitude)
      | None => gpsFallback latitude longitude
      end
  | _ => gpsFallback latitude longitude
  end.

(** [handleUseGps] up to [getCurrentPosition]; [supported] tells whether
    [navigator.geolocation] exists. *)
Definition handleUseGps (supported : bool) (s : state) : state :=
  if supported
  then await AwaitFix (set_usingGps true (set_gpsMessage "" (set_error "" s)))
  else set_error
         "GPS is not supported in this browser. Please enter location manually."
         s.

(** The success callback of [getCurrentPosition], up to its [await]. *)
Definition gps_position (c : Coords) (s : state) : state :=
  await (AwaitGeocodeGps c) (send (GetReverseGeocode c) s).

(** The success callback of [getCurrentPosition], after its [await]. *)
Definition gps_resolved {H : Host} (c : Coords) (r : reply GeocodeBody)
    (cached : bool) (s : state) : state :=
  let locationName := resolveLocation (lat c) (lng c) r in
  set_usingGps false
    (saveLocationCache locationName c cached
       (set_gpsMessage locationName
          (set_mapCoords (Some c)
             (set_form (Form.set_location locationName (form s)) s)))).

(** The error callback of [getCurrentPosition]. *)
Definition gps_failed (s : state) : state :=
  set_usingGps false
    (set_error "Unable to fetch GPS location. Please enter location manually."
       s).

(** [handleMapSelect(lat, lng)] up to its [await]. *)
Definition handleMapSelect (c : Coords) (s : state) : state :=
  await (AwaitGeocodeMap c)
    (send (GetReverseGeocode c) (set_gpsMessage "" (set_mapCoords (Some c) s))).

(** [handleMapSelect(lat, lng)] after its [await]. *)
Definition map_resolved {H : Host} (c : Coords) (r : reply GeocodeBody)
    (cached : bool) (s : state) : state :=
  let locationName := resolveLocation (lat c) (lng c) r in
  saveLocationCache locationName c cached
    (set_gpsMessage locationName
       (set_form (Form.set_location locationName (form s)) s)).

(** The message of the [Error] thrown on a non-2xx response by
    [handlePreview] and [handleConfirm]: [errData?.detail], joined when it
    is an array, else [fallback].  Reading [msg] of a [null] element raises
    a [TypeError] instead. *)
Definition errorDetail {H : Host} (fallback : string) (errData : value)
    : string :=
  match get_opt errData "detail" with
  | VArr items =>
      if existsb nullish items then typeErrorMessage
      else or_str (join "; " (map (fun d => get d "msg") items)) fallback
  | detail => if truthy detail then ToString detail else fallback
  end.

(** [handlePreview] up to its [await fetch]. *)
Definition handlePreview {H : Host} (s : state) : state :=
  let s := set_error "" s in
  if trim (Form.location (form s)) =? ""
  then set_error "Please enter a location." s
  else
    let payload := Normalizer.buildPayload (form s) in
    await AwaitPreview (send (PostPreview payload) (set_isLoading true s)).

(** [handlePreview] from the settlement of its [fetch] on. *)
Definition preview_settled {H : Host} (r : reply value) (s : state) : state :=
  let caught (message : string) :=
    set_error
      (or_str message
         "Unable to load location data. Check backend and try again.") s in
  set_isLoading false
    match r with
    | NetworkError message => caught message
    | HttpError errData => caught (errorDetail "Preview failed." errData)
    | HttpOkUnparsable message => caught message
    | HttpOk d => set_step StepConfirm (set_previewData d s)
    end.

(** [handleConfirm] up to its [await fetch]. *)
Definition handleConfirm {H : Host} (s : state) : state :=
  if negb (truthy (previewData s)) then s
  else
    let s1 := set_error "" (set_isLoading true s) in
    let payload := Normalizer.buildPayload (form s) in
    await (AwaitConfirm (form s) payload (previewData s))
      (send (PostAdvisory payload) s1).

(** The [resultPayload] assembled from the response (lines 236-246). *)
Definition resultPayload {H : Host} (f : Form.t) (p : Payload.t)
    (advisory : value) : ResultPayload := {|
  recommendedCrop := get advisory "recommended_crop";
  expectedYield := get advisory "expected_yield";
  estimatedProfit := get advisory "estimated_profit";
  topCrops :=
    or_ (get advisory "top_crops")
        (VArr [VObj [("crop_name", get advisory "recommended_crop");
                     ("expected_yield", get advisory "expected_yield");
                     ("estimated_profit", get advisory "estimated_profit")]]);
  inputs := {| payload := p;
               soil_source := get advisory "soil_source";
               weather_source := get advisory "weather_source" |};
  land_size :=
    if negb (Form.land_size f =? "") then Some (Number (Form.land_size f))
    else None
|}.

(** [handleConfirm] from the settlement of its [fetch] on; [f], [p] and
    [snapshot] are the [form], [payload] and [previewData] it captured. *)
Definition confirm_settled {H : Host} (f : Form.t) (p : Payload.t)
    (snapshot : value) (r : reply value) (s : state) : state :=
  let caught (message : string) :=
    set_error
      (or_str message "Unable to fetch recommendations. Please try again.") s in
  set_isLoading false
    match r with
    | NetworkError message => caught message
    | HttpError errData => caught (errorDetail "Advisory request failed." errData)
    | HttpOkUnparsable message => caught message
    | HttpOk advisory =>
        if nullish advisory then caught typeErrorMessage
        else set_navigation
               (Some {| data := resultPayload f p advisory;
                        inputSummary := snapshot |}) s
    end.

Definition handleBackToForm (s : state) : state :=
  set_error "" (set_previewData VNull (set_step StepForm s)).

(** What the component renders (line 266). *)
Inductive View := ConfirmView | FormView.

Definition render (s : state) : View :=
  match step s with
  | StepConfirm => if truthy (previewData s) then ConfirmView else FormView
  | StepForm => FormView
  end.

(** ** The component as a transition system *)

Inductive Event :=
| Change (n v : string)
| VoiceInput (supported : bool)
| VoiceStart
| VoiceEnd
| VoiceError
| VoiceResult (transcript : string)
| UseGps (supported : bool)
| MapSelect (c : Coords)
| Submit
| ConfirmClick
| Back
| Settle (i : nat) (o : Outcome).

Fixpoint remove_nth {A : Type} (i : nat) (l : list A) : list A :=
  match l, i with
  | [], _ => []
  | _ :: rest, O => rest
  | x :: rest, S i' => x :: remove_nth i' rest
  end.

(** The code that resumes when pending operation [p] settles with [o];
    [None] when [o] is not an outcome of [p]. *)
Definition resume {H : Host} (p : Pending) (o : Outcome) (s : state)
    : option state :=
  match p, o with
  | AwaitFix, Fix c => Some (gps_position c s)
  | AwaitFix, FixFailed => Some (gps_failed s)
  | AwaitGeocodeGps c, Geocoded r cached => Some (gps_resolved c r cached s)
  | AwaitGeocodeMap c, Geocoded r cached => Some (map_resolved c r cached s)
  | AwaitPreview, Fetched r => Some (preview_settled r s)
  | AwaitConfirm f p' snapshot, Fetched r =>
      Some (confirm_settled f p' snapshot r s)
  | _, _ => None
  end.

(** Settling the [i]-th pending operation: it leaves the pending list, the
    settlement is recorded and its continuation runs. *)
Definition settle {H : Host} (i : nat) (o : Outcome) (s : state) : state :=
  match nth_error (pending s) i with
  | Some p =>
      let s' := set_trace (Settled p o :: trace s)
                  (set_pending (remove_nth i (pending s)) s) in
      match resume p o s' with
      | Some s'' => s''
      | None => s
      end
  | None => s
  end.

Definition dispatch {H : Host} (e : Event) (s : state) : state :=
  match e with
  | Change n v => handleChange n v s
  | VoiceInput supported => handleVoiceInput supported s
  | VoiceStart => recognition_onstart s
  | VoiceEnd => recognition_onend s
  | VoiceError => recognition_onerror s
  | VoiceResult transcript => recognition_onresult transcript s
  | UseGps supported => handleUseGps supported s
  | MapSelect c => handleMapSelect c s
  | Submit => handlePreview s
  | ConfirmClick => handleConfirm s
  | Back => handleBackToForm s
  | Settle i o => settle i o s
  end.

Definition run {H : Host} (events : list Event) (s : state) : state :=
  fold_left (fun acc e => dispatch e acc) events s.

(** A preview request has completed successfully with body [d]. *)
Definition previewLoaded (d : value) : TraceItem :=
  Settled AwaitPreview (Fetched (HttpOk d)).

End CropForm.

(** ** Reading a form field by name *)

Module FormAccess.

(** The names the inputs of the form carry. *)
Definition names : list string :=
  ["location"; "previous_crop"; "land_size"; "irrigation_type"; "goal";
   "temperature"; "humidity"; "rainfall"; "N"; "P"; "K"; "ph"].

(** [form[name]]; [None] is [undefined]. *)
Definition get (name : string) (f : Form.t) : option string :=
  if name =? "location" then Some (Form.location f)
  else if name =? "previous_crop" then Some (Form.previous_crop f)
  else if name =? "land_size" then Some (Form.land_size f)
  else if name =? "irrigation_type" then Some (Form.irrigation_type f)
  else if name =? "goal" then Some (Form.goal f)
  else if name =? "temperature" then Some (Form.temperature f)
  else if name =? "humidity" then Some (Form.humidity f)
  else if name =? "rainfall" then Some (Form.rainfall f)
  else if name =? "N" then Some (Form.N f)
  else if name =? "P" then Some (Form.P f)
  else if name =? "K" then Some (Form.K f)
  else if name =? "ph" then Some (Form.ph f)
  else None.

End FormAccess.

(** ** Relative dates of the history cards (Home.jsx, lines 6-15) *)

Module Home.

Definition Z_to_string (z : Z) : string :=
  NilZero.string_of_int (Z.to_int z).

(** [formatRelativeDate(iso)]: [now] is [Date.now()] and [time] is
    [new Date(iso).getTime()], both in milliseconds; [None] is the [NaN] of
    a date that does not parse, which fails every comparison. *)
Definition formatRelativeDate (now : Z) (time : option Z) : string :=
  match time with
  | None => "NaNd ago"
  | Some t =>
      let diff := (now - t)%Z in
      let mins := (diff / 60000)%Z in
      if (mins <? 1)%Z then "Just now"
      else if (mins <? 60)%Z then Z_to_string mins ++ "m ago"
      else
        let hours := (mins / 60)%Z in
        if (hours <? 24)%Z then Z_to_string hours ++ "h ago"
        else
          let days := (hours / 24)%Z in
          Z_to_string days ++ "d ago"
  end.

End Home.

(** ** Display name of a disease (DiseaseDetection, lines 6-12) *)

Module DiseaseName.

Definition underscore : ascii := "_"%char.

(** [s.replace(/___/g, " - ")]. *)
Fixpoint replace_triple (s : string) : string :=
  match s with
  | String a (String b (String c rest) as t1) =>
      if Ascii.eqb a underscore && Ascii.eqb b underscore
         && Ascii.eqb c underscore
      then " - " ++ replace_triple rest
      else String a (replace_triple t1)
  | String a rest => String a (replace_triple rest)
  | EmptyString => EmptyString
  end.

(** [s.replace(/_/g, " ")]. *)
Fixpoint replace_single (s : string) : string :=
  match s with
  | EmptyString => EmptyString
  | String a rest =>
      String (if Ascii.eqb a underscore then " "%char else a)
        (replace_single rest)
  end.

Definition between (lo hi : nat) (a : ascii) : bool :=
  let n := nat_of_ascii a in ((lo <=? n) && (n <=? hi))%nat.

(** The class [\w]: ASCII letters, digits and the underscore. *)
Definition is_word (a : ascii) : bool :=
  between 97 122 a || between 65 90 a || between 48 57 a
  || Ascii.eqb a underscore.

(** [c.toUpperCase()] on one character of the class [\w]. *)
Definition toUpperCase (a : ascii) : ascii :=
  if between 97 122 a then ascii_of_nat (nat_of_ascii a - 32) else a.

(** [s.replace(/\b\w/g, (c) => c.toUpperCase())]: a word character is
    matched when no word character precedes it; [inside] tells whether the
    previous character was one. *)
Fixpoint capitalize (inside : bool) (s : string) : string :=
  match s with
  | EmptyString => EmptyString
  | String a rest =>
      String (if is_word a && negb inside then toUpperCase a else a)
        (capitalize (is_word a) rest)
  end.

Definition format (s : string) : string :=
  capitalize false (replace_single (replace_triple s)).

(** [formatDiseaseName(name)]; [None] when [name] is truthy and has no
    [replace] method, so that the call raises. *)
Definition formatDiseaseName (name : value) : option string :=
  if negb (truthy name) then Some "Unknown"
  else match name with
       | VStr s => Some (format s)
       | _ => None
       end.

End DiseaseName.

(** ** Results page (Results.jsx) *)

Module Results.

(** [Number(v)]. *)
Definition ToNumber {H : Host} (v : value) : number :=
  match v with
  | VUndefined => NaN
  | VNull => num 0
  | VBool true => num 1
  | VBool false => num 0
  | VNum n => n
  | VStr s => Number s
  | VArr _ => Number (ToString v)
  | VObj _ => NaN
  end.

Definition opt_str (o : option string) : value :=
  match o with Some s => VStr s | None => VNull end.

Definition opt_num (o : option number) : value :=
  match o with Some n => VNum n | None => VNull end.

(** The object [buildPayload] returns. *)
Definition payload_props (p : Payload.t) : list (string * value) :=
  [("location", VStr (Payload.location p));
   ("previous_crop", opt_str (Payload.previous_crop p));
   ("land_size", opt_num (Payload.land_size p));
   ("irrigation_type", opt_str (Payload.irrigation_type p));
   ("goal", opt_str (Payload.goal p));
   ("temperature", opt_num (Payload.temperature p));
   ("humidity", opt_num (Payload.humidity p));
   ("rainfall", opt_num (Payload.rainfall p));
   ("manual_soil",
    match Payload.manual_soil p with
    | Some soil =>
        VObj [("N", VNum (ManualSoil.N soil)); ("P", VNum (ManualSoil.P soil));
              ("K", VNum (ManualSoil.K soil));
              ("ph", VNum (ManualSoil.ph soil))]
    | None => VNull
    end)].

(** Setting key [k] of an object literal: a later occurrence of a key
    overrides the value and keeps the position. *)
Fixpoint put (k : string) (v : value) (props : list (string * value))
    : list (string * value) :=
  match props with
  | [] => [(k, v)]
  | (k', v') :: rest =>
      if k' =? k then (k, v) :: rest else (k', v') :: put k v rest
  end.

(** [{ ...payload, soil_source, weather_source }]. *)
Definition inputs_object (i : CropForm.Inputs) : value :=
  VObj (put "weather_source" (CropForm.weather_source i)
          (put "soil_source" (CropForm.soil_source i)
             (payload_props (CropForm.payload i)))).

(** The [resultPayload] object, as [location.state.data]. *)
Definition data_object (d : CropForm.ResultPayload) : value :=
  VObj [("recommendedCrop", CropForm.recommendedCrop d);
        ("expectedYield", CropForm.expectedYield d);
        ("estimatedProfit", CropForm.estimatedProfit d);
        ("topCrops", CropForm.topCrops d);
        ("inputs", inputs_object (CropForm.inputs d));
        ("land_size", opt_num (CropForm.land_size d))].

(** [crops] (lines 121-123): the cards shown. *)
Definition crops (d : CropForm.ResultPayload) : list value :=
  match CropForm.topCrops d with
  | VArr (c :: rest) => c :: rest
  | _ =>
      [VObj [("crop_name", CropForm.recommendedCrop d);
             ("expected_yield", CropForm.expectedYield d);
             ("estimated_profit", CropForm.estimatedProfit d)]]
  end.

(** [crops[0]]. *)
Definition first_crop (d : CropForm.ResultPayload) : value :=
  match crops d with c :: _ => c | [] => VUndefined end.

(** The dash U+2014 used as a placeholder, held as its UTF-8 bytes. *)
Definition dash : string :=
  String (ascii_of_nat 226) (String (ascii_of_nat 128)
    (String (ascii_of_nat 148) EmptyString)).

(** The summary of the history entry (lines 130-134). *)
Definition historySummary (nav : CropForm.Navigation) : value :=
  let d := CropForm.data nav in
  let inputSummary := or_ (CropForm.inputSummary nav) VNull in
  VObj [("crop",
         or_ (get_opt (first_crop d) "crop_name") (CropForm.recommendedCrop d));
        ("location",
         or_ (or_ (get_opt inputSummary "location")
                  (get (inputs_object (CropForm.inputs d)) "location"))
             (VStr dash));
        ("profit", get_opt (first_crop d) "estimated_profit")].

(** The mount effect (lines 126-136): one history entry per visit. *)
Definition saveOnMount (nav : CropForm.Navigation) (date : string)
    (written : bool) (h : History.slot) : History.slot :=
  History.saveToHistory "crop" (historySummary nav) date written h.

(** [landAcres] (line 163); [None] is [null]. *)
Definition landAcres (d : CropForm.ResultPayload) : option number :=
  match get (data_object d) "land_size" with
  | VNum n => if num_gtb n (num 0) then Some n else None
  | _ => None
  end.

(** [landHectares] (line 164). *)
Definition landHectares (d : CropForm.ResultPayload) : option number :=
  match landAcres d with
  | Some acres =>
      if truthy (VNum acres)
      then Some (num_mul acres (double (4047 # 10000))) else None
  | None => None
  end.

(** [ph] (line 166). *)
Definition ph {H : Host} (d : CropForm.ResultPayload) : number :=
  match get_opt (inputs_object (CropForm.inputs d)) "ph" with
  | VNum n => n
  | v => ToNumber v
  end.

(** [rainfall] (lines 167-172). *)
Definition rainfall (nav : CropForm.Navigation) : number :=
  let inputSummary := or_ (CropForm.inputSummary nav) VNull in
  match get_opt (get_opt inputSummary "weather") "rainfall" with
  | VNum n => n
  | _ =>
      match get (data_object (CropForm.data nav)) "rainfall" with
      | VNum n => n
      | _ => num 120
      end
  end.

(** [sustainability] (lines 174-185). *)
Definition sustainability {H : Host} (nav : CropForm.Navigation) : string :=
  let p := ph (CropForm.data nav) in
  let r := rainfall nav in
  if num_geb p (num 6) && num_geb (num 7) p && num_gtb r (num 100)
  then "High"
  else if num_gtb r (num 80) then "Moderate"
  else "Low".

End Results.

(** ** Route guard (App.jsx, lines 23-39; Signup.jsx; the logout action) *)

Module App.

(** The item under [agrisense_authed]; [None] when absent. *)
Definition AuthItem := option string.

Definition includes (x : string) (l : list string) : bool :=
  existsb (String.eqb x) l.

Definition isPublicPage (pathname : string) : bool :=
  includes pathname ["/"; "/login"; "/signup"].

Definition isAuthed (item : AuthItem) : bool :=
  match item with Some v => v =? "1" | None => false end.

Inductive Rendered :=
| RedirectTo (path : string)
| Page (path : string).

(** What [App] renders at [pathname]. *)
Definition render (pathname : string) (item : AuthItem) : Rendered :=
  if negb (isAuthed item) && negb (isPublicPage pathname)
  then RedirectTo "/login"
  else Page pathname.

(** [handleSubmit] of Signup.jsx: the auth item and the path navigated to. *)
Definition signup (item : AuthItem) : AuthItem * string :=
  (Some "1", "/home").

(** [onLogout]. *)
Definition logout (item : AuthItem) : AuthItem * string :=
  (None, "/login").

(** Following redirects from [pathname], at most [fuel] of them. *)
Fixpoint settle_route (fuel : nat) (pathname : string) (item : AuthItem)
    : option string :=
  match render pathname item with
  | Page p => Some p
  | RedirectTo p =>
      match fuel with
      | O => None
      | S fuel' => settle_route fuel' p item
      end
  end.

End App.

(** ** Translation lookup (I18nProvider.jsx) *)

Module I18n.

(** The string tables of [translations.js], which this development does
    not have: [table lang] is [translations[lang]], [undefined] for a
    language without a table; [table "en"] is an object. *)
Class Catalog := {
  table : string -> value
}.

(** The initial language: [localStorage.getItem("agrisense_lang") || "en"]. *)
Definition initialLang (item : option string) : string :=
  match item with
  | Some l => or_str l "en"
  | None => "en"
  end.

(** [setLanguage(next)]: the [lang] state and the stored item. *)
Definition setLanguage (next : string) : string * option string :=
  (next, Some next).

(** [t(key)] under language [lang]. *)
Definition t {C : Catalog} (lang key : string) : value :=
  let dict := or_ (table lang) (table "en") in
  or_ (or_ (get dict key) (get (table "en") key)) (VStr key).

End I18n.

(** ** Reference definitions, following the wording of the specification *)

Module Reference.

(** The documented bucket tables. *)
Definition temperature_midpoints : list (string * Z) :=
  [("Cool", 18); ("Moderate", 25); ("Hot", 32)]%Z.

Definition humidity_midpoints : list (string * Z) :=
  [("Low", 30); ("Medium", 55); ("High", 80)]%Z.

Definition rainfall_midpoints : list (string * Z) :=
  [("Low", 400); ("Medium", 750); ("High", 1200)]%Z.

(** The midpoint a table documents for a bucket; [None] ([null]) for the
    unset selection and for anything the table does not list. *)
Fixpoint midpoint (table : list (string * Z)) (bucket : string)
    : option number :=
  match table with
  | [] => None
  | (b, z) :: rest => if b =? bucket then Some (num z) else midpoint rest bucket
  end.

(** An entered soil reading parsed numerically, an absent one defaulted. *)
Definition entered_or {H : Host} (default : Z) (raw : string) : number :=
  if raw =? "" then num default else Number raw.

(** The first candidate that is truthy, else [default]. *)
Definition first_truthy (candidates : list value) (default : value) : value :=
  match find truthy candidates with
  | Some v => v
  | None => default
  end.

(** A string that is empty or consists only of white space. *)
Fixpoint blank (s : string) : bool :=
  match s with
  | EmptyString => true
  | String a rest => is_ws a && blank rest
  end.

(** The reverse-geocode call failed (transport error, non-2xx response,
    body that does not parse) or its response has no [location], or an
    empty one. *)
Inductive no_place_name : reply CropForm.GeocodeBody -> Prop :=
| transport_error (message : string) : no_place_name (NetworkError message)
| not_ok (errData : value) : no_place_name (HttpError errData)
| unparsable_body (message : string) :
    no_place_name (HttpOkUnparsable message)
| location_missing :
    no_place_name (HttpOk {| CropForm.location := None |})
| location_empty :
    no_place_name (HttpOk {| CropForm.location := Some "" |}).

(** A confirm request failed: the transport failed with [message], or the
    response was non-2xx and the error thrown for it says [message]. *)
Inductive confirm_failed {H : Host} : reply value -> string -> Prop :=
| confirm_network_error (message : string) :
    confirm_failed (NetworkError message) message
| confirm_http_error (errData : value) :
    confirm_failed (HttpError errData)
      (CropForm.errorDetail "Advisory request failed." errData).

(** In a trace (newest first), every confirm request comes after a preview
    that completed successfully. *)
Definition confirm_after_preview (tr : list CropForm.TraceItem) : Prop :=
  forall newer older body,
    tr = (newer ++ CropForm.Sent (CropForm.PostAdvisory body) :: older)%list ->
    exists d, In (CropForm.previewLoaded d) older.

(** The invariant of the workflow: a snapshot is held only after a
    successful preview, and the trace is well ordered. *)
Definition snapshot_backed (s : CropForm.state) : Prop :=
  (truthy (CropForm.previewData s) = true ->
   exists d, In (CropForm.previewLoaded d) (CropForm.trace s))
  /\ confirm_after_preview (CropForm.trace s).

Definition is_confirm_request (x : CropForm.TraceItem) : bool :=
  match x with
  | CropForm.Sent (CropForm.PostAdvisory _) => true
  | _ => false
  end.

End Reference.

(** ** Notions used to state further properties *)

Module Derived.

(** A fetch that did not end with a parsed 2xx body. *)
Definition fetch_failed {A : Type} (r : reply A) : bool :=
  match r with
  | HttpOk _ => false
  | _ => true
  end.

Definition is_sent (x : CropForm.TraceItem) : bool :=
  match x with
  | CropForm.Sent _ => true
  | CropForm.Settled _ _ => false
  end.

(** The number of requests a trace holds. *)
Definition sent_count (tr : list CropForm.TraceItem) : nat :=
  length (filter is_sent tr).

(** The event is the settlement of a request, or of a position fix that
    failed: something that answers the component rather than an action of
    the user or a position handed over by the platform. *)
Definition is_answer (e : CropForm.Event) : bool :=
  match e with
  | CropForm.Settle _ (CropForm.Geocoded _ _) => true
  | CropForm.Settle _ (CropForm.Fetched _) => true
  | CropForm.Settle _ CropForm.FixFailed => true
  | _ => false
  end.

(** A trace item that is not a preview request, or is one whose body has
    a location that is trimmed and not empty. *)
Definition located (x : CropForm.TraceItem) : Prop :=
  match x with
  | CropForm.Sent (CropForm.PostPreview body) =>
      Payload.location body <> "" /\
      trim (Payload.location body) = Payload.location body
  | _ => True
  end.

(** Whether a string has an underscore. *)
Fixpoint has_underscore (s : string) : bool :=
  match s with
  | EmptyString => false
  | String a rest =>
      Ascii.eqb a DiseaseName.underscore || has_underscore rest
  end.

(** A detection upload that yields no result: the fetch failed, or its
    2xx body is [null]. *)
Definition detect_failed (r : reply value) : bool :=
  match r with
  | HttpOk d => nullish d
  | _ => true
  end.

(** A dropped file that gets staged: an image within the size limit. *)
Definition accepted (f : Disease.File) : bool :=
  startsWith "image/" (Disease.type f)
  && (Disease.size f <=? Disease.MAX_BYTES)%N.

(** The name fields of a detection response, in the order they are tried. *)
Definition name_fields (data : value) : list value :=
  [get data "disease_name"; get data "disease"; get data "label"].

End Derived.

(** ** Sample inputs *)

Module Samples.

(** A form with only the pH entered. *)
Definition form_ph_only : Form.t :=
  {| Form.location := " Nashik "; Form.previous_crop := "Rice";
     Form.land_size := "12"; Form.irrigation_type := ""; Form.goal := "";
     Form.temperature := "Cool"; Form.humidity := "Medium";
     Form.rainfall := "High"; Form.N := ""; Form.P := ""; Form.K := "";
     Form.ph := "6" |}.

(** A detection response whose [label] is the empty string. *)
Definition response_empty_label : value :=
  VObj [("label", VStr ""); ("confidence_percent", VNum (Finite (1 # 2)))].

(** A detection response with only [label] and [confidence_percent]. *)
Definition response_label_only : value :=
  VObj [("label", VStr "Tomato___Late_blight");
        ("confidence_percent", VNum (Finite (3 # 10)))].

(** A detection response reporting confidence 0. *)
Definition response_zero_confidence : value :=
  VObj [("disease_name", VStr "Tomato___healthy");
        ("confidence", VNum (Finite 0))].

(** A detection response reporting confidence 0.25. *)
Definition response_quarter_confidence : value :=
  VObj [("label", VStr "Potato___Early_blight");
        ("confidence_percent", VNum (Finite (1 # 4)))].

(** The double next below 0.4, which [JSON.parse] yields for
    [0.39999999999999997]. *)
Definition below_two_fifths : Q := 7205759403792793 # 18014398509481984.

Definition response_below_two_fifths : value :=
  VObj [("disease_name", VStr "Tomato___Early_blight");
        ("confidence", VNum (Finite below_two_fifths))].

Definition leaf_file : Disease.File :=
  {| Disease.name := "leaf.jpg"; Disease.size := 204800;
     Disease.type := "image/jpeg" |}.

(** A 12 MB image. *)
Definition big_file : Disease.File :=
  {| Disease.name := "field.png"; Disease.size := 12 * 1024 * 1024;
     Disease.type := "image/png" |}.

(** The component after [leaf_file] was staged. *)
Definition staged : Disease.state :=
  Disease.processFile (Some leaf_file) "blob:1" Disease.initial.

(** The component showing the result of [response_zero_confidence]. *)
Definition shown_zero_confidence : Disease.state :=
  fst (@Disease.handleDetect_settle SampleHost.host leaf_file
         (HttpOk response_zero_confidence) "2026-01-01T00:00:00.000Z" true
         (fst (Disease.handleDetect_start staged)) History.Missing).

(** The component showing the result of [response_quarter_confidence]. *)
Definition shown_quarter_confidence : Disease.state :=
  fst (@Disease.handleDetect_settle SampleHost.host leaf_file
         (HttpOk response_quarter_confidence) "2026-01-01T00:00:00.000Z" true
         (fst (Disease.handleDetect_start staged)) History.Missing).

(** The component showing the result of [response_below_two_fifths]. *)
Definition shown_below_two_fifths : Disease.state :=
  fst (@Disease.handleDetect_settle SampleHost.host leaf_file
         (HttpOk response_below_two_fifths) "2026-01-01T00:00:00.000Z" true
         (fst (Disease.handleDetect_start staged)) History.Missing).

(** The component showing the result of [response_label_only]. *)
Definition shown_label_only : Disease.state :=
  fst (@Disease.handleDetect_settle SampleHost.host leaf_file
         (HttpOk response_label_only) "2026-01-01T00:00:00.000Z" true
         (fst (Disease.handleDetect_start staged)) History.Missing).

(** Twenty-one appends, the two producers alternating; the [k]-th one is
    dated [k]. *)
Definition nth_append (k : nat) : History.append :=
  let date := NilEmpty.string_of_uint (Nat.to_uint k) in
  if Nat.even k
  then History.Crop (VObj [("crop", VStr "rice")]) date true
  else History.Disease response_label_only "leaf.jpg" date true.

Definition appends21 : list History.append := map nth_append (seq 1 21).

(** Pune, as a GPS fix reports it. *)
Definition pune : CropForm.Coords :=
  {| CropForm.lat := 1852043 # 100000; CropForm.lng := 7385674 # 100000 |}.

(** A preview snapshot as the service returns it. *)
Definition snapshot : value :=
  VObj [("location", VStr "Pune");
        ("weather", VObj [("temperature", VNum (Finite 32))]);
        ("soil_source", VStr "auto"); ("weather_source", VStr "farmer")].

(** The farmer types a location, previews it and confirms. *)
Definition preview_then_confirm : list CropForm.Event :=
  [CropForm.Change "location" "Pune"; CropForm.Change "temperature" "Hot";
   CropForm.Submit;
   CropForm.Settle 0 (CropForm.Fetched (HttpOk snapshot));
   CropForm.ConfirmClick].

(** The workflow waiting on the confirm screen. *)
Definition on_confirm_screen : CropForm.state :=
  @CropForm.run SampleHost.host
    [CropForm.Change "location" "Pune"; CropForm.Submit;
     CropForm.Settle 0 (CropForm.Fetched (HttpOk snapshot))]
    (CropForm.initial None).

(** The form with a location of spaces and a tab. *)
Definition blank_location_form : CropForm.state :=
  @CropForm.run SampleHost.host
    [CropForm.Change "location" (String " " (String (ascii_of_nat 9) " "));
     CropForm.Change "rainfall" "Low"]
    (CropForm.initial None).

End Samples.

(** ** Further sample inputs *)

Module MoreSamples.

(** The form after the farmer typed a location. *)
Definition located_form : CropForm.state :=
  @CropForm.run SampleHost.host [CropForm.Change "location" "Pune"]
    (CropForm.initial None).

(** The form waiting for the reply to its preview request. *)
Definition previewing : CropForm.state :=
  @CropForm.run SampleHost.host
    [CropForm.Change "location" "Pune"; CropForm.Submit]
    (CropForm.initial None).

(** The body of the preview request of [Samples.preview_then_confirm]. *)
Definition previewed_body : Payload.t :=
  @Normalizer.buildPayload SampleHost.host
    (Form.set "temperature" "Hot"
       (Form.set "location" "Pune" Form.INITIAL_FORM)).

(** An advisory response without [top_crops]. *)
Definition advisory : value :=
  VObj [("recommended_crop", VStr "rice");
        ("expected_yield", VNum (Finite (42 # 10)));
        ("estimated_profit", VNum (Finite 52000));
        ("soil_source", VStr "auto"); ("weather_source", VStr "farmer")].

(** What the results page receives after [advisory]. *)
Definition handed_over : CropForm.Navigation :=
  {| CropForm.data :=
       @CropForm.resultPayload SampleHost.host
         (CropForm.form Samples.on_confirm_screen)
         (@Normalizer.buildPayload SampleHost.host
            (CropForm.form Samples.on_confirm_screen))
         advisory;
     CropForm.inputSummary := Samples.snapshot |}.

(** A text file dropped on the upload area. *)
Definition notes_file : Disease.File :=
  {| Disease.name := "notes.txt"; Disease.size := 512;
     Disease.type := "text/plain" |}.

(** String tables with two languages. *)
Definition catalog : I18n.Catalog := {|
  I18n.table := fun lang =>
    if lang =? "en"
    then VObj [("appName", VStr "AgriSense AI"); ("logout", VStr "Log out")]
    else if lang =? "hi"
    then VObj [("appName", VStr "AgriSense AI")]
    else VUndefined
|}.

End MoreSamples.

(* ===================================================================== *)
(** * Part II. Properties                                                 *)
(* ===================================================================== *)

Close Scope Q_scope.
Import Reference.

(** ** Host-level facts *)

Lemma Qltb_lt (a b : Q) : Qltb a b = true <-> (a < b)%Q.
Proof.
  unfold Qltb. rewrite negb_true_iff. split; intro Hlt.
  - apply Qnot_le_lt. intro Hle. apply Qle_bool_iff in Hle. congruence.
  - destruct (Qle_bool b a) eqn:E; [|reflexivity].
    apply Qle_bool_iff in E. exfalso. exact (Qlt_not_le _ _ Hlt E).
Qed.

Lemma Qltb_ge (a b : Q) : Qltb a b = false <-> (b <= a)%Q.
Proof.
  unfold Qltb. rewrite negb_false_iff. apply Qle_bool_iff.
Qed.

Lemma or_str_nonempty (m fallback : string) :
  fallback <> "" -> or_str m fallback <> "".
Proof.
  unfold or_str. intro Hf. destruct (m =? "") eqn:E; [exact Hf|].
  apply String.eqb_neq in E. exact E.
Qed.

Lemma or_str_verbatim (m fallback : string) :
  m <> "" -> or_str m fallback = m.
Proof.
  unfold or_str. intro Hm. apply String.eqb_neq in Hm. now rewrite Hm.
Qed.

(** ** Payload normalizer *)

Section NormalizerSpec.
Context {H : Host}.

(** C1. For every form state, [buildPayload] returns the documented
    mapping: each weather bucket goes to its documented midpoint
    (temperature Cool 18, Moderate 25, Hot 32; humidity Low 30, Medium 55,
    High 80; rainfall Low 400, Medium 750, High 1200) and the unset
    selection to [null]; [land_size] is parsed when non-empty, else [null];
    [manual_soil] is [null] iff the four raw fields N, P, K, ph are all
    empty, and otherwise holds every entered field parsed and every absent
    one defaulted (N, P, K to 0, ph to 7). *)
Theorem buildPayload_documented_mapping (form : Form.t) :
  let p := Normalizer.buildPayload form in
  Payload.temperature p = midpoint temperature_midpoints (Form.temperature form)
  /\ Payload.humidity p = midpoint humidity_midpoints (Form.humidity form)
  /\ Payload.rainfall p = midpoint rainfall_midpoints (Form.rainfall form)
  /\ midpoint temperature_midpoints "" = None
  /\ midpoint humidity_midpoints "" = None
  /\ midpoint rainfall_midpoints "" = None
  /\ Payload.land_size p =
       (if Form.land_size form =? "" then None
        else Some (Number (Form.land_size form)))
  /\ (Payload.manual_soil p = None <->
        Form.N form = "" /\ Form.P form = "" /\ Form.K form = ""
        /\ Form.ph form = "")
  /\ (forall soil, Payload.manual_soil p = Some soil ->
        soil = {| ManualSoil.N := entered_or 0 (Form.N form);
                  ManualSoil.P := entered_or 0 (Form.P form);
                  ManualSoil.K := entered_or 0 (Form.K form);
                  ManualSoil.ph := entered_or 7 (Form.ph form) |}).
Proof.
  destruct form as [loc pc ls irr g t h r n p k ph]. cbn -[String.eqb].
  repeat split.
  - unfold Normalizer.mapTemperatureCategory.
    rewrite !(String.eqb_sym t). reflexivity.
  - unfold Normalizer.mapHumidityCategory.
    rewrite !(String.eqb_sym h). reflexivity.
  - unfold Normalizer.mapRainfallCategory.
    rewrite !(String.eqb_sym r). reflexivity.
  - destruct (ls =? ""); reflexivity.
  - destruct (String.eqb_spec n ""); [|discriminate]; exact e.
  - destruct (String.eqb_spec n ""); [|discriminate].
    destruct (String.eqb_spec p ""); [|discriminate]; exact e0.
  - destruct (String.eqb_spec n ""); [|discriminate].
    destruct (String.eqb_spec p ""); [|discriminate].
    destruct (String.eqb_spec k ""); [|discriminate]; exact e1.
  - destruct (String.eqb_spec n ""); [|discriminate].
    destruct (String.eqb_spec p ""); [|discriminate].
    destruct (String.eqb_spec k ""); [|discriminate].
    destruct (String.eqb_spec ph ""); [|discriminate]; exact e2.
  - intros (-> & -> & -> & ->). reflexivity.
  - intros soil Hs. unfold entered_or.
    destruct (n =? ""), (p =? ""), (k =? ""), (ph =? "");
      cbn in Hs; try discriminate; now inversion Hs.
Qed.

End NormalizerSpec.

Example bucket_midpoints :
  map Normalizer.mapTemperatureCategory ["Cool"; "Moderate"; "Hot"; ""]
    = [Some (num 18); Some (num 25); Some (num 32); None]
  /\ map Normalizer.mapHumidityCategory ["Low"; "Medium"; "High"; ""]
     = [Some (num 30); Some (num 55); Some (num 80); None]
  /\ map Normalizer.mapRainfallCategory ["Low"; "Medium"; "High"; ""]
     = [Some (num 400); Some (num 750); Some (num 1200); None].
Proof. repeat split. Qed.

(** Scenario A of the specification. *)
Example scenario_A :
  let form := {| Form.location := "Pune"; Form.previous_crop := "";
                 Form.land_size := ""; Form.irrigation_type := "";
                 Form.goal := ""; Form.temperature := "Hot";
                 Form.humidity := ""; Form.rainfall := "Low";
                 Form.N := ""; Form.P := ""; Form.K := ""; Form.ph := "" |} in
  @Normalizer.buildPayload SampleHost.host form =
  {| Payload.location := "Pune"; Payload.previous_crop := None;
     Payload.land_size := None; Payload.irrigation_type := None;
     Payload.goal := None; Payload.temperature := Some (num 32);
     Payload.humidity := None; Payload.rainfall := Some (num 400);
     Payload.manual_soil := None |}.
Proof. reflexivity. Qed.

Lemma buildPayload_documented_mapping_witness :
  let p := @Normalizer.buildPayload SampleHost.host Samples.form_ph_only in
  Payload.manual_soil p <> None
  /\ (forall soil, Payload.manual_soil p = Some soil ->
        ManualSoil.ph soil = num 6 /\ ManualSoil.N soil = num 0).
Proof.
  destruct (@buildPayload_documented_mapping SampleHost.host
              Samples.form_ph_only)
    as (_ & _ & _ & _ & _ & _ & _ & Hnull & Hsoil).
  split.
  - intro Hn. apply Hnull in Hn. destruct Hn as (_ & _ & _ & Hph).
    discriminate Hph.
  - intros soil Hs. rewrite (Hsoil soil Hs). split; reflexivity.
Defined.

(** ** Rounding to binary64

    What the pages rely on: a product never crosses a whole number below
    [2^53] that its exact value does not cross. *)

Lemma rne_floor (n d : Z) : (n / d <= rne n d <= n / d + 1)%Z.
Proof.
  unfold rne.
  destruct (2 * (n mod d) ?= d)%Z; [destruct (Z.even (n / d))|..]; lia.
Qed.

Lemma rne_ge (n d A : Z) : (0 < d)%Z -> (A * d <= n)%Z -> (A <= rne n d)%Z.
Proof.
  intros Hd Hn. apply Z.le_trans with (n / d)%Z; [|apply rne_floor].
  apply Z.div_le_lower_bound; lia.
Qed.

Lemma rne_le (n d A : Z) : (0 < d)%Z -> (n <= A * d)%Z -> (rne n d <= A)%Z.
Proof.
  intros Hd Hn. destruct (Z.eq_dec n (A * d)) as [->|Hne].
  - unfold rne. rewrite Z.div_mul, Z.mod_mul by lia.
    assert (E : (2 * 0 ?= d)%Z = Lt) by (apply Z.compare_lt_iff; lia).
    rewrite E. lia.
  - apply Z.le_trans with (n / d + 1)%Z; [apply rne_floor|].
    assert (n / d < A)%Z by (apply Z.div_lt_upper_bound; lia). lia.
Qed.

Lemma ulps_pos : (0 < ulps)%Z.
Proof. unfold ulps. apply Z.pow_pos_nonneg; lia. Qed.

Lemma ulps_to_pos : Zpos (Z.to_pos ulps) = ulps.
Proof. apply Z2Pos.id, ulps_pos. Qed.

Lemma ulps_split (j : Z) :
  (0 <= j <= 1074)%Z -> ulps = (2 ^ (1074 - j) * 2 ^ j)%Z.
Proof.
  intro Hj. unfold ulps. rewrite <- Z.pow_add_r by lia. f_equal. lia.
Qed.

(** [2^53] and more units are out of reach of a whole number below
    [2^53]. *)
Lemma ulps_above (z j : Z) :
  (z < 2 ^ 53)%Z -> (1074 <= j)%Z -> (z * ulps < 2 ^ 53 * 2 ^ j)%Z.
Proof.
  intros Hz Hj.
  apply Z.lt_le_trans with (2 ^ 53 * ulps)%Z.
  - apply Z.mul_lt_mono_pos_r; [apply ulps_pos | exact Hz].
  - apply Z.mul_le_mono_nonneg_l; [apply Z.pow_nonneg; lia|].
    unfold ulps. apply Z.pow_le_mono_r; lia.
Qed.

Lemma spacing_nonneg (F : Z) : (0 <= spacing F)%Z.
Proof. unfold spacing. lia. Qed.

(** Rounding does not go below a whole number that the exact value
    reaches. *)
Lemma round_units_ge (z n d : Z) :
  (0 < z < 2 ^ 53)%Z -> (0 < d)%Z -> (z * d <= n)%Z ->
  match round_units n d with
  | Some M => (z * ulps <= M)%Z
  | None => True
  end.
Proof.
  intros Hz Hd Hn. unfold round_units.
  set (N := (n * ulps)%Z). set (F := (N / d)%Z). set (j := spacing F).
  destruct (2 ^ 2098 <=? rne N (d * 2 ^ j) * 2 ^ j)%Z; [exact I|].
  pose proof ulps_pos as HW.
  pose proof (spacing_nonneg F) as Hj. fold j in Hj.
  assert (HT : (0 < 2 ^ j)%Z) by (apply Z.pow_pos_nonneg; lia).
  assert (Hzw : (0 < z * ulps)%Z) by (apply Z.mul_pos_pos; lia).
  assert (HN : (z * ulps * d <= N)%Z).
  { unfold N. replace (z * ulps * d)%Z with (z * d * ulps)%Z by ring.
    apply Z.mul_le_mono_nonneg_r; lia. }
  assert (HF : (z * ulps <= F)%Z).
  { apply Z.div_le_lower_bound; [exact Hd|].
    now rewrite Z.mul_comm. }
  destruct (Z_le_gt_dec j 1074) as [Hle|Hgt].
  - assert (Hm : (z * 2 ^ (1074 - j) <= rne N (d * 2 ^ j))%Z).
    { apply rne_ge; [apply Z.mul_pos_pos; lia|].
      rewrite (ulps_split j) in HN by lia.
      replace (z * 2 ^ (1074 - j) * (d * 2 ^ j))%Z
        with (z * (2 ^ (1074 - j) * 2 ^ j) * d)%Z by ring.
      exact HN. }
    rewrite (ulps_split j) by lia.
    replace (z * (2 ^ (1074 - j) * 2 ^ j))%Z
      with (z * 2 ^ (1074 - j) * 2 ^ j)%Z by ring.
    apply Z.mul_le_mono_nonneg_r; lia.
  - assert (HFpos : (0 < F)%Z) by lia.
    assert (Hlog : (Z.log2 F = 52 + j)%Z) by (unfold j, spacing in *; lia).
    destruct (Z.log2_spec F HFpos) as [Hlo _].
    rewrite Hlog, Z.pow_add_r in Hlo by lia.
    assert (HdF : (d * F <= N)%Z) by (apply Z.mul_div_le; exact Hd).
    assert (Hm : (2 ^ 52 <= rne N (d * 2 ^ j))%Z).
    { apply rne_ge; [apply Z.mul_pos_pos; lia|].
      apply Z.le_trans with (d * F)%Z; [|exact HdF].
      replace (2 ^ 52 * (d * 2 ^ j))%Z with (d * (2 ^ 52 * 2 ^ j))%Z by ring.
      apply Z.mul_le_mono_nonneg_l; lia. }
    apply Z.le_trans with (2 ^ 52 * 2 ^ j)%Z;
      [|apply Z.mul_le_mono_nonneg_r; lia].
    pose proof (ulps_above z (j - 1) (proj2 Hz) ltac:(lia)) as Hup.
    replace (2 ^ 53 * 2 ^ (j - 1))%Z with (2 ^ 52 * 2 ^ j)%Z in Hup; [lia|].
    replace (2 ^ j)%Z with (2 ^ 1 * 2 ^ (j - 1))%Z
      by (rewrite <- Z.pow_add_r by lia; f_equal; lia).
    replace (2 ^ 53)%Z with (2 ^ 52 * 2 ^ 1)%Z by reflexivity. ring.
Qed.

(** Rounding does not go above a whole number that the exact value does
    not exceed, and it is then finite. *)
Lemma round_units_le (z n d : Z) :
  (0 <= z < 2 ^ 53)%Z -> (0 < d)%Z -> (0 <= n <= z * d)%Z ->
  exists M, round_units n d = Some M /\ (0 <= M <= z * ulps)%Z.
Proof.
  intros Hz Hd Hn. unfold round_units.
  set (N := (n * ulps)%Z). set (F := (N / d)%Z). set (j := spacing F).
  pose proof ulps_pos as HW.
  assert (HT : (0 < 2 ^ j)%Z)
    by (apply Z.pow_pos_nonneg; [lia | apply spacing_nonneg]).
  assert (HN0 : (0 <= N)%Z) by (apply Z.mul_nonneg_nonneg; lia).
  assert (HN : (N <= z * ulps * d)%Z).
  { unfold N. replace (z * ulps * d)%Z with (z * d * ulps)%Z by ring.
    apply Z.mul_le_mono_nonneg_r; lia. }
  assert (HF : (0 <= F <= z * ulps)%Z).
  { split; [apply Z.div_pos; lia|].
    apply Z.div_le_upper_bound; [exact Hd|]. now rewrite Z.mul_comm. }
  assert (Hj : (0 <= j <= 1074)%Z).
  { split; [apply spacing_nonneg|]. unfold j, spacing.
    destruct (Z.eq_dec F 0) as [->|HF0]; [cbn; lia|].
    assert (Hlt : (F < 2 ^ 1127)%Z).
    { apply Z.le_lt_trans with (z * ulps)%Z; [lia|].
      replace (2 ^ 1127)%Z with (2 ^ 53 * 2 ^ 1074)%Z
        by (rewrite <- Z.pow_add_r by lia; reflexivity).
      apply ulps_above; lia. }
    apply Z.log2_lt_pow2 in Hlt; lia. }
  assert (Hd' : (0 < d * 2 ^ j)%Z) by (apply Z.mul_pos_pos; lia).
  assert (Hm : (rne N (d * 2 ^ j) <= z * 2 ^ (1074 - j))%Z).
  { apply rne_le; [exact Hd'|].
    rewrite (ulps_split j) in HN by lia.
    replace (z * 2 ^ (1074 - j) * (d * 2 ^ j))%Z
      with (z * (2 ^ (1074 - j) * 2 ^ j) * d)%Z by ring.
    exact HN. }
  assert (Hm0 : (0 <= rne N (d * 2 ^ j))%Z).
  { apply Z.le_trans with (N / (d * 2 ^ j))%Z; [|apply rne_floor].
    apply Z.div_pos; lia. }
  assert (HM : (0 <= rne N (d * 2 ^ j) * 2 ^ j <= z * ulps)%Z).
  { split; [apply Z.mul_nonneg_nonneg; lia|].
    rewrite (ulps_split j) by lia.
    replace (z * (2 ^ (1074 - j) * 2 ^ j))%Z
      with (z * 2 ^ (1074 - j) * 2 ^ j)%Z by ring.
    apply Z.mul_le_mono_nonneg_r; lia. }
  assert (Hfin : (rne N (d * 2 ^ j) * 2 ^ j < 2 ^ 2098)%Z).
  { apply Z.le_lt_trans with (z * ulps)%Z; [lia|].
    apply Z.lt_le_trans with (2 ^ 53 * 2 ^ 1074)%Z; [apply ulps_above; lia|].
    rewrite <- Z.pow_add_r by lia. apply Z.pow_le_mono_r; lia. }
  apply Z.leb_gt in Hfin. rewrite Hfin.
  eexists. split; [reflexivity | exact HM].
Qed.

Lemma round_units_nonneg (n d : Z) :
  (0 <= n)%Z -> (0 < d)%Z ->
  forall M, round_units n d = Some M -> (0 <= M)%Z.
Proof.
  intros Hn Hd M. unfold round_units.
  set (N := (n * ulps)%Z). set (j := spacing (N / d)).
  destruct (2 ^ 2098 <=? rne N (d * 2 ^ j) * 2 ^ j)%Z; [discriminate|].
  intros [= <-].
  pose proof ulps_pos as HW.
  assert (HT : (0 < 2 ^ j)%Z)
    by (apply Z.pow_pos_nonneg; [lia | apply spacing_nonneg]).
  apply Z.mul_nonneg_nonneg; [|lia].
  apply Z.le_trans with (N / (d * 2 ^ j))%Z; [|apply rne_floor].
  apply Z.div_pos; [apply Z.mul_nonneg_nonneg; lia | apply Z.mul_pos_pos; lia].
Qed.

(** A product whose exact value reaches the whole number [z] is not
    rounded below it. *)
Lemma round64_ge (z : Z) (x : Q) :
  (0 < z < 2 ^ 53)%Z -> (inject_Z z <= x)%Q ->
  num_ltb (round64 x) (num z) = false.
Proof.
  intros Hz Hx. destruct x as [p q].
  unfold Qle in Hx. cbn [Qnum Qden inject_Z] in Hx.
  assert (Hp : (z * Zpos q <= p)%Z) by lia.
  assert (Hp0 : (0 < p)%Z).
  { apply Z.lt_le_trans with (z * Zpos q)%Z; [|exact Hp].
    apply Z.mul_pos_pos; lia. }
  unfold round64. cbn [Qnum Qden].
  rewrite (proj2 (Z.ltb_ge p 0)) by lia. rewrite Z.abs_eq by lia.
  pose proof (round_units_ge z p (Zpos q) Hz eq_refl Hp) as HM.
  destruct (round_units p (Zpos q)) as [M|]; [|reflexivity].
  unfold num. cbn [num_ltb]. apply Qltb_ge. rewrite Qred_correct.
  unfold Qle. cbn [Qnum Qden inject_Z]. rewrite ulps_to_pos. lia.
Qed.

(** A product whose exact value does not exceed the whole number [z] is
    not rounded above it. *)
Lemma round64_le (z : Z) (x : Q) :
  (0 <= z < 2 ^ 53)%Z -> (x <= inject_Z z)%Q ->
  num_ltb (num z) (round64 x) = false.
Proof.
  intros Hz Hx. destruct x as [p q].
  unfold Qle in Hx. cbn [Qnum Qden inject_Z] in Hx.
  assert (Hp : (p <= z * Zpos q)%Z) by lia.
  pose proof ulps_pos as HW.
  unfold round64. cbn [Qnum Qden].
  destruct (Z.ltb_spec p 0) as [Hneg|Hpos].
  - pose proof (round_units_nonneg (Z.abs p) (Zpos q) ltac:(lia) eq_refl) as HM.
    destruct (round_units (Z.abs p) (Zpos q)) as [M|]; [|reflexivity].
    specialize (HM M eq_refl).
    unfold num. cbn [num_ltb]. apply Qltb_ge. rewrite Qred_correct.
    unfold Qle. cbn [Qnum Qden inject_Z]. rewrite ulps_to_pos. nia.
  - rewrite Z.abs_eq by lia.
    destruct (round_units_le z p (Zpos q) Hz eq_refl (conj Hpos Hp))
      as (M & -> & HM0 & HM).
    unfold num. cbn [num_ltb]. apply Qltb_ge. rewrite Qred_correct.
    unfold Qle. cbn [Qnum Qden inject_Z]. rewrite ulps_to_pos. lia.
Qed.

(** A product is never [NaN]. *)
Lemma round64_not_NaN (x : Q) : round64 x <> NaN.
Proof.
  unfold round64.
  destruct (round_units _ _); [|destruct (Qnum x <? 0)%Z]; discriminate.
Qed.

(** A product of an exact value that is not negative is not negative. *)
Lemma round64_nonneg (x : Q) :
  (0 <= x)%Q -> num_ltb (round64 x) (num 0) = false.
Proof.
  intro Hx. destruct x as [p q].
  unfold Qle in Hx. cbn [Qnum Qden] in Hx.
  assert (Hp : (0 <= p)%Z) by lia.
  unfold round64. cbn [Qnum Qden].
  rewrite (proj2 (Z.ltb_ge p 0)) by lia. rewrite Z.abs_eq by lia.
  pose proof (round_units_nonneg p (Zpos q) Hp eq_refl) as HM.
  destruct (round_units p (Zpos q)) as [M|]; [|reflexivity].
  specialize (HM M eq_refl).
  unfold num. cbn [num_ltb]. apply Qltb_ge. rewrite Qred_correct.
  unfold Qle. cbn [Qnum Qden inject_Z]. lia.
Qed.

(** [Math.min(p, z)] on a product [p]. *)
Lemma Math_min_product (x : Q) (z : Z) :
  Math_min (round64 x) (num z) =
  if num_ltb (num z) (round64 x) then num z else round64 x.
Proof.
  pose proof (round64_not_NaN x) as Hn. unfold Math_min, num.
  destruct (round64 x); [reflexivity | contradiction | reflexivity..].
Qed.

(** [Math.min(p, z)] does not exceed [z]. *)
Lemma Math_min_cap (p : number) (z : Z) :
  num_ltb (num z) (Math_min p (num z)) = false.
Proof.
  unfold Math_min, num. destruct p as [q| | |]; try reflexivity.
  - destruct (num_ltb (Finite (inject_Z z)) (Finite q)) eqn:E; [|exact E].
    cbn [num_ltb]. apply Qltb_ge, Qle_refl.
  - cbn [num_ltb]. apply Qltb_ge, Qle_refl.
Qed.

(** A number above [b] is not below a smaller [a]. *)
Lemma num_ltb_above (p : number) (a b : Z) :
  (a <= b)%Z -> num_ltb (num b) p = true -> num_ltb p (num a) = false.
Proof.
  intros Hab. destruct p as [q| | |]; cbn [num_ltb num]; try discriminate;
    try reflexivity.
  rewrite Qltb_lt, Qltb_ge. intro Hlt.
  apply Qle_trans with (inject_Z b); [now rewrite <- Zle_Qle|].
  now apply Qlt_le_weak.
Qed.

(** ** Disease upload pipeline *)

Section DiseaseSpec.
Context {H : Host}.

(** C10. A file larger than 10 MB handed to [processFile] is rejected
    with the too-large error; the staged file and its preview URL stay as
    they were, and the previous result is cleared (the previous error is
    cleared before the size check and replaced by the too-large error).  An
    accepted file becomes the staged file with its fresh preview URL, and
    the previous result and error are cleared.  The drop and the file-input
    paths behave alike. *)
Theorem processFile_size_gate (s : Disease.state) (f : Disease.File)
    (url : string) :
  ((10 * 1024 * 1024 < Disease.size f)%N ->
     let s' := Disease.processFile (Some f) url s in
     Disease.error s' = "File too large. Maximum size is 10MB."
     /\ Disease.file s' = Disease.file s
     /\ Disease.previewUrl s' = Disease.previewUrl s
     /\ Disease.result s' = None
     /\ Disease.isLoading s' = Disease.isLoading s
     /\ Disease.handleFileChange (Some f) url s = s'
     /\ (startsWith "image/" (Disease.type f) = true ->
         Disease.file (Disease.handleDrop (Some f) url s) = Disease.file s
         /\ Disease.error (Disease.handleDrop (Some f) url s) = Disease.error s'))
  /\ ((Disease.size f <= 10 * 1024 * 1024)%N ->
     let s' := Disease.processFile (Some f) url s in
     Disease.file s' = Some f
     /\ Disease.previewUrl s' = url
     /\ Disease.result s' = None
     /\ Disease.error s' = ""
     /\ Disease.isLoading s' = Disease.isLoading s).
Proof.
  split; intro Hsize; cbn zeta; unfold Disease.handleDrop,
    Disease.handleFileChange, Disease.processFile, Disease.MAX_BYTES.
  - apply N.ltb_lt in Hsize. rewrite Hsize.
    do 6 (split; [reflexivity|]).
    intros ->. split; reflexivity.
  - apply N.ltb_ge in Hsize. rewrite Hsize. repeat split; reflexivity.
Qed.

(** [a || b || c || d] picks the first truthy operand among the first
    three, else the last. *)
Lemma or_chain3 (a b c d : value) :
  or_ (or_ (or_ a b) c) d = first_truthy [a; b; c] d.
Proof.
  unfold first_truthy, or_. cbn [find].
  destruct (truthy a) eqn:Ea; [now rewrite ?Ea|].
  destruct (truthy b) eqn:Eb; [now rewrite ?Eb|].
  destruct (truthy c) eqn:Ec; [now rewrite ?Ec|reflexivity].
Qed.

(** C7, as the code has it.  The disease name of the normalized result is
    the first truthy value among the fields [disease_name], [disease],
    [label] (a field that is absent, [null], [false], [0] or the empty
    string is passed over) and ["Unknown disease"] when there is none; the
    confidence is [confidence] when that is a number and
    [confidence_percent] otherwise.  In particular a response that carries
    only a non-empty [label] and [confidence_percent] yields that label and
    that confidence, and this is the result the component stores. *)
Theorem normalizeResult_field_fallback (data : value) :
  let r := Disease.normalizeResult data in
  Disease.diseaseName r =
    first_truthy [get data "disease_name"; get data "disease"; get data "label"]
      (VStr "Unknown disease")
  /\ Disease.confidence r =
       (if is_number (get data "confidence") then get data "confidence"
        else get data "confidence_percent")
  /\ (forall l,
        get data "disease_name" = VUndefined ->
        get data "disease" = VUndefined ->
        get data "confidence" = VUndefined ->
        get data "label" = VStr l -> l <> "" ->
        Disease.diseaseName r = VStr l
        /\ Disease.confidence r = get data "confidence_percent")
  /\ (forall f date written s h,
        nullish data = false ->
        Disease.result
          (fst (Disease.handleDetect_settle f (HttpOk data) date written s h))
        = Some r).
Proof.
  cbn zeta. repeat split.
  - apply or_chain3.
  - unfold Disease.normalizeResult. cbn [Disease.diseaseName].
    rewrite H0, H1, H3. unfold or_. cbn [truthy].
    apply String.eqb_neq in H4. rewrite H4. reflexivity.
  - unfold Disease.normalizeResult. cbn [Disease.confidence].
    rewrite H2. reflexivity.
  - intros f date written s h Hn. unfold Disease.handleDetect_settle.
    rewrite Hn. reflexivity.
Qed.

(** [c * 100] on a finite [c]: the exact product, rounded. *)
Lemma product_of_finite (c : Q) :
  num_mul (Finite c) (num 100) = round64 (c * inject_Z 100).
Proof. reflexivity. Qed.

(** C6, as the code has it.  The displayed percent of a numeric
    confidence [c] is [min(c * 100, 100)], the product being the double
    that the multiplication yields; for an input between 0 and 1 the cap
    is idle and the percent lies between 0 and 100.  The percent is 0 when
    the confidence is not a number.  The low-confidence notice is rendered
    exactly when a result is shown and the percent is strictly between 0
    and 40, which for a finite [c] is exactly when the product [c * 100]
    as computed is; it is therefore rendered only if [0 < c * 100 < 40]
    holds of the exact values, and never when [c <= 0] or
    [40 <= c * 100].  The confidence is the one the server sent as
    [confidence] or, failing a number there, as [confidence_percent]. *)
Theorem low_confidence_notice_threshold (s : Disease.state) :
  (forall r c, Disease.result s = Some r ->
     Disease.confidence r = VNum c ->
     Disease.confidencePercent s = Math_min (num_mul c (num 100)) (num 100))
  /\ (forall r c, Disease.result s = Some r ->
        Disease.confidence r = VNum (Finite c) -> (0 <= c)%Q -> (c <= 1)%Q ->
        Disease.confidencePercent s = num_mul (Finite c) (num 100)
        /\ num_ltb (Disease.confidencePercent s) (num 0) = false
        /\ num_ltb (num 100) (Disease.confidencePercent s) = false)
  /\ (forall r, Disease.result s = Some r ->
        is_number (Disease.confidence r) = false ->
        Disease.confidencePercent s = num 0)
  /\ (Disease.lowConfidenceNotice s = true <->
        Disease.result s <> None
        /\ num_ltb (num 0) (Disease.confidencePercent s) = true
        /\ num_ltb (Disease.confidencePercent s) (num 40) = true)
  /\ (forall r c, Disease.result s = Some r ->
        Disease.confidence r = VNum (Finite c) ->
        (Disease.lowConfidenceNotice s = true <->
           num_ltb (num 0) (num_mul (Finite c) (num 100)) = true
           /\ num_ltb (num_mul (Finite c) (num 100)) (num 40) = true)
        /\ (Disease.lowConfidenceNotice s = true ->
            (0 < c * inject_Z 100)%Q /\ (c * inject_Z 100 < inject_Z 40)%Q)
        /\ ((c <= 0)%Q \/ (inject_Z 40 <= c * inject_Z 100)%Q ->
            Disease.lowConfidenceNotice s = false))
  /\ (forall data c,
        is_number (get data "confidence") = false ->
        get data "confidence_percent" = VNum c ->
        Disease.confidence (Disease.normalizeResult data) = VNum c).
Proof.
  split; [|split; [|split; [|split; [|split]]]].
  - intros r c Hr Hc. unfold Disease.confidencePercent. now rewrite Hr, Hc.
  - intros r c Hr Hc H0 H1. unfold Disease.confidencePercent.
    rewrite Hr, Hc, product_of_finite, Math_min_product.
    assert (Hle : (c * inject_Z 100 <= inject_Z 100)%Q).
    { setoid_replace (inject_Z 100) with (1 * inject_Z 100)%Q at 2 by ring.
      apply Qmult_le_compat_r; [exact H1 | discriminate]. }
    assert (Hge : (0 <= c * inject_Z 100)%Q)
      by (apply Qmult_le_0_compat; [exact H0 | discriminate]).
    assert (Hcap : num_ltb (num 100) (round64 (c * inject_Z 100)) = false)
      by (apply (round64_le 100); [now split | exact Hle]).
    rewrite Hcap.
    split; [reflexivity|]. split; [now apply round64_nonneg | exact Hcap].
  - intros r Hr Hn. unfold Disease.confidencePercent. rewrite Hr.
    destruct (Disease.confidence r); try reflexivity; discriminate.
  - unfold Disease.lowConfidenceNotice, num_gtb.
    destruct (Disease.result s); [|intuition congruence].
    rewrite andb_true_iff. intuition congruence.
  - intros r c Hr Hc.
    assert (Hiff : Disease.lowConfidenceNotice s = true <->
              num_ltb (num 0) (num_mul (Finite c) (num 100)) = true
              /\ num_ltb (num_mul (Finite c) (num 100)) (num 40) = true).
    { unfold Disease.lowConfidenceNotice, num_gtb, Disease.confidencePercent.
      rewrite Hr, Hc, product_of_finite, Math_min_product, andb_true_iff.
      destruct (num_ltb (num 100) (round64 (c * inject_Z 100))) eqn:E;
        [|reflexivity].
      apply (num_ltb_above _ 40 100) in E; [|lia].
      split; intros [_ Hlow]; [discriminate Hlow | congruence]. }
    assert (Hshown : Disease.lowConfidenceNotice s = true ->
              (0 < c * inject_Z 100)%Q /\ (c * inject_Z 100 < inject_Z 40)%Q).
    { rewrite Hiff, product_of_finite. intros [Hpos Hlow]. split.
      - destruct (Qlt_le_dec 0 (c * inject_Z 100)) as [Hlt|Hle];
          [exact Hlt|].
        apply (round64_le 0) in Hle; [|now split]. congruence.
      - destruct (Qlt_le_dec (c * inject_Z 100) (inject_Z 40)) as [Hlt|Hle];
          [exact Hlt|].
        apply (round64_ge 40) in Hle; [|now split]. congruence. }
    split; [exact Hiff|]. split; [exact Hshown|].
    intros Hout. destruct (Disease.lowConfidenceNotice s); [|reflexivity].
    destruct (Hshown eq_refl) as [Hpos Hlow]. exfalso.
    destruct Hout as [Hc0|H40].
    + apply (Qlt_not_le _ _ Hpos).
      setoid_replace 0%Q with (0 * inject_Z 100)%Q by ring.
      apply Qmult_le_compat_r; [exact Hc0 | discriminate].
    + exact (Qlt_not_le _ _ Hlow H40).
  - intros data c Hn Hc. unfold Disease.normalizeResult.
    cbn [Disease.confidence]. now rewrite Hn.
Qed.

End DiseaseSpec.

(** Scenario C of the specification, and an accepted file. *)
Lemma processFile_size_gate_witness :
  (let s' := Disease.processFile (Some Samples.big_file) "blob:2" Samples.staged in
   Disease.error s' = "File too large. Maximum size is 10MB."
   /\ Disease.file s' = Some Samples.leaf_file
   /\ Disease.previewUrl s' = "blob:1")
  /\ (let s' := Disease.processFile (Some Samples.leaf_file) "blob:3"
                  Disease.initial in
      Disease.file s' = Some Samples.leaf_file
      /\ Disease.previewUrl s' = "blob:3").
Proof.
  split.
  - destruct (proj1 (processFile_size_gate Samples.staged Samples.big_file
                       "blob:2"))
      as (He & Hf & Hu & _); [reflexivity|].
    cbn zeta. rewrite He, Hf, Hu. repeat split; reflexivity.
  - destruct (proj2 (processFile_size_gate Disease.initial Samples.leaf_file
                       "blob:3"))
      as (Hf & Hu & _); [discriminate|].
    cbn zeta. rewrite Hf, Hu. split; reflexivity.
Defined.

(** A response whose [label] is the empty string: the normalized disease
    name is not the [label] value. *)
Lemma normalizeResult_empty_label :
  get Samples.response_empty_label "disease_name" = VUndefined
  /\ get Samples.response_empty_label "disease" = VUndefined
  /\ get Samples.response_empty_label "label" = VStr ""
  /\ Disease.diseaseName (Disease.normalizeResult Samples.response_empty_label)
     = VStr "Unknown disease"
  /\ Disease.diseaseName (Disease.normalizeResult Samples.response_empty_label)
     <> get Samples.response_empty_label "label".
Proof. repeat split; try reflexivity. discriminate. Qed.

Lemma normalizeResult_field_fallback_witness :
  Disease.diseaseName (Disease.normalizeResult Samples.response_label_only)
  = VStr "Tomato___Late_blight"
  /\ Disease.confidence (Disease.normalizeResult Samples.response_label_only)
     = VNum (Finite (3 # 10))
  /\ Disease.result Samples.shown_label_only
     = Some (Disease.normalizeResult Samples.response_label_only).
Proof.
  destruct (@normalizeResult_field_fallback SampleHost.host
              Samples.response_label_only)
    as (_ & _ & Honly & Hstored).
  destruct (Honly "Tomato___Late_blight" eq_refl eq_refl eq_refl eq_refl)
    as [Hn Hc]; [discriminate|].
  rewrite Hn, Hc.
  split; [reflexivity | split; [reflexivity|]].
  unfold Samples.shown_label_only. apply Hstored. reflexivity.
Defined.

(** A result with confidence 0: the percent is below 40 and the notice is
    not rendered. *)
Lemma notice_absent_at_zero_percent :
  Disease.confidencePercent Samples.shown_zero_confidence = num 0
  /\ num_ltb (Disease.confidencePercent Samples.shown_zero_confidence) (num 40)
     = true
  /\ Disease.lowConfidenceNotice Samples.shown_zero_confidence = false.
Proof. split; [|split]; vm_compute; reflexivity. Qed.

Lemma low_confidence_notice_threshold_witness :
  Disease.confidencePercent Samples.shown_quarter_confidence = num 25
  /\ Disease.lowConfidenceNotice Samples.shown_quarter_confidence = true.
Proof.
  destruct (low_confidence_notice_threshold Samples.shown_quarter_confidence)
    as (_ & Hscale & _ & Hshown & _ & _).
  split.
  - destruct (Hscale _ _ eq_refl eq_refl) as [Hp _]; [discriminate..|].
    rewrite Hp. vm_compute. reflexivity.
  - apply Hshown. split; [discriminate|]. split; vm_compute; reflexivity.
Defined.

(** The confidence next below 0.4: [c * 100] is below 40 as a rational and
    is 40 as the double the multiplication yields, so the percent is 40
    and the notice is not rendered. *)
Lemma percent_of_product_is_rounded :
  (Samples.below_two_fifths * inject_Z 100 < inject_Z 40)%Q
  /\ Disease.confidencePercent Samples.shown_below_two_fifths = num 40
  /\ Disease.lowConfidenceNotice Samples.shown_below_two_fifths = false.
Proof. split; [|split]; vm_compute; reflexivity. Qed.

(** ** Local history store *)

Lemma firstn_app_firstn {A : Type} (n m : nat) (xs ys : list A) :
  n <= m -> firstn n (xs ++ firstn m ys)%list = firstn n (xs ++ ys)%list.
Proof.
  revert n m. induction xs as [|x xs IH]; intros n m Hle; cbn [app].
  - rewrite firstn_firstn. now rewrite Nat.min_l.
  - destruct n as [|n]; [reflexivity|]. cbn [firstn]. f_equal.
    apply IH. lia.
Qed.

Lemma run_cons (a : History.append) (ops : list History.append)
    (s : History.slot) :
  History.run (a :: ops) s = History.run ops (History.apply a s).
Proof. reflexivity. Qed.

(** An append on a slot that holds a list: nothing changes when the write
    is refused, else the new entry is put in front and the list cut to 20. *)
Lemma apply_on_list (a : History.append) (s : History.slot) :
  History.holds_list s = true ->
  History.holds_list (History.apply a s) = true
  /\ History.entries (History.apply a s) =
       if History.written_of a
       then firstn 20 (History.entry_of a :: History.entries s)
       else History.entries s.
Proof.
  intro Hl. destruct s as [| |v]; try discriminate.
  - destruct a as [summary date [|]|data fileName date [|]]; split; reflexivity.
  - destruct v; try discriminate.
    destruct a as [summary date [|]|data fileName date [|]]; split; reflexivity.
Qed.

(** An append on a slot that does not hold a list changes nothing. *)
Lemma apply_off_list (a : History.append) (s : History.slot) :
  History.holds_list s = false -> History.apply a s = s.
Proof.
  intro Hl. destruct s as [| |v]; try discriminate.
  - destruct a; reflexivity.
  - destruct v; try discriminate; destruct a; reflexivity.
Qed.

Lemma run_off_list (ops : list History.append) (s : History.slot) :
  History.holds_list s = false -> History.run ops s = s.
Proof.
  intro Hl. induction ops as [|a ops IH]; [reflexivity|].
  rewrite run_cons, apply_off_list by exact Hl. exact IH.
Qed.

Lemma entries_off_list (s : History.slot) :
  History.holds_list s = false -> History.entries s = [].
Proof.
  destruct s as [| |v]; try discriminate; try reflexivity.
  destruct v; try discriminate; reflexivity.
Qed.

Lemma run_on_list (ops : list History.append) (s : History.slot) :
  History.holds_list s = true ->
  length (History.entries s) <= 20 ->
  History.holds_list (History.run ops s) = true
  /\ History.entries (History.run ops s) =
       firstn 20
         (rev (map History.entry_of (filter History.written_of ops))
          ++ History.entries s)%list.
Proof.
  revert s. induction ops as [|a ops IH]; intros s Hl Hlen.
  - split; [exact Hl|]. unfold History.run.
    cbn [fold_left filter map rev app]. now rewrite firstn_all2.
  - rewrite run_cons.
    destruct (apply_on_list a s Hl) as [Hl' He'].
    assert (Hlen' : length (History.entries (History.apply a s)) <= 20).
    { rewrite He'. destruct (History.written_of a); [|exact Hlen].
      apply firstn_le_length. }
    destruct (IH _ Hl' Hlen') as [Hl'' He'']. split; [exact Hl''|].
    rewrite He'', He'. cbn [filter].
    destruct (History.written_of a); [|reflexivity].
    cbn [map rev]. rewrite firstn_app_firstn by lia.
    now rewrite <- app_assoc.
Qed.

(** C2. On a store that holds at most 20 entries (the empty store a fresh
    device has, in particular), after any sequence of appends by the crop
    and the disease producers the store holds at most 20 entries; when the
    store is a list they are the entries of the appends that were written,
    the newest first, followed by the old ones, cut to 20.  An append that
    is written puts its entry in front, and on a full store drops the
    oldest one; after 20 or more written appends the store holds exactly
    the 20 most recent, so 21 appends leave the last 20. *)
Theorem history_bounded_newest_first (ops : list History.append)
    (s : History.slot) :
  length (History.entries s) <= 20 ->
  let s' := History.run ops s in
  length (History.entries s') <= 20
  /\ (History.holds_list s = true ->
      History.entries s' =
        firstn 20
          (rev (map History.entry_of (filter History.written_of ops))
           ++ History.entries s)%list)
  /\ (forall a, History.holds_list s' = true ->
      History.written_of a = true ->
      History.entries (History.apply a s') =
        firstn 20 (History.entry_of a :: History.entries s')
      /\ (length (History.entries s') = 20 ->
          History.entries (History.apply a s') =
            History.entry_of a :: removelast (History.entries s')))
  /\ (History.holds_list s = true ->
      forallb History.written_of ops = true ->
      20 <= length ops ->
      History.entries s' =
        rev (map History.entry_of (skipn (length ops - 20) ops))).
Proof.
  intros Hlen s'. subst s'.
  destruct (History.holds_list s) eqn:Hl.
  - destruct (run_on_list ops s Hl Hlen) as [Hl' He'].
    split; [|split; [|split]].
    + rewrite He'. apply firstn_le_length.
    + intros _. exact He'.
    + intros a _ Hw. destruct (apply_on_list a _ Hl') as [_ Ha].
      rewrite Hw in Ha. split; [exact Ha|].
      intro H20. rewrite Ha, removelast_firstn_len, H20. reflexivity.
    + intros _ Hall H20. rewrite He', forallb_filter_id by exact Hall.
      rewrite firstn_app.
      rewrite length_rev, length_map.
      replace (20 - length ops) with 0 by lia.
      rewrite firstn_O, app_nil_r, firstn_rev, length_map, skipn_map.
      reflexivity.
  - rewrite run_off_list by exact Hl. rewrite Hl.
    split; [exact Hlen|split; [discriminate|split; [|discriminate]]].
    intros a Habs. discriminate Habs.
Qed.

(** Scenario B of the specification: 21 appends on an empty store. *)
Lemma history_bounded_newest_first_witness :
  length (History.entries (History.run Samples.appends21 History.Missing)) = 20
  /\ History.entries (History.run Samples.appends21 History.Missing) =
       rev (map History.entry_of (map Samples.nth_append (seq 2 20))).
Proof.
  assert (H0 : length (History.entries History.Missing) <= 20) by (cbn; lia).
  destruct (history_bounded_newest_first Samples.appends21 History.Missing H0)
    as (_ & _ & _ & Hrecent).
  assert (H21 : 20 <= length Samples.appends21) by (vm_compute; lia).
  rewrite (Hrecent eq_refl eq_refl H21).
  split; reflexivity.
Defined.

(** What the mount effect of [Home] leaves in [history] for a store that
    is absent, unparsable, or parsed to a list or to a value without
    [slice]. *)
Lemma Home_read_recovers (s : History.slot) :
  match s with
  | History.Missing | History.Unparsable =>
      History.Home_read s History.Home_initial_history = VArr []
  | History.Parsed (VArr h) =>
      History.Home_read s History.Home_initial_history = VArr (firstn 6 h)
  | History.Parsed (VStr _) => True
  | History.Parsed _ =>
      History.Home_read s History.Home_initial_history = VArr []
  end.
Proof. destruct s as [| |[]]; try reflexivity; exact I. Qed.

(** C9, at a store whose item is the JSON text of a string: the mount
    effect of [Home] does not raise, but it leaves in [history] the first
    six characters of that string, not an empty sequence, and rendering the
    history section then raises. *)
Theorem Home_read_string_item :
  History.Home_read (History.Parsed (VStr "abcdefgh"))
    History.Home_initial_history = VStr "abcdef"
  /\ History.Home_read (History.Parsed (VStr "abcdefgh"))
       History.Home_initial_history <> VArr []
  /\ History.Home_cards
       (History.Home_read (History.Parsed (VStr "abcdefgh"))
          History.Home_initial_history) = None.
Proof. split; [reflexivity | split; [discriminate | reflexivity]]. Qed.

(** ** Location resolver *)

Lemma trimStart_blank (s : string) : blank s = true -> trimStart s = "".
Proof.
  induction s as [|a s IH]; [reflexivity|]. cbn [blank trimStart].
  intro Hb. apply andb_true_iff in Hb as [Ha Hs]. rewrite Ha. exact (IH Hs).
Qed.

Lemma trimEnd_empty_blank (s : string) : trimEnd s = "" -> blank s = true.
Proof.
  induction s as [|a s IH]; [reflexivity|]. cbn [blank trimEnd].
  destruct (is_ws a); cbn [andb]; [|discriminate].
  destruct (String.eqb_spec (trimEnd s) ""); [|discriminate].
  intros _. exact (IH e).
Qed.

Lemma trimStart_blank_inv (s : string) :
  blank (trimStart s) = true -> blank s = true.
Proof.
  induction s as [|a s IH]; [reflexivity|]. cbn [trimStart].
  destruct (is_ws a) eqn:Ha; [|exact (fun Hb => Hb)].
  intro Hb. cbn [blank]. rewrite Ha. exact (IH Hb).
Qed.

(** [s.trim()] is empty exactly when [s] is empty or all white space. *)
Lemma trim_empty_iff_blank (s : string) : trim s = "" <-> blank s = true.
Proof.
  unfold trim. split.
  - intro Ht. apply trimStart_blank_inv, trimEnd_empty_blank, Ht.
  - intro Hb. now rewrite trimStart_blank.
Qed.

(** [nearest y] is within one half of [y], and is the larger candidate on
    a tie. *)
Lemma nearest_spec (y : Q) :
  (y - (1 # 2) < inject_Z (nearest y))%Q
  /\ (inject_Z (nearest y) <= y + (1 # 2))%Q.
Proof.
  unfold nearest. split.
  - pose proof (Qlt_floor (y + (1 # 2))) as Hlt.
    rewrite inject_Z_plus in Hlt.
    apply Qplus_lt_l with (z := 1%Q).
    setoid_replace (y - (1 # 2) + 1)%Q with (y + (1 # 2))%Q by ring.
    exact Hlt.
  - apply Qfloor_le.
Qed.

Section CropFormSpec.
Context {H : Host}.

(** C8. For every coordinate pair, when the reverse-geocode call fails
    (transport error, non-ok response, body that does not parse) or its
    response has no [location] (or an empty one), [resolveLocation] returns
    exactly ["GPS: " + lat.toFixed(4) + ", " + lng.toFixed(4)]; the GPS path
    and the map-pick path both put that same string in the location field
    and in the detected-location message.  Below [10^21], [x.toFixed(4)]
    prints, after the sign of [x], the integer nearest to [|x| * 10^4] with
    a point before its last four digits. *)
Theorem resolveLocation_fallback (c : CropForm.Coords)
    (r : reply CropForm.GeocodeBody) :
  no_place_name r ->
  let fallback :=
    "GPS: " ++ toFixed (CropForm.lat c) 4 ++ ", " ++ toFixed (CropForm.lng c) 4 in
  CropForm.resolveLocation (CropForm.lat c) (CropForm.lng c) r = fallback
  /\ (forall cached s,
        Form.location (CropForm.form (CropForm.gps_resolved c r cached s))
          = fallback
        /\ CropForm.gpsMessage (CropForm.gps_resolved c r cached s) = fallback
        /\ Form.location (CropForm.form (CropForm.map_resolved c r cached s))
           = fallback
        /\ CropForm.gpsMessage (CropForm.map_resolved c r cached s) = fallback)
  /\ (forall x : Q,
        (Qabs x < inject_Z (10 ^ 21))%Q ->
        exists n : Z,
          (Qabs x * inject_Z (10 ^ 4) - (1 # 2) < inject_Z n)%Q
          /\ (inject_Z n <= Qabs x * inject_Z (10 ^ 4) + (1 # 2))%Q
          /\ toFixed x 4 =
               (if Qltb x 0 then "-" else "") ++ fixed_digits (Z.to_N n) 4).
Proof.
  intros Hr fallback.
  assert (Hres : CropForm.resolveLocation (CropForm.lat c) (CropForm.lng c) r
                 = fallback) by (destruct Hr; reflexivity).
  split; [exact Hres|]. split.
  - intros cached s.
    unfold CropForm.gps_resolved, CropForm.map_resolved,
      CropForm.saveLocationCache.
    rewrite Hres. destruct cached; repeat split; reflexivity.
  - intros x Hx. exists (nearest (Qabs x * inject_Z (10 ^ 4))).
    destruct (nearest_spec (Qabs x * inject_Z (10 ^ 4))) as [Hlo Hhi].
    split; [exact Hlo|]. split; [exact Hhi|].
    unfold toFixed.
    destruct (Qle_bool (inject_Z (10 ^ 21)) (Qabs x)) eqn:E; [|reflexivity].
    apply Qle_bool_iff in E. exfalso. exact (Qlt_not_le _ _ Hx E).
Qed.

(** ** Advisory workflow *)

(** C5. When the location field is empty or all white space, the preview
    action only sets the validation error: no request is sent and nothing
    is awaited, and the step, the snapshot, the busy flag and every form
    field stay as they were. *)
Theorem handlePreview_blank_location (s : CropForm.state) :
  blank (Form.location (CropForm.form s)) = true ->
  let s' := CropForm.dispatch CropForm.Submit s in
  s' = CropForm.set_error "Please enter a location." s
  /\ CropForm.error s' = "Please enter a location."
  /\ CropForm.trace s' = CropForm.trace s
  /\ CropForm.pending s' = CropForm.pending s
  /\ CropForm.form s' = CropForm.form s
  /\ CropForm.step s' = CropForm.step s
  /\ CropForm.previewData s' = CropForm.previewData s
  /\ CropForm.isLoading s' = CropForm.isLoading s
  /\ CropForm.render s' = CropForm.render s.
Proof.
  intros Hb s'. subst s'.
  apply trim_empty_iff_blank in Hb.
  unfold CropForm.dispatch, CropForm.handlePreview.
  cbn [CropForm.form CropForm.set_error]. rewrite Hb. cbn [String.eqb].
  repeat split.
Qed.

Lemma nth_error_snoc {A : Type} (l : list A) (x : A) :
  nth_error (l ++ [x])%list (length l) = Some x.
Proof.
  rewrite nth_error_app2 by lia. now rewrite Nat.sub_diag.
Qed.

(** The message thrown for a non-2xx body whose [detail] is a non-empty
    string is that string. *)
Lemma errorDetail_verbatim (fallback : string) (errData : value) (d : string) :
  get_opt errData "detail" = VStr d -> d <> "" ->
  CropForm.errorDetail fallback errData = d.
Proof.
  intros Hd Hne. unfold CropForm.errorDetail. rewrite Hd. cbn [truthy].
  apply String.eqb_neq in Hne. rewrite Hne. reflexivity.
Qed.

(** A failed confirm, whenever it settles: only the error and the busy
    flag change. *)
Lemma confirm_settled_failure (f : Form.t) (p : Payload.t) (snapshot : value)
    (r : reply value) (message : string) (s : CropForm.state) :
  confirm_failed r message ->
  CropForm.confirm_settled f p snapshot r s =
  CropForm.set_isLoading false
    (CropForm.set_error
       (or_str message "Unable to fetch recommendations. Please try again.")
       s).
Proof. intro Hf. destruct Hf; reflexivity. Qed.

(** C4. A confirm request issued on the confirm screen that fails (the
    transport fails, or the response is non-2xx) leaves the workflow on the
    confirm screen: the step, the preview snapshot and every form field are
    as before the request, no navigation happens, the busy flag is
    released, and the error shown is the failure's message (the server's
    [detail] verbatim when it is a non-empty string), or the generic
    message when that is empty; it is never empty.  The same holds for
    whichever pending confirm request settles with a failure, whatever
    happened in between. *)
Theorem confirm_failure_keeps_snapshot (s : CropForm.state) (r : reply value)
    (message : string) :
  CropForm.render s = CropForm.ConfirmView ->
  confirm_failed r message ->
  let s1 := CropForm.dispatch CropForm.ConfirmClick s in
  let s2 :=
    CropForm.dispatch
      (CropForm.Settle (length (CropForm.pending s)) (CropForm.Fetched r)) s1 in
  CropForm.trace s1 =
    CropForm.Sent (CropForm.PostAdvisory (Normalizer.buildPayload (CropForm.form s)))
    :: CropForm.trace s
  /\ CropForm.step s2 = CropForm.StepConfirm
  /\ CropForm.render s2 = CropForm.ConfirmView
  /\ CropForm.previewData s2 = CropForm.previewData s
  /\ CropForm.form s2 = CropForm.form s
  /\ CropForm.navigation s2 = CropForm.navigation s
  /\ CropForm.isLoading s2 = false
  /\ CropForm.error s2 =
       or_str message "Unable to fetch recommendations. Please try again."
  /\ CropForm.error s2 <> ""
  /\ (forall errData d, r = HttpError errData ->
        get_opt errData "detail" = VStr d -> d <> "" -> CropForm.error s2 = d)
  /\ (forall s' i f p snapshot,
        nth_error (CropForm.pending s') i
          = Some (CropForm.AwaitConfirm f p snapshot) ->
        let s'' := CropForm.dispatch (CropForm.Settle i (CropForm.Fetched r)) s' in
        CropForm.step s'' = CropForm.step s'
        /\ CropForm.previewData s'' = CropForm.previewData s'
        /\ CropForm.form s'' = CropForm.form s'
        /\ CropForm.navigation s'' = CropForm.navigation s'
        /\ CropForm.error s'' =
             or_str message "Unable to fetch recommendations. Please try again.").
Proof.
  intros Hview Hfail s1 s2.
  assert (Hstep : CropForm.step s = CropForm.StepConfirm
                  /\ truthy (CropForm.previewData s) = true).
  { unfold CropForm.render in Hview.
    destruct (CropForm.step s); [discriminate|].
    destruct (truthy (CropForm.previewData s)); [now split|discriminate]. }
  destruct Hstep as [Hstep Htruthy].
  assert (Hs1 : s1 =
    CropForm.await
      (CropForm.AwaitConfirm (CropForm.form s)
         (Normalizer.buildPayload (CropForm.form s)) (CropForm.previewData s))
      (CropForm.send
         (CropForm.PostAdvisory (Normalizer.buildPayload (CropForm.form s)))
         (CropForm.set_error "" (CropForm.set_isLoading true s)))).
  { subst s1. unfold CropForm.dispatch, CropForm.handleConfirm.
    now rewrite Htruthy. }
  assert (Hs2 : s2 =
    CropForm.confirm_settled (CropForm.form s)
      (Normalizer.buildPayload (CropForm.form s)) (CropForm.previewData s) r
      (CropForm.set_trace
         (CropForm.Settled
            (CropForm.AwaitConfirm (CropForm.form s)
               (Normalizer.buildPayload (CropForm.form s))
               (CropForm.previewData s))
            (CropForm.Fetched r) :: CropForm.trace s1)
         (CropForm.set_pending
            (CropForm.remove_nth (length (CropForm.pending s))
               (CropForm.pending s1)) s1))).
  { subst s2. unfold CropForm.dispatch, CropForm.settle.
    replace (nth_error (CropForm.pending s1) (length (CropForm.pending s)))
      with (Some (CropForm.AwaitConfirm (CropForm.form s)
                    (Normalizer.buildPayload (CropForm.form s))
                    (CropForm.previewData s))).
    - reflexivity.
    - rewrite Hs1. unfold CropForm.await.
      cbn [CropForm.pending CropForm.set_pending CropForm.send
           CropForm.set_trace CropForm.set_error CropForm.set_isLoading].
      now rewrite nth_error_snoc. }
  rewrite (confirm_settled_failure _ _ _ _ _ _ Hfail) in Hs2.
  assert (Herr : CropForm.error s2 =
            or_str message "Unable to fetch recommendations. Please try again.")
    by (rewrite Hs2; reflexivity).
  split; [rewrite Hs1; reflexivity|].
  split; [rewrite Hs2, Hs1; exact Hstep|].
  split.
  { unfold CropForm.render. rewrite Hs2, Hs1.
    cbn [CropForm.step CropForm.previewData CropForm.set_isLoading
         CropForm.set_error CropForm.set_trace CropForm.set_pending
         CropForm.await CropForm.send].
    now rewrite Hstep, Htruthy. }
  split; [rewrite Hs2, Hs1; reflexivity|].
  split; [rewrite Hs2, Hs1; reflexivity|].
  split; [rewrite Hs2, Hs1; reflexivity|].
  split; [rewrite Hs2; reflexivity|].
  split; [exact Herr|].
  split; [rewrite Herr; apply or_str_nonempty; discriminate|].
  split.
  { intros errData d -> Hd Hne. rewrite Herr.
    inversion Hfail; subst.
    rewrite (errorDetail_verbatim _ _ _ Hd Hne).
    now apply or_str_verbatim. }
  intros s' i f p snapshot Hp s''. subst s''.
  unfold CropForm.dispatch, CropForm.settle. rewrite Hp.
  cbn [CropForm.resume].
  rewrite (confirm_settled_failure _ _ _ _ _ _ Hfail).
  repeat split.
Qed.

(** What one event adds to the trace and does to the snapshot: a confirm
    request is added only while a snapshot is held, and the snapshot is
    kept, dropped, or replaced by the body of a preview that has just
    completed successfully. *)
Lemma dispatch_summary (e : CropForm.Event) (s : CropForm.state) :
  exists extra,
    CropForm.trace (CropForm.dispatch e s) = (extra ++ CropForm.trace s)%list
    /\ (forallb (fun x => negb (is_confirm_request x)) extra = true
        \/ (exists body,
              extra = [CropForm.Sent (CropForm.PostAdvisory body)]
              /\ truthy (CropForm.previewData s) = true))
    /\ (CropForm.previewData (CropForm.dispatch e s) = CropForm.previewData s
        \/ CropForm.previewData (CropForm.dispatch e s) = VNull
        \/ exists d, In (CropForm.previewLoaded d) extra).
Proof.
  destruct e as [n v|supported| | | |transcript|supported|c| | | |i o];
    cbn [CropForm.dispatch].
  - exists []. repeat split; auto.
  - exists []. destruct supported; repeat split; auto.
  - exists []. repeat split; auto.
  - exists []. repeat split; auto.
  - exists []. repeat split; auto.
  - exists []. repeat split; auto.
  - exists []. destruct supported; repeat split; auto.
  - exists [CropForm.Sent (CropForm.GetReverseGeocode c)].
    repeat split; auto.
  - unfold CropForm.handlePreview.
    destruct (trim (Form.location (CropForm.form (CropForm.set_error "" s)))
              =? "").
    + exists []. repeat split; auto.
    + eexists [CropForm.Sent (CropForm.PostPreview _)]. repeat split; auto.
  - unfold CropForm.handleConfirm.
    destruct (truthy (CropForm.previewData s)) eqn:Ht; cbn [negb].
    + eexists [CropForm.Sent (CropForm.PostAdvisory _)].
      split; [reflexivity|]. split; [right; eexists; split; reflexivity|].
      left; reflexivity.
    + exists []. repeat split; auto.
  - exists []. split; [reflexivity|]. split; [left; reflexivity|].
    right; left; reflexivity.
  - unfold CropForm.settle.
    destruct (nth_error (CropForm.pending s) i) as [p|];
      [|exists []; repeat split; auto].
    destruct p as [|c|c| |f p snapshot], o as [c'| |r cached|r];
      cbn [CropForm.resume];
      try (exists []; repeat split; auto; fail).
    + exists [CropForm.Sent (CropForm.GetReverseGeocode c');
              CropForm.Settled CropForm.AwaitFix (CropForm.Fix c')].
      repeat split; auto.
    + exists [CropForm.Settled CropForm.AwaitFix CropForm.FixFailed].
      repeat split; auto.
    + exists [CropForm.Settled (CropForm.AwaitGeocodeGps c)
                (CropForm.Geocoded r cached)].
      unfold CropForm.gps_resolved, CropForm.saveLocationCache.
      destruct cached; repeat split; auto.
    + exists [CropForm.Settled (CropForm.AwaitGeocodeMap c)
                (CropForm.Geocoded r cached)].
      unfold CropForm.map_resolved, CropForm.saveLocationCache.
      destruct cached; repeat split; auto.
    + exists [CropForm.Settled CropForm.AwaitPreview (CropForm.Fetched r)].
      destruct r as [m|errData|m|d];
        (split; [reflexivity|]; split; [left; reflexivity|]).
      * left; reflexivity.
      * left; reflexivity.
      * left; reflexivity.
      * right; right. exists d. left; reflexivity.
    + exists [CropForm.Settled (CropForm.AwaitConfirm f p snapshot)
                (CropForm.Fetched r)].
      destruct r as [m|errData|m|advisory];
        [| | |unfold CropForm.confirm_settled; destruct (nullish advisory)];
        repeat split; auto.
Qed.

Lemma confirm_after_preview_app (extra tr : list CropForm.TraceItem) :
  forallb (fun x => negb (is_confirm_request x)) extra = true ->
  confirm_after_preview tr -> confirm_after_preview (extra ++ tr)%list.
Proof.
  induction extra as [|x extra IH]; intros Hno Htr; [exact Htr|].
  cbn [forallb] in Hno. apply andb_true_iff in Hno as [Hx Hno].
  intros newer older body Heq. destruct newer as [|y newer].
  - cbn [app] in Heq. injection Heq as -> _. discriminate Hx.
  - cbn [app] in Heq. injection Heq as _ Heq.
    exact (IH Hno Htr newer older body Heq).
Qed.

Lemma snapshot_backed_initial (cachedLoc : option CropForm.CachedLocation) :
  snapshot_backed (CropForm.initial cachedLoc).
Proof.
  split; [discriminate|]. intros newer older body Heq.
  cbn [CropForm.initial CropForm.trace] in Heq.
  destruct newer; discriminate Heq.
Qed.

Lemma snapshot_backed_dispatch (e : CropForm.Event) (s : CropForm.state) :
  snapshot_backed s -> snapshot_backed (CropForm.dispatch e s).
Proof.
  intros [Hheld Hordered].
  destruct (dispatch_summary e s) as (extra & Htr & Hreq & Hpd).
  split.
  - intro Ht. rewrite Htr.
    destruct Hpd as [Hsame|[Hnull|[d Hin]]].
    + rewrite Hsame in Ht. destruct (Hheld Ht) as [d Hin].
      exists d. apply in_or_app. now right.
    + rewrite Hnull in Ht. discriminate Ht.
    + exists d. apply in_or_app. now left.
  - rewrite Htr. destruct Hreq as [Hno|(body & -> & Ht)].
    + now apply confirm_after_preview_app.
    + intros newer older body' Heq. destruct newer as [|y newer].
      * cbn [app] in Heq. injection Heq as _ <-. exact (Hheld Ht).
      * cbn [app] in Heq. injection Heq as _ Heq.
        exact (Hordered newer older body' Heq).
Qed.

Lemma snapshot_backed_run (events : list CropForm.Event) (s : CropForm.state) :
  snapshot_backed s -> snapshot_backed (CropForm.run events s).
Proof.
  revert s. induction events as [|e events IH]; intros s Hs; [exact Hs|].
  apply (IH (CropForm.dispatch e s)). now apply snapshot_backed_dispatch.
Qed.

(** C3. In every state the workflow reaches from its mount, whatever the
    order of the events, each confirm request in the trace comes after a
    preview that completed successfully, and the confirm screen is shown
    only after one.  The confirm action changes nothing (and sends
    nothing) while no snapshot is held, and the only event that takes the
    step from the form to confirm is a pending preview request settling
    with a 2xx response. *)
Theorem confirm_only_after_preview
    (cachedLoc : option CropForm.CachedLocation)
    (events : list CropForm.Event) :
  let s := CropForm.run events (CropForm.initial cachedLoc) in
  (forall newer older body,
     CropForm.trace s =
       (newer ++ CropForm.Sent (CropForm.PostAdvisory body) :: older)%list ->
     exists d, In (CropForm.previewLoaded d) older)
  /\ (CropForm.render s = CropForm.ConfirmView ->
      exists d, In (CropForm.previewLoaded d) (CropForm.trace s))
  /\ (forall s0, truthy (CropForm.previewData s0) = false ->
        CropForm.dispatch CropForm.ConfirmClick s0 = s0)
  /\ (forall e s0,
        CropForm.step s0 = CropForm.StepForm ->
        CropForm.step (CropForm.dispatch e s0) = CropForm.StepConfirm ->
        exists i d,
          e = CropForm.Settle i (CropForm.Fetched (HttpOk d))
          /\ nth_error (CropForm.pending s0) i = Some CropForm.AwaitPreview).
Proof.
  intro s.
  destruct (snapshot_backed_run events _ (snapshot_backed_initial cachedLoc))
    as [Hheld Hordered].
  fold s in Hheld, Hordered.
  split; [exact Hordered|]. split; [|split].
  - unfold CropForm.render. destruct (CropForm.step s); [discriminate|].
    destruct (truthy (CropForm.previewData s)); [intros _|discriminate].
    now apply Hheld.
  - intros s0 Hnone. unfold CropForm.dispatch, CropForm.handleConfirm.
    now rewrite Hnone.
  - intros e s0 Hform Hconfirm.
    destruct e as [n v|supported| | | |transcript|supported|c| | | |i o];
      cbn [CropForm.dispatch] in Hconfirm;
      try (cbn in Hconfirm; congruence).
    + destruct supported; cbn in Hconfirm; congruence.
    + destruct supported; cbn in Hconfirm; congruence.
    + unfold CropForm.handlePreview in Hconfirm.
      destruct (trim (Form.location (CropForm.form (CropForm.set_error "" s0)))
                =? ""); cbn in Hconfirm; congruence.
    + unfold CropForm.handleConfirm in Hconfirm.
      destruct (truthy (CropForm.previewData s0)); cbn in Hconfirm; congruence.
    + unfold CropForm.settle in Hconfirm.
      destruct (nth_error (CropForm.pending s0) i) as [p|] eqn:Hp;
        [|congruence].
      destruct p as [|c|c| |f p snapshot], o as [c'| |r cached|r];
        cbn [CropForm.resume] in Hconfirm; try congruence;
        try (cbn in Hconfirm; congruence).
      * unfold CropForm.gps_resolved, CropForm.saveLocationCache in Hconfirm.
        destruct cached; cbn in Hconfirm; congruence.
      * unfold CropForm.map_resolved, CropForm.saveLocationCache in Hconfirm.
        destruct cached; cbn in Hconfirm; congruence.
      * destruct r as [m|errData|m|d]; try (cbn in Hconfirm; congruence).
        exists i, d. now split.
      * destruct r as [m|errData|m|advisory];
          try (cbn in Hconfirm; congruence).
        unfold CropForm.confirm_settled in Hconfirm.
        destruct (nullish advisory); cbn in Hconfirm; congruence.
Qed.

End CropFormSpec.

Example trim_samples :
  trim "  Pune " = "Pune" /\ trim "   " = "" /\ trim "" = ""
  /\ trim "New  Delhi" = "New  Delhi".
Proof. repeat split. Qed.

Example toFixed_samples :
  @toFixed SampleHost.host (1852043 # 100000) 4 = "18.5204"
  /\ @toFixed SampleHost.host (-7385675 # 100000) 4 = "-73.8568"
  /\ @toFixed SampleHost.host (5 # 100000) 4 = "0.0001"
  /\ @toFixed SampleHost.host (-1 # 100000) 4 = "-0.0000"
  /\ @toFixed SampleHost.host 0 4 = "0.0000".
Proof. repeat split. Qed.

(** A list-shaped error detail is joined into one string. *)
Example errorDetail_joined :
  @CropForm.errorDetail SampleHost.host "Preview failed."
    (VObj [("detail",
            VArr [VObj [("msg", VStr "field required")];
                  VObj [("msg", VStr "value is not a valid float")]])])
  = "field required; value is not a valid float"
  /\ @CropForm.errorDetail SampleHost.host "Preview failed." VNull
     = "Preview failed.".
Proof. split; reflexivity. Qed.

Example gps_fallback_pune :
  @CropForm.resolveLocation SampleHost.host (CropForm.lat Samples.pune)
    (CropForm.lng Samples.pune) (HttpError VNull)
  = "GPS: 18.5204, 73.8567".
Proof. reflexivity. Qed.

Lemma resolveLocation_fallback_witness :
  Form.location
    (CropForm.form
       (@CropForm.map_resolved SampleHost.host Samples.pune
          (HttpOk {| CropForm.location := None |}) true
          (CropForm.initial None)))
  = "GPS: 18.5204, 73.8567"
  /\ Form.location
       (CropForm.form
          (@CropForm.gps_resolved SampleHost.host Samples.pune
             (NetworkError "Failed to fetch") true (CropForm.initial None)))
     = "GPS: 18.5204, 73.8567".
Proof.
  split.
  - destruct (@resolveLocation_fallback SampleHost.host Samples.pune _
                location_missing) as (_ & Hpaths & _).
    destruct (Hpaths true (CropForm.initial None)) as (_ & _ & Hmap & _).
    rewrite Hmap. reflexivity.
  - destruct (@resolveLocation_fallback SampleHost.host Samples.pune _
                (transport_error "Failed to fetch")) as (_ & Hpaths & _).
    destruct (Hpaths true (CropForm.initial None)) as (Hgps & _).
    rewrite Hgps. reflexivity.
Defined.

Lemma handlePreview_blank_location_witness :
  CropForm.error
    (@CropForm.dispatch SampleHost.host CropForm.Submit
       Samples.blank_location_form)
  = "Please enter a location."
  /\ CropForm.trace
       (@CropForm.dispatch SampleHost.host CropForm.Submit
          Samples.blank_location_form)
     = [].
Proof.
  destruct (@handlePreview_blank_location SampleHost.host
              Samples.blank_location_form eq_refl)
    as (_ & He & Ht & _).
  rewrite He, Ht. split; reflexivity.
Defined.

Lemma confirm_failure_keeps_snapshot_witness :
  let s2 :=
    @CropForm.run SampleHost.host
      [CropForm.ConfirmClick;
       CropForm.Settle 0
         (CropForm.Fetched
            (HttpError (VObj [("detail", VStr "Soil service unavailable")])))]
      Samples.on_confirm_screen in
  CropForm.render s2 = CropForm.ConfirmView
  /\ CropForm.previewData s2 = Samples.snapshot
  /\ Form.location (CropForm.form s2) = "Pune"
  /\ CropForm.error s2 = "Soil service unavailable".
Proof.
  destruct (@confirm_failure_keeps_snapshot SampleHost.host
              Samples.on_confirm_screen _ _ eq_refl
              (confirm_http_error
                 (VObj [("detail", VStr "Soil service unavailable")])))
    as (_ & _ & Hview & Hsnap & Hform & _ & _ & Herr & _).
  cbn zeta. split; [exact Hview|]. split; [exact Hsnap|].
  split; [exact (f_equal Form.location Hform) | exact Herr].
Defined.

(** Preview, then confirm: the confirm request follows the loaded preview. *)
Lemma confirm_only_after_preview_witness :
  let s := @CropForm.run SampleHost.host Samples.preview_then_confirm
             (CropForm.initial None) in
  (exists body older,
     CropForm.trace s = CropForm.Sent (CropForm.PostAdvisory body) :: older
     /\ exists d, In (CropForm.previewLoaded d) older)
  /\ @CropForm.dispatch SampleHost.host CropForm.ConfirmClick
       (CropForm.initial None) = CropForm.initial None.
Proof.
  destruct (@confirm_only_after_preview SampleHost.host None
              Samples.preview_then_confirm) as (Hordered & _ & Hnoop & _).
  split.
  - eexists. eexists. split; [vm_compute; reflexivity|].
    eapply (Hordered []). vm_compute. reflexivity.
  - apply Hnoop. reflexivity.
Defined.

(** ** Further properties of the advisory workflow *)

Import Derived.

Lemma trimEnd_idempotent (s : string) : trimEnd (trimEnd s) = trimEnd s.
Proof.
  induction s as [|a s IH]; [reflexivity|]. cbn [trimEnd].
  destruct (is_ws a && (trimEnd s =? "")) eqn:E; [reflexivity|].
  cbn [trimEnd]. rewrite IH, E. reflexivity.
Qed.

(** What [trimStart] returns is empty or starts with a character that is
    not white space. *)
Lemma trimStart_head (s : string) :
  trimStart s = "" \/
  exists a rest, trimStart s = String a rest /\ is_ws a = false.
Proof.
  induction s as [|a s IH]; [now left|]. cbn [trimStart].
  destruct (is_ws a) eqn:Ha; [exact IH|]. right. now exists a, s.
Qed.

(** [trim] is idempotent. *)
Lemma trim_idempotent (s : string) : trim (trim s) = trim s.
Proof.
  unfold trim. destruct (trimStart_head s) as [->|(a & rest & -> & Ha)].
  - reflexivity.
  - cbn [trimEnd]. rewrite Ha. cbn [andb trimStart]. rewrite Ha.
    cbn [trimEnd]. rewrite trimEnd_idempotent, Ha. reflexivity.
Qed.

Section CropFormMore.
Context {H : Host}.

(** X1. [handleChange] writes exactly the named field: the field reads
    back as the new value, every other field reads as before, a name that
    is not a field of the form changes no field, and the step, the
    snapshot, the trace, the pending operations and the error are left
    alone while the detected-location message is cleared. *)
Theorem handleChange_updates_one_field (n v : string) (s : CropForm.state) :
  let s' := CropForm.dispatch (CropForm.Change n v) s in
  (In n FormAccess.names -> FormAccess.get n (CropForm.form s') = Some v)
  /\ (forall other, other <> n ->
        FormAccess.get other (CropForm.form s')
        = FormAccess.get other (CropForm.form s))
  /\ (~ In n FormAccess.names -> CropForm.form s' = CropForm.form s)
  /\ CropForm.step s' = CropForm.step s
  /\ CropForm.previewData s' = CropForm.previewData s
  /\ CropForm.trace s' = CropForm.trace s
  /\ CropForm.pending s' = CropForm.pending s
  /\ CropForm.error s' = CropForm.error s
  /\ CropForm.gpsMessage s' = "".
Proof.
  cbn zeta. cbn [CropForm.dispatch]. unfold CropForm.handleChange.
  cbn [CropForm.form CropForm.step CropForm.previewData CropForm.trace
       CropForm.pending CropForm.error CropForm.gpsMessage
       CropForm.set_gpsMessage CropForm.set_form].
  split; [|split; [|split]].
  - intro Hin. cbn [FormAccess.names In] in Hin.
    repeat (destruct Hin as [<-|Hin]; [reflexivity|]). destruct Hin.
  - intros other Hne. unfold FormAccess.get, Form.set.
    cbn [Form.location Form.previous_crop Form.land_size
         Form.irrigation_type Form.goal Form.temperature Form.humidity
         Form.rainfall Form.N Form.P Form.K Form.ph].
    repeat match goal with
    | |- context [other =? ?k] =>
        destruct (String.eqb_spec other k) as [->|_];
          [rewrite (proj2 (String.eqb_neq _ _) Hne); reflexivity|]
    end.
    reflexivity.
  - intro Hout.
    assert (Hk : forall k, In k FormAccess.names -> (k =? n) = false).
    { intros k Hin. apply String.eqb_neq. intros ->. exact (Hout Hin). }
    destruct (CropForm.form s). unfold Form.set.
    cbn [Form.location Form.previous_crop Form.land_size
         Form.irrigation_type Form.goal Form.temperature Form.humidity
         Form.rainfall Form.N Form.P Form.K Form.ph].
    rewrite !Hk by (cbn; auto 20). reflexivity.
  - repeat split.
Qed.

(** X2. A preview request that does not end with a parsed 2xx body,
    whenever it settles, leaves the step, the snapshot and the form as
    they are, releases the busy flag, sends nothing, and shows a non-empty
    error: the transport's message, the server's [detail] verbatim when it
    is a non-empty string, else a generic message. *)
Theorem preview_failure_stays_on_form (s : CropForm.state) (i : nat)
    (r : reply value) :
  nth_error (CropForm.pending s) i = Some CropForm.AwaitPreview ->
  fetch_failed r = true ->
  let s' := CropForm.dispatch (CropForm.Settle i (CropForm.Fetched r)) s in
  CropForm.step s' = CropForm.step s
  /\ CropForm.previewData s' = CropForm.previewData s
  /\ CropForm.form s' = CropForm.form s
  /\ CropForm.navigation s' = CropForm.navigation s
  /\ CropForm.isLoading s' = false
  /\ CropForm.error s' <> ""
  /\ sent_count (CropForm.trace s') = sent_count (CropForm.trace s)
  /\ (forall message, r = NetworkError message -> message <> "" ->
        CropForm.error s' = message)
  /\ (forall errData d, r = HttpError errData ->
        get_opt errData "detail" = VStr d -> d <> "" ->
        CropForm.error s' = d)
  /\ (r = HttpError VNull -> CropForm.error s' = "Preview failed.").
Proof.
  intros Hp Hr s'. subst s'.
  unfold CropForm.dispatch, CropForm.settle. rewrite Hp.
  cbn [CropForm.resume]. unfold CropForm.preview_settled.
  destruct r as [m|errData|m|d]; [| | |discriminate Hr];
    cbn [CropForm.step CropForm.previewData CropForm.form CropForm.navigation
         CropForm.isLoading CropForm.error CropForm.trace
         CropForm.set_isLoading CropForm.set_error CropForm.set_trace
         CropForm.set_pending];
    (do 5 (split; [reflexivity|]));
    (split; [apply or_str_nonempty; discriminate|]);
    (split; [reflexivity|]);
    (split; [|split]); try discriminate.
  - intros message [= ->] Hne. now apply or_str_verbatim.
  - intros errData' d [= ->] Hd Hne.
    rewrite (errorDetail_verbatim _ _ _ Hd Hne). now apply or_str_verbatim.
  - intros [= ->]. reflexivity.
Qed.

(** X3. On a form whose location is not blank the preview action sends
    one request, whose body is the normalized form with a non-empty,
    trimmed location, and raises the busy flag; when that request settles
    with a parsed 2xx body the body becomes the snapshot, the step becomes
    confirm, the form is as it was and the busy flag is released.  The
    confirm screen is rendered exactly when that body is truthy. *)
Theorem preview_success_enters_confirm (s : CropForm.state) (d : value) :
  blank (Form.location (CropForm.form s)) = false ->
  let s1 := CropForm.dispatch CropForm.Submit s in
  let s2 :=
    CropForm.dispatch
      (CropForm.Settle (length (CropForm.pending s))
         (CropForm.Fetched (HttpOk d))) s1 in
  CropForm.trace s1 =
    CropForm.Sent (CropForm.PostPreview (Normalizer.buildPayload (CropForm.form s)))
    :: CropForm.trace s
  /\ Payload.location (Normalizer.buildPayload (CropForm.form s)) <> ""
  /\ CropForm.isLoading s1 = true
  /\ CropForm.error s1 = ""
  /\ CropForm.step s2 = CropForm.StepConfirm
  /\ CropForm.previewData s2 = d
  /\ CropForm.form s2 = CropForm.form s
  /\ CropForm.isLoading s2 = false
  /\ CropForm.error s2 = ""
  /\ (CropForm.render s2 = CropForm.ConfirmView <-> truthy d = true).
Proof.
  intros Hb s1 s2.
  assert (Hne : trim (Form.location (CropForm.form s)) <> "").
  { intro Ht. apply trim_empty_iff_blank in Ht. congruence. }
  assert (Hs1 : s1 =
    CropForm.await CropForm.AwaitPreview
      (CropForm.send
         (CropForm.PostPreview (Normalizer.buildPayload (CropForm.form s)))
         (CropForm.set_isLoading true (CropForm.set_error "" s)))).
  { subst s1. unfold CropForm.dispatch, CropForm.handlePreview.
    cbn [CropForm.form CropForm.set_error].
    apply String.eqb_neq in Hne. now rewrite Hne. }
  assert (Hs2 : s2 =
    CropForm.preview_settled (HttpOk d)
      (CropForm.set_trace
         (CropForm.Settled CropForm.AwaitPreview (CropForm.Fetched (HttpOk d))
          :: CropForm.trace s1)
         (CropForm.set_pending
            (CropForm.remove_nth (length (CropForm.pending s))
               (CropForm.pending s1)) s1))).
  { subst s2. unfold CropForm.dispatch, CropForm.settle.
    replace (nth_error (CropForm.pending s1) (length (CropForm.pending s)))
      with (Some CropForm.AwaitPreview); [reflexivity|].
    rewrite Hs1. unfold CropForm.await.
    cbn [CropForm.pending CropForm.set_pending CropForm.send
         CropForm.set_trace CropForm.set_error CropForm.set_isLoading].
    now rewrite nth_error_snoc. }
  split; [rewrite Hs1; reflexivity|].
  split; [exact Hne|].
  split; [rewrite Hs1; reflexivity|].
  split; [rewrite Hs1; reflexivity|].
  split; [rewrite Hs2; reflexivity|].
  split; [rewrite Hs2; reflexivity|].
  split; [rewrite Hs2, Hs1; reflexivity|].
  split; [rewrite Hs2; reflexivity|].
  split; [rewrite Hs2, Hs1; reflexivity|].
  unfold CropForm.render. rewrite Hs2.
  cbn [CropForm.step CropForm.previewData CropForm.preview_settled
       CropForm.set_isLoading CropForm.set_step CropForm.set_previewData].
  destruct (truthy d); split; congruence.
Qed.

(** X4. The back action discards the snapshot and the error and shows the
    form with every field as it was; nothing is sent, and a confirm action
    after it does nothing. *)
Theorem back_discards_snapshot (s : CropForm.state) :
  let s' := CropForm.dispatch CropForm.Back s in
  CropForm.render s' = CropForm.FormView
  /\ CropForm.step s' = CropForm.StepForm
  /\ CropForm.previewData s' = VNull
  /\ CropForm.error s' = ""
  /\ CropForm.form s' = CropForm.form s
  /\ CropForm.trace s' = CropForm.trace s
  /\ CropForm.pending s' = CropForm.pending s
  /\ CropForm.dispatch CropForm.ConfirmClick s' = s'.
Proof. repeat split. Qed.

Lemma sent_count_app (xs ys : list CropForm.TraceItem) :
  sent_count (xs ++ ys)%list = sent_count xs + sent_count ys.
Proof. unfold sent_count. now rewrite filter_app, length_app. Qed.

(** What one event adds to the trace: at most one request, none when the
    event is an answer, and a preview request only with the normalized
    current form as body and a location that is not blank. *)
Lemma dispatch_extends (e : CropForm.Event) (s : CropForm.state) :
  exists extra,
    CropForm.trace (CropForm.dispatch e s) = (extra ++ CropForm.trace s)%list
    /\ sent_count extra <= 1
    /\ (is_answer e = true -> sent_count extra = 0)
    /\ (forall body,
          In (CropForm.Sent (CropForm.PostPreview body)) extra ->
          body = Normalizer.buildPayload (CropForm.form s)
          /\ trim (Form.location (CropForm.form s)) <> "").
Proof.
  assert (Hnil : forall tr : list CropForm.TraceItem,
            tr = ([] ++ tr)%list /\ sent_count [] <= 1
            /\ (is_answer e = true -> sent_count [] = 0)
            /\ (forall body,
                  In (CropForm.Sent (CropForm.PostPreview body)) [] ->
                  body = Normalizer.buildPayload (CropForm.form s)
                  /\ trim (Form.location (CropForm.form s)) <> "")).
  { intro tr. cbn. repeat split; auto; contradiction. }
  destruct e as [n v|supported| | | |transcript|supported|c| | | |i o];
    cbn [CropForm.dispatch].
  - exists []. apply Hnil.
  - exists []. destruct supported; apply Hnil.
  - exists []. apply Hnil.
  - exists []. apply Hnil.
  - exists []. apply Hnil.
  - exists []. apply Hnil.
  - exists []. destruct supported; apply Hnil.
  - exists [CropForm.Sent (CropForm.GetReverseGeocode c)].
    split; [reflexivity|]. split; [cbn; lia|]. split; [discriminate|].
    intros body [Hin|[]]. discriminate Hin.
  - unfold CropForm.handlePreview. cbn [CropForm.form CropForm.set_error].
    destruct (String.eqb_spec (trim (Form.location (CropForm.form s))) "")
      as [Hblank|Hfull].
    + exists []. apply Hnil.
    + exists [CropForm.Sent
                (CropForm.PostPreview
                   (Normalizer.buildPayload (CropForm.form s)))].
      split; [reflexivity|]. split; [cbn; lia|]. split; [discriminate|].
      intros body [Hin|[]]. injection Hin as <-. now split.
  - unfold CropForm.handleConfirm.
    destruct (truthy (CropForm.previewData s)); cbn [negb].
    + exists [CropForm.Sent
                (CropForm.PostAdvisory
                   (Normalizer.buildPayload (CropForm.form s)))].
      split; [reflexivity|]. split; [cbn; lia|]. split; [discriminate|].
      intros body [Hin|[]]. discriminate Hin.
    + exists []. apply Hnil.
  - exists []. apply Hnil.
  - unfold CropForm.settle.
    destruct (nth_error (CropForm.pending s) i) as [p|];
      [|exists []; apply Hnil].
    destruct p as [|c|c| |f p snapshot], o as [c'| |r cached|r];
      cbn [CropForm.resume]; try (exists []; apply Hnil).
    + exists [CropForm.Sent (CropForm.GetReverseGeocode c');
              CropForm.Settled CropForm.AwaitFix (CropForm.Fix c')].
      split; [reflexivity|]. split; [cbn; lia|]. split; [discriminate|].
      intros body [Hin|[Hin|[]]]; discriminate Hin.
    + exists [CropForm.Settled CropForm.AwaitFix CropForm.FixFailed].
      split; [reflexivity|]. split; [cbn; lia|]. split; [reflexivity|].
      intros body [Hin|[]]. discriminate Hin.
    + exists [CropForm.Settled (CropForm.AwaitGeocodeGps c)
                (CropForm.Geocoded r cached)].
      unfold CropForm.gps_resolved, CropForm.saveLocationCache.
      split; [destruct cached; reflexivity|]. split; [cbn; lia|].
      split; [reflexivity|]. intros body [Hin|[]]. discriminate Hin.
    + exists [CropForm.Settled (CropForm.AwaitGeocodeMap c)
                (CropForm.Geocoded r cached)].
      unfold CropForm.map_resolved, CropForm.saveLocationCache.
      split; [destruct cached; reflexivity|]. split; [cbn; lia|].
      split; [reflexivity|]. intros body [Hin|[]]. discriminate Hin.
    + exists [CropForm.Settled CropForm.AwaitPreview (CropForm.Fetched r)].
      split; [destruct r; reflexivity|]. split; [cbn; lia|].
      split; [reflexivity|]. intros body [Hin|[]]. discriminate Hin.
    + exists [CropForm.Settled (CropForm.AwaitConfirm f p snapshot)
                (CropForm.Fetched r)].
      split.
      { destruct r as [m|errData|m|advisory]; try reflexivity.
        unfold CropForm.confirm_settled. destruct (nullish advisory);
          reflexivity. }
      split; [cbn; lia|]. split; [reflexivity|].
      intros body [Hin|[]]. discriminate Hin.
Qed.

(** X5. No event makes the component send more than one request, an
    answer (a settled request, a failed position fix) makes it send none,
    so a failure is never retried, and the requests sent over a run never
    outnumber its events. *)
Theorem no_automatic_retries (events : list CropForm.Event)
    (s : CropForm.state) :
  (forall e s0,
     sent_count (CropForm.trace s0)
       <= sent_count (CropForm.trace (CropForm.dispatch e s0))
     /\ sent_count (CropForm.trace (CropForm.dispatch e s0))
          <= S (sent_count (CropForm.trace s0))
     /\ (is_answer e = true ->
         sent_count (CropForm.trace (CropForm.dispatch e s0))
           = sent_count (CropForm.trace s0)))
  /\ sent_count (CropForm.trace (CropForm.run events s))
       <= sent_count (CropForm.trace s)
          + length (filter (fun e => negb (is_answer e)) events).
Proof.
  assert (Hstep : forall e s0,
     sent_count (CropForm.trace s0)
       <= sent_count (CropForm.trace (CropForm.dispatch e s0))
     /\ sent_count (CropForm.trace (CropForm.dispatch e s0))
          <= S (sent_count (CropForm.trace s0))
     /\ (is_answer e = true ->
         sent_count (CropForm.trace (CropForm.dispatch e s0))
           = sent_count (CropForm.trace s0))).
  { intros e s0. destruct (dispatch_extends e s0) as (extra & -> & H1 & H0 & _).
    rewrite sent_count_app. split; [lia|]. split; [lia|].
    intro Ha. rewrite (H0 Ha). reflexivity. }
  split; [exact Hstep|].
  revert s. induction events as [|e events IH]; intro s; [cbn; lia|].
  change (CropForm.run (e :: events) s)
    with (CropForm.run events (CropForm.dispatch e s)).
  specialize (IH (CropForm.dispatch e s)).
  destruct (Hstep e s) as (_ & Hle & Heq). cbn [filter].
  destruct (is_answer e); cbn [negb length].
  - rewrite (Heq eq_refl) in IH. exact IH.
  - lia.
Qed.

(** X6. Over every run from mount, each preview request in the trace
    carries a location that is not empty and is already trimmed. *)
Theorem preview_requests_carry_location
    (cachedLoc : option CropForm.CachedLocation)
    (events : list CropForm.Event) (body : Payload.t) :
  In (CropForm.Sent (CropForm.PostPreview body))
     (CropForm.trace (CropForm.run events (CropForm.initial cachedLoc))) ->
  Payload.location body <> ""
  /\ trim (Payload.location body) = Payload.location body.
Proof.
  assert (Hrun : forall evs s,
            Forall located (CropForm.trace s) ->
            Forall located (CropForm.trace (CropForm.run evs s))).
  { induction evs as [|e evs IH]; intros s Hs; [exact Hs|].
    change (CropForm.run (e :: evs) s)
      with (CropForm.run evs (CropForm.dispatch e s)).
    apply IH. destruct (dispatch_extends e s) as (extra & -> & _ & _ & Hbody).
    apply Forall_app. split; [|exact Hs].
    apply Forall_forall. intros x Hx.
    destruct x as [[c|b|b]|p o]; cbn [located]; auto.
    destruct (Hbody b Hx) as [-> Hne]. split; [exact Hne|].
    apply trim_idempotent. }
  intro Hin.
  assert (Hall : Forall located
            (CropForm.trace (CropForm.run events (CropForm.initial cachedLoc))))
    by (apply Hrun; constructor).
  rewrite Forall_forall in Hall. exact (Hall _ Hin).
Qed.

(** X7. A confirm request issued on the confirm screen that settles with
    a 2xx body other than [null] navigates to the results with the
    snapshot held at the click as input summary and a result assembled
    from the response and from the form as it was at the click: its inputs
    are the normalized form, its land size is that of the payload, and its
    list of top crops is never falsy.  Snapshot, step and form stay, the
    error stays cleared and the busy flag is released. *)
Theorem confirm_success_hands_over (s : CropForm.state) (advisory : value) :
  CropForm.render s = CropForm.ConfirmView ->
  nullish advisory = false ->
  let s1 := CropForm.dispatch CropForm.ConfirmClick s in
  let s2 :=
    CropForm.dispatch
      (CropForm.Settle (length (CropForm.pending s))
         (CropForm.Fetched (HttpOk advisory))) s1 in
  let p := Normalizer.buildPayload (CropForm.form s) in
  CropForm.navigation s2 =
    Some {| CropForm.data := CropForm.resultPayload (CropForm.form s) p advisory;
            CropForm.inputSummary := CropForm.previewData s |}
  /\ CropForm.payload
       (CropForm.inputs (CropForm.resultPayload (CropForm.form s) p advisory))
     = p
  /\ CropForm.land_size (CropForm.resultPayload (CropForm.form s) p advisory)
     = Payload.land_size p
  /\ truthy
       (CropForm.topCrops (CropForm.resultPayload (CropForm.form s) p advisory))
     = true
  /\ CropForm.previewData s2 = CropForm.previewData s
  /\ CropForm.step s2 = CropForm.StepConfirm
  /\ CropForm.form s2 = CropForm.form s
  /\ CropForm.error s2 = ""
  /\ CropForm.isLoading s2 = false.
Proof.
  intros Hview Hadv s1 s2 p.
  assert (Hstep : CropForm.step s = CropForm.StepConfirm
                  /\ truthy (CropForm.previewData s) = true).
  { unfold CropForm.render in Hview.
    destruct (CropForm.step s); [discriminate|].
    destruct (truthy (CropForm.previewData s)); [now split|discriminate]. }
  destruct Hstep as [Hstep Htruthy].
  assert (Hs1 : s1 =
    CropForm.await
      (CropForm.AwaitConfirm (CropForm.form s) p (CropForm.previewData s))
      (CropForm.send (CropForm.PostAdvisory p)
         (CropForm.set_error "" (CropForm.set_isLoading true s)))).
  { subst s1. unfold CropForm.dispatch, CropForm.handleConfirm.
    now rewrite Htruthy. }
  assert (Hs2 : s2 =
    CropForm.confirm_settled (CropForm.form s) p (CropForm.previewData s)
      (HttpOk advisory)
      (CropForm.set_trace
         (CropForm.Settled
            (CropForm.AwaitConfirm (CropForm.form s) p (CropForm.previewData s))
            (CropForm.Fetched (HttpOk advisory)) :: CropForm.trace s1)
         (CropForm.set_pending
            (CropForm.remove_nth (length (CropForm.pending s))
               (CropForm.pending s1)) s1))).
  { subst s2. unfold CropForm.dispatch, CropForm.settle.
    replace (nth_error (CropForm.pending s1) (length (CropForm.pending s)))
      with (Some (CropForm.AwaitConfirm (CropForm.form s) p
                    (CropForm.previewData s))); [reflexivity|].
    rewrite Hs1. unfold CropForm.await.
    cbn [CropForm.pending CropForm.set_pending CropForm.send
         CropForm.set_trace CropForm.set_error CropForm.set_isLoading].
    now rewrite nth_error_snoc. }
  unfold CropForm.confirm_settled in Hs2. rewrite Hadv in Hs2.
  split; [rewrite Hs2; reflexivity|].
  split; [reflexivity|].
  split; [reflexivity|].
  split.
  { unfold CropForm.resultPayload. cbn [CropForm.topCrops]. unfold or_.
    destruct (truthy (get advisory "top_crops")) eqn:E; [exact E|reflexivity]. }
  split; [rewrite Hs2, Hs1; reflexivity|].
  split; [rewrite Hs2, Hs1; exact Hstep|].
  split; [rewrite Hs2, Hs1; reflexivity|].
  split; [rewrite Hs2, Hs1; reflexivity|].
  rewrite Hs2; reflexivity.
Qed.

Lemma gpsFallback_nonempty (latitude longitude : Q) :
  CropForm.gpsFallback latitude longitude <> "".
Proof. unfold CropForm.gpsFallback. discriminate. Qed.

Lemma resolveLocation_nonempty (latitude longitude : Q)
    (r : reply CropForm.GeocodeBody) :
  CropForm.resolveLocation latitude longitude r <> "".
Proof.
  destruct r as [m|e|m|[[l|]]]; cbn [CropForm.resolveLocation CropForm.location];
    try apply gpsFallback_nonempty.
  apply or_str_nonempty, gpsFallback_nonempty.
Qed.

(** X8. [resolveLocation] never returns the empty string, and returns the
    server's place name verbatim whenever the response has a non-empty
    one. *)
Theorem resolveLocation_names_every_point (latitude longitude : Q)
    (r : reply CropForm.GeocodeBody) :
  CropForm.resolveLocation latitude longitude r <> ""
  /\ (forall l, r = HttpOk {| CropForm.location := Some l |} -> l <> "" ->
        CropForm.resolveLocation latitude longitude r = l).
Proof.
  split.
  - apply resolveLocation_nonempty.
  - intros l -> Hl. cbn [CropForm.resolveLocation CropForm.location].
    now apply or_str_verbatim.
Qed.

(** X9. After a GPS fix or a map pick has been resolved and cached, a
    form mounted from that cache is prefilled with the resolved name, which
    is never empty, and its map starts at the picked point; both paths
    cache the same pair.  When the cache write is refused the cache is as
    before. *)
Theorem location_cache_round_trip (c : CropForm.Coords)
    (r : reply CropForm.GeocodeBody) (s : CropForm.state) :
  let resolved := CropForm.resolveLocation (CropForm.lat c) (CropForm.lng c) r in
  let viaMap := CropForm.map_resolved c r true s in
  let viaGps := CropForm.gps_resolved c r true s in
  let reopened := CropForm.initial (CropForm.lastLocation viaMap) in
  CropForm.lastLocation viaMap = CropForm.lastLocation viaGps
  /\ Form.location (CropForm.form reopened) = resolved
  /\ Form.location (CropForm.form reopened) <> ""
  /\ CropForm.mapCoords reopened = Some c
  /\ CropForm.form reopened = Form.set_location resolved Form.INITIAL_FORM
  /\ CropForm.lastLocation (CropForm.map_resolved c r false s)
     = CropForm.lastLocation s
  /\ CropForm.lastLocation (CropForm.gps_resolved c r false s)
     = CropForm.lastLocation s.
Proof.
  cbn zeta.
  pose proof (resolveLocation_nonempty (CropForm.lat c) (CropForm.lng c) r)
    as Hne.
  unfold CropForm.map_resolved, CropForm.gps_resolved,
    CropForm.saveLocationCache, CropForm.initial.
  cbn [CropForm.lastLocation CropForm.form CropForm.mapCoords CropForm.name
       CropForm.coords CropForm.set_lastLocation CropForm.set_gpsMessage
       CropForm.set_form CropForm.set_usingGps CropForm.set_mapCoords].
  apply String.eqb_neq in Hne. rewrite Hne. apply String.eqb_neq in Hne.
  repeat split; try reflexivity. exact Hne.
Qed.

Lemma remove_nth_snoc {A : Type} (l : list A) (x : A) :
  CropForm.remove_nth (length l) (l ++ [x])%list = l.
Proof.
  induction l as [|y l IH]; [reflexivity|].
  cbn [length app CropForm.remove_nth]. now rewrite IH.
Qed.

Lemma set_location_frame (v other : string) (f : Form.t) :
  other <> "location" ->
  FormAccess.get other (Form.set_location v f) = FormAccess.get other f.
Proof.
  intro Hne. unfold FormAccess.get.
  apply String.eqb_neq in Hne. now rewrite Hne.
Qed.

(** X23. The GPS action end to end.  With geolocation available it
    clears the error and raises the locating flag; when the fix arrives one
    reverse-geocode request is sent for it, and when that settles the
    location field and the detected-location message hold the resolved
    name, the map holds the fix, every other form field is as before, the
    locating flag is released and nothing is left pending.  When the fix
    fails instead, an error is shown and the flag released while the form,
    the map point and the cache stay untouched and no request is sent.
    Without geolocation the action only shows an error. *)
Theorem gps_flow_end_to_end (s : CropForm.state) (c : CropForm.Coords)
    (r : reply CropForm.GeocodeBody) (cached : bool) :
  let n := length (CropForm.pending s) in
  let s1 := CropForm.dispatch (CropForm.UseGps true) s in
  let s2 := CropForm.dispatch (CropForm.Settle n (CropForm.Fix c)) s1 in
  let s3 :=
    CropForm.dispatch (CropForm.Settle n (CropForm.Geocoded r cached)) s2 in
  let denied := CropForm.dispatch (CropForm.Settle n CropForm.FixFailed) s1 in
  let resolved := CropForm.resolveLocation (CropForm.lat c) (CropForm.lng c) r in
  (CropForm.usingGps s1 = true /\ CropForm.error s1 = ""
   /\ CropForm.trace s1 = CropForm.trace s)
  /\ CropForm.trace s2 =
       CropForm.Sent (CropForm.GetReverseGeocode c)
       :: CropForm.Settled CropForm.AwaitFix (CropForm.Fix c)
       :: CropForm.trace s
  /\ (Form.location (CropForm.form s3) = resolved
      /\ CropForm.gpsMessage s3 = resolved
      /\ CropForm.mapCoords s3 = Some c
      /\ CropForm.usingGps s3 = false
      /\ CropForm.pending s3 = CropForm.pending s
      /\ sent_count (CropForm.trace s3) = S (sent_count (CropForm.trace s))
      /\ CropForm.step s3 = CropForm.step s
      /\ forall other, other <> "location" ->
           FormAccess.get other (CropForm.form s3)
           = FormAccess.get other (CropForm.form s))
  /\ (CropForm.error denied =
        "Unable to fetch GPS location. Please enter location manually."
      /\ CropForm.usingGps denied = false
      /\ CropForm.form denied = CropForm.form s
      /\ CropForm.mapCoords denied = CropForm.mapCoords s
      /\ CropForm.lastLocation denied = CropForm.lastLocation s
      /\ CropForm.pending denied = CropForm.pending s
      /\ sent_count (CropForm.trace denied) = sent_count (CropForm.trace s))
  /\ CropForm.dispatch (CropForm.UseGps false) s =
       CropForm.set_error
         "GPS is not supported in this browser. Please enter location manually."
         s.
Proof.
  intros n s1 s2 s3 denied resolved.
  set (base := CropForm.set_usingGps true
                 (CropForm.set_gpsMessage "" (CropForm.set_error "" s))).
  assert (Hs1 : s1 = CropForm.await CropForm.AwaitFix base) by reflexivity.
  assert (Hp1 : nth_error (CropForm.pending s1) n = Some CropForm.AwaitFix).
  { rewrite Hs1. unfold CropForm.await, base.
    cbn [CropForm.pending CropForm.set_pending CropForm.set_usingGps
         CropForm.set_gpsMessage CropForm.set_error].
    apply nth_error_snoc. }
  assert (Hr1 : CropForm.remove_nth n (CropForm.pending s1) = CropForm.pending s).
  { rewrite Hs1. unfold CropForm.await, base.
    cbn [CropForm.pending CropForm.set_pending CropForm.set_usingGps
         CropForm.set_gpsMessage CropForm.set_error].
    apply remove_nth_snoc. }
  set (fixed := CropForm.set_trace
                  (CropForm.Settled CropForm.AwaitFix (CropForm.Fix c)
                   :: CropForm.trace s1)
                  (CropForm.set_pending (CropForm.pending s) s1)).
  assert (Hs2 : s2 = CropForm.gps_position c fixed).
  { subst s2. unfold CropForm.dispatch, CropForm.settle. rewrite Hp1, Hr1.
    reflexivity. }
  assert (Hp2 : nth_error (CropForm.pending s2) n
                = Some (CropForm.AwaitGeocodeGps c)).
  { rewrite Hs2. unfold CropForm.gps_position, CropForm.await, CropForm.send,
      fixed.
    cbn [CropForm.pending CropForm.set_pending CropForm.set_trace].
    apply nth_error_snoc. }
  assert (Hr2 : CropForm.remove_nth n (CropForm.pending s2) = CropForm.pending s).
  { rewrite Hs2. unfold CropForm.gps_position, CropForm.await, CropForm.send,
      fixed.
    cbn [CropForm.pending CropForm.set_pending CropForm.set_trace].
    apply remove_nth_snoc. }
  assert (Hs3 : s3 =
    CropForm.gps_resolved c r cached
      (CropForm.set_trace
         (CropForm.Settled (CropForm.AwaitGeocodeGps c)
            (CropForm.Geocoded r cached) :: CropForm.trace s2)
         (CropForm.set_pending (CropForm.pending s) s2))).
  { subst s3. unfold CropForm.dispatch, CropForm.settle. rewrite Hp2, Hr2.
    reflexivity. }
  assert (Hden : denied =
    CropForm.gps_failed
      (CropForm.set_trace
         (CropForm.Settled CropForm.AwaitFix CropForm.FixFailed
          :: CropForm.trace s1)
         (CropForm.set_pending (CropForm.pending s) s1))).
  { subst denied. unfold CropForm.dispatch, CropForm.settle. rewrite Hp1, Hr1.
    reflexivity. }
  split; [rewrite Hs1; repeat split|].
  split; [rewrite Hs2; reflexivity|].
  split.
  { rewrite Hs3. unfold CropForm.gps_resolved, CropForm.saveLocationCache.
    fold resolved. rewrite Hs2.
    destruct cached;
      cbn [CropForm.form CropForm.gpsMessage CropForm.mapCoords
           CropForm.usingGps CropForm.pending CropForm.trace CropForm.step
           CropForm.set_usingGps CropForm.set_lastLocation
           CropForm.set_gpsMessage CropForm.set_mapCoords CropForm.set_form
           CropForm.set_trace CropForm.set_pending CropForm.gps_position
           CropForm.await CropForm.send fixed Form.location
           Form.set_location];
      (do 5 (split; [reflexivity|])); (split; [reflexivity|]);
      (split; [reflexivity|]);
      intros other Hne; now apply set_location_frame. }
  split; [rewrite Hden, Hs1; repeat split|].
  reflexivity.
Qed.

End CropFormMore.

(** ** Further properties of the disease upload pipeline *)

Section DiseaseMore.
Context {H : Host}.

(** X10. Without a staged file the detect action uploads nothing and
    asks for an image.  With one, it uploads that file; when the upload
    fails, or its 2xx body is [null], no result is shown, the error is
    not empty, the busy flag is released, the staged file and its preview
    stay, and the history store is not touched. *)
Theorem detect_failure_leaves_history (s : Disease.state) (r : reply value)
    (date : string) (written : bool) (h : History.slot) :
  (Disease.file s = None ->
     snd (Disease.handleDetect_start s) = None
     /\ Disease.error (fst (Disease.handleDetect_start s))
        = "Please upload a leaf image first."
     /\ Disease.isLoading (fst (Disease.handleDetect_start s))
        = Disease.isLoading s)
  /\ (forall f, Disease.file s = Some f -> detect_failed r = true ->
        let s1 := fst (Disease.handleDetect_start s) in
        let after := Disease.handleDetect_settle f r date written s1 h in
        snd (Disease.handleDetect_start s) = Some f
        /\ Disease.isLoading s1 = true
        /\ snd after = h
        /\ Disease.result (fst after) = None
        /\ Disease.error (fst after) <> ""
        /\ Disease.isLoading (fst after) = false
        /\ Disease.file (fst after) = Some f
        /\ Disease.previewUrl (fst after) = Disease.previewUrl s).
Proof.
  split.
  - intro Hf. unfold Disease.handleDetect_start.
    cbn [Disease.file Disease.set_result Disease.set_error]. rewrite Hf.
    repeat split.
  - intros f Hf Hr. unfold Disease.handleDetect_start.
    cbn [Disease.file Disease.set_result Disease.set_error]. rewrite Hf.
    cbn [fst snd]. unfold Disease.handleDetect_settle.
    destruct r as [m|errData|m|d]; cbn [detect_failed] in Hr;
      try rewrite Hr; cbn [fst snd];
      cbn [Disease.result Disease.error Disease.isLoading Disease.file
           Disease.previewUrl Disease.set_isLoading Disease.set_error
           Disease.set_result];
      (do 4 (split; [reflexivity|]));
      (split; [apply or_str_nonempty; discriminate|]);
      repeat split; exact Hf.
Qed.

(** X11. A detection that returns a 2xx body other than [null] shows the
    normalized result with no error, releases the busy flag and, on a
    store that holds a list, puts one entry of type ["disease"] in front
    when the write goes through.  The entry records the file name (or
    ["image"]), the first truthy name field like the shown result does
    (with the default ["Unknown"] where the result has ["Unknown disease"]),
    and the [confidence] field of the response as it is: the shown
    confidence, when that field is a number. *)
Theorem detect_success_records_history (s : Disease.state) (f : Disease.File)
    (data : value) (date : string) (written : bool) (h : History.slot) :
  Disease.file s = Some f ->
  nullish data = false ->
  History.holds_list h = true ->
  let s1 := fst (Disease.handleDetect_start s) in
  let after := Disease.handleDetect_settle f (HttpOk data) date written s1 h in
  let summary := History.diseaseSummary data (Disease.name f) in
  let shown := Disease.normalizeResult data in
  Disease.result (fst after) = Some shown
  /\ Disease.error (fst after) = ""
  /\ Disease.isLoading (fst after) = false
  /\ History.entries (snd after) =
       (if written
        then firstn 20 (History.entry "disease" summary date :: History.entries h)
        else History.entries h)
  /\ get (History.entry "disease" summary date) "type" = VStr "disease"
  /\ get summary "fileName" = VStr (or_str (Disease.name f) "image")
  /\ get summary "disease" = first_truthy (name_fields data) (VStr "Unknown")
  /\ Disease.diseaseName shown
     = first_truthy (name_fields data) (VStr "Unknown disease")
  /\ get summary "confidence" = get data "confidence"
  /\ (is_number (get data "confidence") = true ->
      get summary "confidence" = Disease.confidence shown).
Proof.
  intros Hf Hd Hl s1 after summary shown. subst s1 after summary shown.
  unfold Disease.handleDetect_start.
  cbn [Disease.file Disease.set_result Disease.set_error]. rewrite Hf.
  unfold Disease.handleDetect_settle. rewrite Hd. cbn [fst snd].
  split; [reflexivity|]. split; [reflexivity|]. split; [reflexivity|].
  split.
  { destruct (apply_on_list
                (History.Disease data (Disease.name f) date written) h Hl)
      as [_ He]. exact He. }
  split; [reflexivity|]. split; [reflexivity|].
  split; [apply or_chain3|]. split; [apply or_chain3|].
  split; [reflexivity|].
  intro Hn. unfold Disease.normalizeResult. cbn [Disease.confidence].
  now rewrite Hn.
Qed.

(** X12. A dropped file is staged exactly when it is an image within the
    size limit: then it replaces the staged file with its fresh preview and
    the previous result and error are cleared.  Otherwise the staged file
    and its preview stay and an error is shown; a file that is not an image
    does not even clear the previous result. *)
Theorem handleDrop_stages_images_within_limit (f : Disease.File)
    (url : string) (s : Disease.state) :
  let s' := Disease.handleDrop (Some f) url s in
  Disease.file s' = (if accepted f then Some f else Disease.file s)
  /\ Disease.previewUrl s' = (if accepted f then url else Disease.previewUrl s)
  /\ Disease.isDragOver s' = false
  /\ (accepted f = true -> Disease.error s' = "" /\ Disease.result s' = None)
  /\ (accepted f = false -> Disease.error s' <> "")
  /\ (startsWith "image/" (Disease.type f) = false ->
      Disease.result s' = Disease.result s).
Proof.
  cbn zeta. unfold accepted, Disease.handleDrop, Disease.processFile.
  destruct (startsWith "image/" (Disease.type f)); cbn [andb].
  - rewrite N.leb_antisym.
    destruct (Disease.MAX_BYTES <? Disease.size f)%N; cbn [negb];
      repeat split; try discriminate.
  - repeat split; try discriminate.
Qed.

Lemma num_ltb_below (p : number) (a b : Z) :
  (a <= b)%Z -> num_ltb p (num a) = true -> num_ltb p (num b) = true.
Proof.
  intros Hab. destruct p as [q| | |]; cbn [num_ltb num]; try discriminate;
    try reflexivity.
  rewrite !Qltb_lt. intro Hlt.
  apply Qlt_le_trans with (inject_Z a); [exact Hlt|].
  now rewrite <- Zle_Qle.
Qed.

Lemma num_geb_ltb (p : number) (z : Z) :
  num_ltb p (num z) = true -> num_geb p (num z) = false.
Proof.
  destruct p as [q| | |]; cbn [num_geb num_ltb num]; try discriminate.
  - intros ->. reflexivity.
  - intros _. reflexivity.
Qed.

(** X13. The confidence percent never exceeds 100, whatever number the
    server sent.  Whenever the low-confidence notice is shown the
    confidence bar is red and the caption shows a percentage; the notice
    is never shown next to a green or an amber bar. *)
Theorem confidence_bar_is_bounded (s : Disease.state) :
  num_ltb (num 100) (Disease.confidencePercent s) = false
  /\ (Disease.lowConfidenceNotice s = true ->
      Disease.confidenceColor s = "bg-red-400"
      /\ Disease.confidenceShown s = true)
  /\ (Disease.confidenceColor s <> "bg-red-400" ->
      Disease.lowConfidenceNotice s = false).
Proof.
  assert (Hnotice : Disease.lowConfidenceNotice s = true ->
            Disease.confidenceColor s = "bg-red-400"
            /\ Disease.confidenceShown s = true).
  { unfold Disease.lowConfidenceNotice, Disease.confidenceColor,
      Disease.confidenceShown.
    destruct (Disease.result s); [|discriminate].
    intro Hn. apply andb_true_iff in Hn as [Hpos Hlow].
    rewrite (num_geb_ltb _ 80), (num_geb_ltb _ 50).
    - now split.
    - apply (num_ltb_below _ 40 50); [lia|exact Hlow].
    - apply (num_ltb_below _ 40 80); [lia|exact Hlow]. }
  split; [|split; [exact Hnotice|]].
  - unfold Disease.confidencePercent.
    destruct (Disease.result s) as [r|]; [|reflexivity].
    destruct (Disease.confidence r) as [| | |c| | |]; try reflexivity.
    apply Math_min_cap.
  - intro Hcolor. destruct (Disease.lowConfidenceNotice s) eqn:E;
      [|reflexivity].
    destruct (Hnotice eq_refl) as [Hred _]. contradiction.
Qed.

End DiseaseMore.

(** ** Further properties of the history store *)


(** X14. On a store that does not hold a list (unparsable text, or JSON
    that is not an array) every append is lost: the store stays exactly as
    it is, however many entries the producers add.  Clearing the history
    repairs it: after [clearHistory] the same appends are stored, newest
    first, cut to 20. *)
Theorem corrupt_store_loses_appends (ops : list History.append)
    (s : History.slot) :
  History.holds_list s = false ->
  History.run ops s = s
  /\ History.entries (History.run ops s) = []
  /\ History.entries (History.run ops (fst (History.clearHistory s)))
     = firstn 20 (rev (map History.entry_of (filter History.written_of ops))).
Proof.
  intro Hl. split; [now apply run_off_list|].
  split; [rewrite run_off_list by exact Hl; now apply entries_off_list|].
  cbn [History.clearHistory fst].
  destruct (run_on_list ops History.Missing eq_refl) as [_ He];
    [cbn; lia|].
  rewrite He. cbn [History.entries]. now rewrite app_nil_r.
Qed.


(** ** Relative dates *)

Lemma Zdiv_nested (d : Z) :
  (d / 60000 / 60 = d / 3600000)%Z /\ (d / 60000 / 60 / 24 = d / 86400000)%Z.
Proof.
  split.
  - rewrite Zdiv_Zdiv by lia. reflexivity.
  - rewrite !Zdiv_Zdiv by lia. reflexivity.
Qed.

(** X16. [formatRelativeDate] on a date that parses: a date less than a
    minute old, or in the future, reads "Just now"; from one minute to one
    hour it reads the whole minutes elapsed, between 1 and 59; from one
    hour to one day the whole hours, between 1 and 23; from one day on the
    whole days elapsed, at least 1. *)
Theorem formatRelativeDate_buckets (now time : Z) :
  let diff := (now - time)%Z in
  let shown := Home.formatRelativeDate now (Some time) in
  ((diff < 60000)%Z -> shown = "Just now")
  /\ ((60000 <= diff < 3600000)%Z ->
      shown = Home.Z_to_string (diff / 60000) ++ "m ago"
      /\ (1 <= diff / 60000 <= 59)%Z)
  /\ ((3600000 <= diff < 86400000)%Z ->
      shown = Home.Z_to_string (diff / 3600000) ++ "h ago"
      /\ (1 <= diff / 3600000 <= 23)%Z)
  /\ ((86400000 <= diff)%Z ->
      shown = Home.Z_to_string (diff / 86400000) ++ "d ago"
      /\ (1 <= diff / 86400000)%Z).
Proof.
  intros diff shown. subst shown. unfold Home.formatRelativeDate.
  fold diff. destruct (Zdiv_nested diff) as [Hh Hd]. rewrite Hd, Hh.
  generalize dependent diff. intros diff Hh Hd.
  split; [|split; [|split]].
  - intro Hlt.
    assert (Hm : (diff / 60000 < 1)%Z) by (apply Z.div_lt_upper_bound; lia).
    apply Z.ltb_lt in Hm. now rewrite Hm.
  - intros [Hlo Hhi].
    assert (H1 : (1 <= diff / 60000)%Z) by (apply Z.div_le_lower_bound; lia).
    assert (H2 : (diff / 60000 < 60)%Z) by (apply Z.div_lt_upper_bound; lia).
    replace (diff / 60000 <? 1)%Z with false by (symmetry; apply Z.ltb_ge; lia).
    replace (diff / 60000 <? 60)%Z with true by (symmetry; apply Z.ltb_lt; lia).
    split; [reflexivity|lia].
  - intros [Hlo Hhi].
    assert (H0 : (60 <= diff / 60000)%Z) by (apply Z.div_le_lower_bound; lia).
    assert (H1 : (1 <= diff / 3600000)%Z) by (apply Z.div_le_lower_bound; lia).
    assert (H2 : (diff / 3600000 < 24)%Z) by (apply Z.div_lt_upper_bound; lia).
    replace (diff / 60000 <? 1)%Z with false by (symmetry; apply Z.ltb_ge; lia).
    replace (diff / 60000 <? 60)%Z with false by (symmetry; apply Z.ltb_ge; lia).
    replace (diff / 3600000 <? 24)%Z with true by (symmetry; apply Z.ltb_lt; lia).
    split; [reflexivity|lia].
  - intro Hlo.
    assert (H0 : (60 <= diff / 60000)%Z) by (apply Z.div_le_lower_bound; lia).
    assert (H1 : (24 <= diff / 3600000)%Z) by (apply Z.div_le_lower_bound; lia).
    assert (H2 : (1 <= diff / 86400000)%Z) by (apply Z.div_le_lower_bound; lia).
    replace (diff / 60000 <? 1)%Z with false by (symmetry; apply Z.ltb_ge; lia).
    replace (diff / 60000 <? 60)%Z with false by (symmetry; apply Z.ltb_ge; lia).
    replace (diff / 3600000 <? 24)%Z with false by (symmetry; apply Z.ltb_ge; lia).
    split; [reflexivity|lia].
Qed.

(** ** Display name of a disease *)

Lemma toUpperCase_underscore (a : ascii) :
  Ascii.eqb (DiseaseName.toUpperCase a) DiseaseName.underscore
  = Ascii.eqb a DiseaseName.underscore.
Proof. destruct a as [[] [] [] [] [] [] [] []]; reflexivity. Qed.

Lemma toUpperCase_idempotent (a : ascii) :
  DiseaseName.toUpperCase (DiseaseName.toUpperCase a)
  = DiseaseName.toUpperCase a.
Proof. destruct a as [[] [] [] [] [] [] [] []]; reflexivity. Qed.

Lemma is_word_toUpperCase (a : ascii) :
  DiseaseName.is_word (DiseaseName.toUpperCase a) = DiseaseName.is_word a.
Proof. destruct a as [[] [] [] [] [] [] [] []]; reflexivity. Qed.

Lemma replace_single_clean (s : string) :
  has_underscore (DiseaseName.replace_single s) = false.
Proof.
  induction s as [|a s IH]; [reflexivity|].
  cbn [DiseaseName.replace_single has_underscore]. rewrite IH.
  destruct (Ascii.eqb a DiseaseName.underscore) eqn:E; [reflexivity|].
  now rewrite E.
Qed.

Lemma capitalize_underscores (inside : bool) (s : string) :
  has_underscore (DiseaseName.capitalize inside s) = has_underscore s.
Proof.
  revert inside. induction s as [|a s IH]; intro inside; [reflexivity|].
  cbn [DiseaseName.capitalize has_underscore]. rewrite IH.
  destruct (DiseaseName.is_word a && negb inside);
    [now rewrite toUpperCase_underscore|reflexivity].
Qed.

Lemma capitalize_idempotent (inside : bool) (s : string) :
  DiseaseName.capitalize inside (DiseaseName.capitalize inside s)
  = DiseaseName.capitalize inside s.
Proof.
  revert inside. induction s as [|a s IH]; intro inside; [reflexivity|].
  cbn [DiseaseName.capitalize].
  destruct (DiseaseName.is_word a && negb inside) eqn:E.
  - rewrite is_word_toUpperCase, E, toUpperCase_idempotent, IH. reflexivity.
  - rewrite E, IH. reflexivity.
Qed.

Lemma replace_triple_step (a : ascii) (rest : string) :
  Ascii.eqb a DiseaseName.underscore = false ->
  DiseaseName.replace_triple (String a rest)
  = String a (DiseaseName.replace_triple rest).
Proof.
  intro Ha. destruct rest as [|b [|c rest]]; cbn [DiseaseName.replace_triple];
    try reflexivity.
  now rewrite Ha.
Qed.

Lemma replace_triple_clean (s : string) :
  has_underscore s = false -> DiseaseName.replace_triple s = s.
Proof.
  induction s as [|a s IH]; [reflexivity|]. cbn [has_underscore].
  intro Hn. apply orb_false_iff in Hn as [Ha Hs].
  rewrite (replace_triple_step _ _ Ha), (IH Hs). reflexivity.
Qed.

Lemma replace_single_clean_id (s : string) :
  has_underscore s = false -> DiseaseName.replace_single s = s.
Proof.
  induction s as [|a s IH]; [reflexivity|]. cbn [has_underscore].
  intro Hn. apply orb_false_iff in Hn as [Ha Hs].
  cbn [DiseaseName.replace_single]. now rewrite Ha, (IH Hs).
Qed.

Lemma replace_triple_nonempty (s : string) :
  s <> "" -> DiseaseName.replace_triple s <> "".
Proof.
  destruct s as [|a [|b [|c rest]]]; cbn [DiseaseName.replace_triple];
    try congruence.
  intros _.
  destruct (Ascii.eqb a DiseaseName.underscore
            && Ascii.eqb b DiseaseName.underscore
            && Ascii.eqb c DiseaseName.underscore); discriminate.
Qed.

Lemma format_clean (s : string) :
  has_underscore (DiseaseName.format s) = false.
Proof.
  unfold DiseaseName.format.
  now rewrite capitalize_underscores, replace_single_clean.
Qed.

Lemma format_idempotent (s : string) :
  DiseaseName.format (DiseaseName.format s) = DiseaseName.format s.
Proof.
  pose proof (format_clean s) as Hc.
  unfold DiseaseName.format at 1.
  rewrite (replace_triple_clean _ Hc), (replace_single_clean_id _ Hc).
  unfold DiseaseName.format. apply capitalize_idempotent.
Qed.

Lemma format_nonempty (s : string) : s <> "" -> DiseaseName.format s <> "".
Proof.
  intro Hs. apply replace_triple_nonempty in Hs. unfold DiseaseName.format.
  destruct (DiseaseName.replace_triple s) as [|a rest]; [congruence|].
  discriminate.
Qed.

(** X17. [formatDiseaseName] raises exactly on a truthy name that is not
    a string, and shows ["Unknown"] for a falsy one.  The name it shows
    for a string has no underscore left and is never empty, and formatting
    a shown name again gives the same name. *)
Theorem formatDiseaseName_is_stable (name : value) :
  (DiseaseName.formatDiseaseName name = None <->
     truthy name = true /\ is_string name = false)
  /\ (truthy name = false ->
      DiseaseName.formatDiseaseName name = Some "Unknown")
  /\ (forall shown,
        DiseaseName.formatDiseaseName name = Some shown ->
        has_underscore shown = false
        /\ shown <> ""
        /\ DiseaseName.formatDiseaseName (VStr shown) = Some shown).
Proof.
  split; [|split].
  - unfold DiseaseName.formatDiseaseName.
    destruct (truthy name) eqn:Ht; cbn [negb].
    + destruct name; cbn [is_string]; split; intro Hx;
        try discriminate; try (now split); destruct Hx; discriminate.
    + split; [discriminate|]. intros [Hx _]. discriminate.
  - intro Ht. unfold DiseaseName.formatDiseaseName. now rewrite Ht.
  - intros shown. unfold DiseaseName.formatDiseaseName.
    destruct (truthy name) eqn:Ht; cbn [negb].
    + destruct name as [| | | |s| |]; try discriminate.
      intros [= <-].
      assert (Hs : s <> "").
      { cbn [truthy] in Ht. intros ->. discriminate Ht. }
      pose proof (format_nonempty s Hs) as Hne.
      split; [apply format_clean|]. split; [exact Hne|].
      cbn [truthy]. apply String.eqb_neq in Hne. rewrite Hne. cbn [negb].
      now rewrite format_idempotent.
    + intros [= <-]. repeat split. discriminate.
Qed.

(** ** Results page *)

Lemma or_chain1 (a d : value) : or_ a d = first_truthy [a] d.
Proof.
  unfold first_truthy, or_. cbn [find]. destruct (truthy a); reflexivity.
Qed.

Lemma or_chain2 (a b d : value) : or_ (or_ a b) d = first_truthy [a; b] d.
Proof.
  unfold first_truthy, or_. cbn [find].
  destruct (truthy a) eqn:Ea; [now rewrite ?Ea|].
  destruct (truthy b) eqn:Eb; [now rewrite ?Eb|reflexivity].
Qed.

Lemma first_truthy_truthy (candidates : list value) (d : value) :
  truthy d = true -> truthy (first_truthy candidates d) = true.
Proof.
  intro Hd. unfold first_truthy.
  destruct (find truthy candidates) as [v|] eqn:E; [|exact Hd].
  now apply find_some in E.
Qed.

Section ResultsSpec.
Context {H : Host}.

(** X18. The results page always has at least one crop card.  When the
    service sent a non-empty array of top crops the cards are that array;
    in every other case (no [top_crops], an empty array, a value that is
    not an array) there is one card, made of the recommended crop with its
    yield and profit. *)
Theorem results_always_show_a_crop (f : Form.t) (p : Payload.t)
    (advisory : value) :
  let d := CropForm.resultPayload f p advisory in
  let single :=
    [VObj [("crop_name", get advisory "recommended_crop");
           ("expected_yield", get advisory "expected_yield");
           ("estimated_profit", get advisory "estimated_profit")]] in
  Results.crops d <> []
  /\ (forall c rest, get advisory "top_crops" = VArr (c :: rest) ->
        Results.crops d = c :: rest)
  /\ ((forall c rest, get advisory "top_crops" <> VArr (c :: rest)) ->
        Results.crops d = single).
Proof.
  cbn zeta. unfold Results.crops, CropForm.resultPayload.
  cbn [CropForm.topCrops CropForm.recommendedCrop CropForm.expectedYield
       CropForm.estimatedProfit].
  unfold or_.
  assert (Hother : forall top : value,
            (forall c rest, top <> VArr (c :: rest)) ->
            match (if truthy top then top
                   else VArr [VObj [("crop_name", get advisory "recommended_crop");
                                    ("expected_yield", get advisory "expected_yield");
                                    ("estimated_profit",
                                     get advisory "estimated_profit")]])
            with
            | VArr (c :: rest) => c :: rest
            | _ => [VObj [("crop_name", get advisory "recommended_crop");
                          ("expected_yield", get advisory "expected_yield");
                          ("estimated_profit", get advisory "estimated_profit")]]
            end
            = [VObj [("crop_name", get advisory "recommended_crop");
                     ("expected_yield", get advisory "expected_yield");
                     ("estimated_profit", get advisory "estimated_profit")]]).
  { intros top Hno. destruct (truthy top); [|reflexivity].
    destruct top as [| | | | |[|c rest]|]; try reflexivity.
    exfalso. exact (Hno c rest eq_refl). }
  split; [|split].
  - destruct (truthy (get advisory "top_crops")); [|discriminate].
    destruct (get advisory "top_crops") as [| | | | |[|c rest]|];
      discriminate.
  - intros c rest ->. reflexivity.
  - intro Hno. exact (Hother _ Hno).
Qed.

(** X19. The history entry the results page writes on mount, for a store
    that holds a list: one entry of type ["crop"] in front (cut to 20) when
    the write goes through.  Its crop is the name on the first card, or the
    recommended crop when the card has none; its location is the snapshot's
    location, else the submitted location, else a dash, and is never
    falsy; its profit is the one on the first card. *)
Theorem results_history_entry (nav : CropForm.Navigation) (date : string)
    (written : bool) (h : History.slot) :
  History.holds_list h = true ->
  let d := CropForm.data nav in
  let summary := Results.historySummary nav in
  History.entries (Results.saveOnMount nav date written h) =
    (if written
     then firstn 20 (History.entry "crop" summary date :: History.entries h)
     else History.entries h)
  /\ get summary "crop" =
       first_truthy [get_opt (Results.first_crop d) "crop_name"]
         (CropForm.recommendedCrop d)
  /\ get summary "location" =
       first_truthy
         [get_opt (or_ (CropForm.inputSummary nav) VNull) "location";
          VStr (Payload.location (CropForm.payload (CropForm.inputs d)))]
         (VStr Results.dash)
  /\ truthy (get summary "location") = true
  /\ get summary "profit" = get_opt (Results.first_crop d) "estimated_profit".
Proof.
  intros Hl d summary. subst d summary.
  split.
  { destruct (apply_on_list
                (History.Crop (Results.historySummary nav) date written) h Hl)
      as [_ He]. exact He. }
  split.
  { transitivity
      (or_ (get_opt (Results.first_crop (CropForm.data nav)) "crop_name")
           (CropForm.recommendedCrop (CropForm.data nav)));
      [reflexivity|apply or_chain1]. }
  assert (Hloc : get (Results.historySummary nav) "location" =
       first_truthy
         [get_opt (or_ (CropForm.inputSummary nav) VNull) "location";
          VStr (Payload.location
                  (CropForm.payload (CropForm.inputs (CropForm.data nav))))]
         (VStr Results.dash)).
  { transitivity
      (or_ (or_ (get_opt (or_ (CropForm.inputSummary nav) VNull) "location")
                (VStr (Payload.location
                         (CropForm.payload
                            (CropForm.inputs (CropForm.data nav))))))
           (VStr Results.dash));
      [reflexivity|apply or_chain2]. }
  split; [exact Hloc|]. split; [|reflexivity].
  rewrite Hloc. now apply first_truthy_truthy.
Qed.

(** X20. On the results page the soil pH read from the handed-over
    inputs is always [NaN], because the inputs object has no [ph] key (the
    readings sit under [manual_soil]).  So the sustainability rating is
    never ["High"]: it is ["Moderate"] when the rainfall used is above 80
    and ["Low"] otherwise, and the rainfall used is the snapshot's
    [weather.rainfall] when that is a number and 120 in every other case. *)
Theorem sustainability_is_never_high (nav : CropForm.Navigation) :
  Results.ph (CropForm.data nav) = NaN
  /\ Results.sustainability nav <> "High"
  /\ Results.sustainability nav =
       (if num_gtb (Results.rainfall nav) (num 80) then "Moderate" else "Low")
  /\ (forall n,
        get_opt (get_opt (or_ (CropForm.inputSummary nav) VNull) "weather")
          "rainfall" = VNum n ->
        Results.rainfall nav = n)
  /\ (is_number
        (get_opt (get_opt (or_ (CropForm.inputSummary nav) VNull) "weather")
           "rainfall") = false ->
      Results.rainfall nav = num 120
      /\ Results.sustainability nav = "Moderate").
Proof.
  assert (Hph : Results.ph (CropForm.data nav) = NaN) by reflexivity.
  assert (Hs : Results.sustainability nav =
            (if num_gtb (Results.rainfall nav) (num 80) then "Moderate"
             else "Low")).
  { unfold Results.sustainability. rewrite Hph. reflexivity. }
  assert (Hr : is_number
        (get_opt (get_opt (or_ (CropForm.inputSummary nav) VNull) "weather")
           "rainfall") = false -> Results.rainfall nav = num 120).
  { unfold Results.rainfall.
    destruct (get_opt (get_opt (or_ (CropForm.inputSummary nav) VNull)
                         "weather") "rainfall");
      try discriminate; reflexivity. }
  split; [exact Hph|]. split.
  { rewrite Hs. destruct (num_gtb (Results.rainfall nav) (num 80));
      discriminate. }
  split; [exact Hs|]. split.
  { intros n Hn. unfold Results.rainfall. now rewrite Hn. }
  intro Hn. split; [exact (Hr Hn)|]. rewrite Hs, (Hr Hn). reflexivity.
Qed.

(** X24. The per-land totals of the results page are computed exactly
    when the handed-over land size is a number above zero: a form without a
    land size, or with one that does not parse ([NaN]) or is not positive,
    gets none.  The area in hectares is then the acres times 0.4047. *)
Theorem land_totals_need_positive_size (d : CropForm.ResultPayload) :
  (Results.landHectares d <> None <->
     exists acres, CropForm.land_size d = Some acres
                   /\ num_ltb (num 0) acres = true)
  /\ (forall acres, CropForm.land_size d = Some acres ->
        num_ltb (num 0) acres = true ->
        Results.landAcres d = Some acres
        /\ Results.landHectares d
           = Some (num_mul acres (double (4047 # 10000))))
  /\ (CropForm.land_size d = None \/ CropForm.land_size d = Some NaN ->
      Results.landHectares d = None).
Proof.
  assert (Hpos : forall acres, num_ltb (num 0) acres = true ->
            truthy (VNum acres) = true).
  { intros [q| | |]; cbn [num_ltb num truthy]; try discriminate; try reflexivity.
    intro Hlt. apply Qltb_lt in Hlt. apply negb_true_iff.
    destruct (Qeq_bool q 0) eqn:E; [|reflexivity].
    apply Qeq_bool_eq in E. rewrite E in Hlt.
    exfalso. exact (Qlt_irrefl _ Hlt). }
  unfold Results.landHectares, Results.landAcres.
  change (get (Results.data_object d) "land_size")
    with (Results.opt_num (CropForm.land_size d)).
  destruct (CropForm.land_size d) as [acres|]; cbn [Results.opt_num].
  - unfold num_gtb. destruct (num_ltb (num 0) acres) eqn:Hlt.
    + rewrite (Hpos _ Hlt). split; [|split].
      * split; [intros _; now exists acres|discriminate].
      * intros a [= <-] _. now split.
      * intros [Hx|Hx]; [discriminate|]. injection Hx as ->. discriminate Hlt.
    + split; [|split].
      * split; [congruence|]. intros (a & [= <-] & Ha). congruence.
      * intros a [= <-] Ha. congruence.
      * reflexivity.
  - split; [|split].
    + split; [congruence|]. intros (a & Hx & _). discriminate.
    + intros a Hx. discriminate.
    + reflexivity.
Qed.

End ResultsSpec.

(** ** Route guard *)

(** X21. A visitor who is not signed in reaches a protected path only as
    a redirect to the login page, which renders without a further
    redirect, so one redirect always settles the route; a signed-in visitor
    and a public path are never redirected.  Signing up lands on the home
    page and opens every path; logging out lands on the login page and
    closes every protected path again. *)
Theorem route_guard_settles (pathname : string) (item : App.AuthItem) :
  App.settle_route 1 pathname item =
    Some (if App.isAuthed item || App.isPublicPage pathname then pathname
          else "/login")
  /\ (App.isAuthed item = false -> App.isPublicPage pathname = false ->
      App.render pathname item = App.RedirectTo "/login")
  /\ App.render (snd (App.signup item)) (fst (App.signup item))
     = App.Page "/home"
  /\ App.render pathname (fst (App.signup item)) = App.Page pathname
  /\ App.render (snd (App.logout item)) (fst (App.logout item))
     = App.Page "/login"
  /\ (App.isPublicPage pathname = false ->
      App.render pathname (fst (App.logout item)) = App.RedirectTo "/login").
Proof.
  split; [|split; [|split; [|split; [|split]]]].
  - unfold App.settle_route, App.render.
    destruct (App.isAuthed item), (App.isPublicPage pathname); reflexivity.
  - intros Ha Hp. unfold App.render. now rewrite Ha, Hp.
  - reflexivity.
  - unfold App.render. reflexivity.
  - reflexivity.
  - intro Hp. unfold App.render. cbn [App.logout fst App.isAuthed negb andb].
    now rewrite Hp.
Qed.

(** ** Translation lookup *)

Section I18nSpec.
Context {C : I18n.Catalog}.

(** X22. For a key that is not empty [t(key)] is never falsy: it is the
    entry of the current language, else the English entry, else the key
    itself.  So a fallback written as [t(key) || "..."] is never shown, and
    a language without a table reads as English. *)
Theorem translation_is_never_blank (lang key : string) :
  key <> "" ->
  truthy (I18n.t lang key) = true
  /\ (forall fallback, or_ (I18n.t lang key) fallback = I18n.t lang key)
  /\ I18n.t lang key =
       first_truthy
         [get (or_ (I18n.table lang) (I18n.table "en")) key;
          get (I18n.table "en") key]
         (VStr key)
  /\ (truthy (I18n.table lang) = false ->
      I18n.t lang key = I18n.t "en" key).
Proof.
  intro Hk.
  assert (Ht : truthy (I18n.t lang key) = true).
  { unfold I18n.t, or_.
    destruct (truthy (get (if truthy (I18n.table lang) then I18n.table lang
                           else I18n.table "en") key)) eqn:E1;
      [now rewrite E1|].
    destruct (truthy (get (I18n.table "en") key)) eqn:E2; [exact E2|].
    cbn [truthy]. apply String.eqb_neq in Hk. now rewrite Hk. }
  split; [exact Ht|]. split.
  { intro fallback. unfold or_ at 1. now rewrite Ht. }
  split.
  { unfold I18n.t, first_truthy, or_. cbn [find].
    destruct (truthy (get (if truthy (I18n.table lang) then I18n.table lang
                           else I18n.table "en") key)) eqn:E1;
      [now rewrite E1|].
    destruct (truthy (get (I18n.table "en") key)); reflexivity. }
  intro Hl. unfold I18n.t, or_. rewrite Hl.
  destruct (truthy (I18n.table "en")); reflexivity.
Qed.

End I18nSpec.

(** ** The further properties on sample inputs *)

Lemma handleChange_updates_one_field_witness :
  let s' := @CropForm.dispatch SampleHost.host (CropForm.Change "rainfall" "High")
              MoreSamples.located_form in
  FormAccess.get "rainfall" (CropForm.form s') = Some "High"
  /\ FormAccess.get "location" (CropForm.form s') = Some "Pune".
Proof.
  destruct (@handleChange_updates_one_field SampleHost.host "rainfall" "High"
              MoreSamples.located_form) as (Hset & Hother & _).
  split.
  - apply Hset. cbn. auto 20.
  - cbn zeta. rewrite (Hother "location"); [reflexivity|discriminate].
Defined.

Lemma preview_failure_stays_on_form_witness :
  let s' :=
    @CropForm.dispatch SampleHost.host
      (CropForm.Settle 0
         (CropForm.Fetched
            (HttpError (VObj [("detail", VStr "Location not found")]))))
      MoreSamples.previewing in
  CropForm.step s' = CropForm.StepForm
  /\ CropForm.error s' = "Location not found"
  /\ CropForm.isLoading s' = false.
Proof.
  destruct (@preview_failure_stays_on_form SampleHost.host
              MoreSamples.previewing 0
              (HttpError (VObj [("detail", VStr "Location not found")]))
              eq_refl eq_refl)
    as (Hstep & _ & _ & _ & Hload & _ & _ & _ & Hdetail & _).
  split; [exact Hstep|]. split; [|exact Hload].
  apply (Hdetail _ _ eq_refl eq_refl). discriminate.
Defined.

Lemma preview_success_enters_confirm_witness :
  let s2 :=
    @CropForm.run SampleHost.host
      [CropForm.Submit;
       CropForm.Settle 0 (CropForm.Fetched (HttpOk Samples.snapshot))]
      MoreSamples.located_form in
  CropForm.render s2 = CropForm.ConfirmView
  /\ CropForm.previewData s2 = Samples.snapshot.
Proof.
  destruct (@preview_success_enters_confirm SampleHost.host
              MoreSamples.located_form Samples.snapshot eq_refl)
    as (_ & _ & _ & _ & _ & Hdata & _ & _ & _ & Hview).
  split; [apply Hview; reflexivity|exact Hdata].
Defined.

Lemma no_automatic_retries_witness :
  sent_count
    (CropForm.trace
       (@CropForm.dispatch SampleHost.host
          (CropForm.Settle 0 (CropForm.Fetched (NetworkError "Failed to fetch")))
          MoreSamples.previewing))
  = sent_count (CropForm.trace MoreSamples.previewing).
Proof.
  destruct (@no_automatic_retries SampleHost.host [] MoreSamples.previewing)
    as [Hstep _].
  apply Hstep. reflexivity.
Defined.

Lemma preview_requests_carry_location_witness :
  In (CropForm.Sent (CropForm.PostPreview MoreSamples.previewed_body))
     (CropForm.trace
        (@CropForm.run SampleHost.host Samples.preview_then_confirm
           (CropForm.initial None)))
  /\ Payload.location MoreSamples.previewed_body <> "".
Proof.
  assert (Hin :
    In (CropForm.Sent (CropForm.PostPreview MoreSamples.previewed_body))
       (CropForm.trace
          (@CropForm.run SampleHost.host Samples.preview_then_confirm
             (CropForm.initial None)))).
  { vm_compute. right. right. left. reflexivity. }
  split; [exact Hin|].
  exact (proj1 (@preview_requests_carry_location SampleHost.host None
                  Samples.preview_then_confirm MoreSamples.previewed_body Hin)).
Defined.

Lemma confirm_success_hands_over_witness :
  CropForm.navigation
    (@CropForm.run SampleHost.host
       [CropForm.ConfirmClick;
        CropForm.Settle 0 (CropForm.Fetched (HttpOk MoreSamples.advisory))]
       Samples.on_confirm_screen)
  = Some MoreSamples.handed_over.
Proof.
  destruct (@confirm_success_hands_over SampleHost.host
              Samples.on_confirm_screen MoreSamples.advisory eq_refl eq_refl)
    as (Hnav & _).
  exact Hnav.
Defined.

Lemma resolveLocation_names_every_point_witness :
  @CropForm.resolveLocation SampleHost.host (CropForm.lat Samples.pune)
    (CropForm.lng Samples.pune)
    (HttpOk {| CropForm.location := Some "Pune, Maharashtra" |})
  = "Pune, Maharashtra".
Proof.
  apply (@resolveLocation_names_every_point SampleHost.host); [reflexivity|].
  discriminate.
Defined.

Lemma detect_failure_leaves_history_witness :
  let after :=
    @Disease.handleDetect_settle SampleHost.host Samples.leaf_file
      (NetworkError "Failed to fetch") "2026-01-01T00:00:00.000Z" true
      (fst (Disease.handleDetect_start Samples.staged)) History.Missing in
  snd after = History.Missing
  /\ Disease.result (fst after) = None
  /\ Disease.file (fst after) = Some Samples.leaf_file.
Proof.
  destruct (@detect_failure_leaves_history SampleHost.host Samples.staged
              (NetworkError "Failed to fetch") "2026-01-01T00:00:00.000Z" true
              History.Missing) as [_ Hfail].
  destruct (Hfail Samples.leaf_file eq_refl eq_refl)
    as (_ & _ & Hh & Hr & _ & _ & Hf & _).
  split; [exact Hh|]. split; [exact Hr|exact Hf].
Defined.

Lemma detect_success_records_history_witness :
  let after :=
    @Disease.handleDetect_settle SampleHost.host Samples.leaf_file
      (HttpOk Samples.response_label_only) "2026-01-01T00:00:00.000Z" true
      (fst (Disease.handleDetect_start Samples.staged)) History.Missing in
  length (History.entries (snd after)) = 1
  /\ Disease.error (fst after) = "".
Proof.
  destruct (@detect_success_records_history SampleHost.host Samples.staged
              Samples.leaf_file Samples.response_label_only
              "2026-01-01T00:00:00.000Z" true History.Missing
              eq_refl eq_refl eq_refl)
    as (_ & Herr & _ & Hentries & _).
  cbn zeta. rewrite Hentries. split; [reflexivity|exact Herr].
Defined.

Lemma handleDrop_stages_images_within_limit_witness :
  Disease.file (Disease.handleDrop (Some Samples.big_file) "blob:4" Samples.staged)
  = Some Samples.leaf_file
  /\ Disease.error
       (Disease.handleDrop (Some MoreSamples.notes_file) "blob:5" Samples.staged)
     <> "".
Proof.
  split.
  - destruct (handleDrop_stages_images_within_limit Samples.big_file "blob:4"
                Samples.staged) as (Hfile & _).
    rewrite Hfile. reflexivity.
  - destruct (handleDrop_stages_images_within_limit MoreSamples.notes_file
                "blob:5" Samples.staged) as (_ & _ & _ & _ & Herr & _).
    apply Herr. reflexivity.
Defined.

Lemma confidence_bar_is_bounded_witness :
  Disease.confidenceColor Samples.shown_label_only = "bg-red-400"
  /\ Disease.confidenceShown Samples.shown_label_only = true.
Proof.
  destruct (confidence_bar_is_bounded Samples.shown_label_only)
    as (_ & Hnotice & _).
  apply Hnotice. reflexivity.
Defined.

Lemma corrupt_store_loses_appends_witness :
  History.run Samples.appends21 History.Unparsable = History.Unparsable
  /\ History.run Samples.appends21 (History.Parsed (VObj [])) =
     History.Parsed (VObj []).
Proof.
  split.
  - apply (corrupt_store_loses_appends Samples.appends21 History.Unparsable).
    reflexivity.
  - apply (corrupt_store_loses_appends Samples.appends21
             (History.Parsed (VObj []))).
    reflexivity.
Defined.


Lemma formatRelativeDate_buckets_witness :
  Home.formatRelativeDate 10000000 (Some 0%Z) = "2h ago"
  /\ Home.formatRelativeDate 0 (Some 5000%Z) = "Just now".
Proof.
  destruct (formatRelativeDate_buckets 10000000 0) as (_ & _ & Hhours & _).
  destruct (formatRelativeDate_buckets 0 5000) as (Hnow & _).
  split.
  - destruct Hhours as [Hs _]; [cbn; lia|]. cbn zeta in Hs. rewrite Hs.
    reflexivity.
  - apply Hnow. cbn. lia.
Defined.

Lemma formatDiseaseName_is_stable_witness :
  has_underscore "Tomato - Late Blight" = false
  /\ DiseaseName.formatDiseaseName (VStr "Tomato - Late Blight")
     = Some "Tomato - Late Blight".
Proof.
  destruct (formatDiseaseName_is_stable (VStr "Tomato___Late_blight"))
    as (_ & _ & Hshown).
  destruct (Hshown "Tomato - Late Blight" eq_refl) as (Hclean & _ & Hagain).
  split; [exact Hclean|exact Hagain].
Defined.

Lemma results_always_show_a_crop_witness :
  Results.crops (CropForm.data MoreSamples.handed_over)
  = [VObj [("crop_name", VStr "rice");
           ("expected_yield", VNum (Finite (42 # 10)));
           ("estimated_profit", VNum (Finite 52000))]].
Proof.
  destruct (@results_always_show_a_crop SampleHost.host
              (CropForm.form Samples.on_confirm_screen)
              (@Normalizer.buildPayload SampleHost.host
                 (CropForm.form Samples.on_confirm_screen))
              MoreSamples.advisory) as (_ & _ & Hsingle).
  apply Hsingle. intros c rest. discriminate.
Defined.

Lemma results_history_entry_witness :
  History.entries
    (Results.saveOnMount MoreSamples.handed_over "2026-01-01T00:00:00.000Z"
       true History.Missing)
  = [History.entry "crop"
       (VObj [("crop", VStr "rice"); ("location", VStr "Pune");
              ("profit", VNum (Finite 52000))])
       "2026-01-01T00:00:00.000Z"].
Proof.
  destruct (results_history_entry MoreSamples.handed_over
              "2026-01-01T00:00:00.000Z" true History.Missing eq_refl)
    as (Hentries & _).
  rewrite Hentries. reflexivity.
Defined.

Lemma sustainability_is_never_high_witness :
  @Results.sustainability SampleHost.host MoreSamples.handed_over = "Moderate".
Proof.
  destruct (@sustainability_is_never_high SampleHost.host
              MoreSamples.handed_over) as (_ & _ & _ & _ & Hdefault).
  apply Hdefault. reflexivity.
Defined.

Lemma route_guard_settles_witness :
  App.render "/results" None = App.RedirectTo "/login"
  /\ App.render "/results" (Some "0") = App.RedirectTo "/login".
Proof.
  split.
  - apply (route_guard_settles "/results" None); reflexivity.
  - apply (route_guard_settles "/results" (Some "0")); reflexivity.
Defined.

Lemma translation_is_never_blank_witness :
  or_ (@I18n.t MoreSamples.catalog "hi" "takePhoto")
      (VStr "Take Photo with Camera")
  = VStr "takePhoto"
  /\ @I18n.t MoreSamples.catalog "hi" "logout" = VStr "Log out".
Proof.
  assert (Hk : "takePhoto" <> "") by discriminate.
  destruct (@translation_is_never_blank MoreSamples.catalog "hi" "takePhoto" Hk)
    as (_ & Hdead & _).
  split; [rewrite Hdead; reflexivity|reflexivity].
Defined.

Lemma gps_flow_end_to_end_witness :
  let s3 :=
    @CropForm.run SampleHost.host
      [CropForm.UseGps true;
       CropForm.Settle 0 (CropForm.Fix Samples.pune);
       CropForm.Settle 0 (CropForm.Geocoded (HttpError VNull) true)]
      Samples.blank_location_form in
  Form.location (CropForm.form s3) = "GPS: 18.5204, 73.8567"
  /\ FormAccess.get "rainfall" (CropForm.form s3) = Some "Low".
Proof.
  destruct (@gps_flow_end_to_end SampleHost.host Samples.blank_location_form
              Samples.pune (HttpError VNull) true)
    as (_ & _ & (Hloc & _ & _ & _ & _ & _ & _ & Hframe) & _).
  split; [exact Hloc|].
  cbn zeta. etransitivity; [apply (Hframe "rainfall"); discriminate|].
  reflexivity.
Defined.

Lemma land_totals_need_positive_size_witness :
  Results.landHectares
    (@CropForm.resultPayload SampleHost.host Samples.form_ph_only
       (@Normalizer.buildPayload SampleHost.host Samples.form_ph_only)
       MoreSamples.advisory)
  = Some (num_mul (num 12) (double (4047 # 10000))).
Proof.
  destruct (land_totals_need_positive_size
              (@CropForm.resultPayload SampleHost.host Samples.form_ph_only
                 (@Normalizer.buildPayload SampleHost.host Samples.form_ph_only)
                 MoreSamples.advisory)) as (_ & Hshown & _).
  apply (Hshown (num 12)); reflexivity.
Defined.
